(** * gdml-editor: hierarchy reconciliation and material resolution

    A shallow embedding of the registry-facing code of
    [src/gdml_editor/gui.py]:

    - [UserMaterialDatabase]            (the durable user catalog),
    - [MaterialDefinitionDialog]        (authoring-time validation, loading a
                                         record into the form),
    - [MaterialManagementDialog.delete_material],
    - [InsertVolumeDialog]              (material listing and creation,
                                         inserting a volume),
    - [GDMLEditorApp]                   (tree population and filtering,
                                         material resolution and assignment,
                                         unit conversion, volume deletion).

    Python values are modelled as the code uses them: dictionaries as
    [gmap], sets as [gset], lists as [list], [float] as IEEE binary64
    ([PrimFloat]), exceptions as a sum type threaded together with the
    mutated registry.  The geometry library (pyg4ometry) is outside the
    repository and is taken as an interface ([Geant4]). *)

From Stdlib Require Import Strings.String Strings.Ascii Floats.PrimFloat.
From Stdlib Require Import ZArith Floats.FloatOps Floats.SpecFloat DecimalString.
From Stdlib Require Import Sorting.Sorted.
From stdpp Require Import base option list gmap sets strings.

Set Warnings "-inexact-float,-clear-no-such-hyp".
Local Open Scope string_scope.

(** ** Python strings, [str.lower] and [sorted] *)

Module Py.

(** [str.lower] on the ASCII letters; names are byte strings. *)
Definition lower_ascii (c : ascii) : ascii :=
  let n := nat_of_ascii c in
  if (65 <=? n)%nat && (n <=? 90)%nat then ascii_of_nat (n + 32) else c.

Fixpoint lower (s : string) : string :=
  match s with
  | EmptyString => EmptyString
  | String c s' => String (lower_ascii c) (lower s')
  end.

(** Truth value of an optional string: [None] and [""] are falsy. *)
Definition truthy (o : option string) : bool :=
  match o with
  | Some s => negb (String.eqb s "")
  | None => false
  end.

(** [str.startswith]. *)
Definition startswith (p s : string) : bool := String.prefix p s.

(** [str.strip]: removes leading and trailing ASCII whitespace. *)
Definition is_space (c : ascii) : bool :=
  let n := nat_of_ascii c in
  (n =? 32)%nat || ((9 <=? n)%nat && (n <=? 13)%nat).

Fixpoint lstrip (s : string) : string :=
  match s with
  | String c s' => if is_space c then lstrip s' else s
  | EmptyString => s
  end.

Fixpoint rev_string (s acc : string) : string :=
  match s with
  | EmptyString => acc
  | String c s' => rev_string s' (String c acc)
  end.

Definition strip (s : string) : string :=
  rev_string (lstrip (rev_string (lstrip s) "")) "".

(** [sorted(xs, key=key)]: the stable sort by [<=] on the keys.  An
    element is inserted in front of the first element whose key is not
    smaller, which keeps equal keys in their original order. *)
Section Sorted.
Context {A : Type} (key : A → string).

Fixpoint insert_by (x : A) (l : list A) : list A :=
  match l with
  | [] => [x]
  | y :: l' =>
      if String.leb (key x) (key y) then x :: y :: l'
      else y :: insert_by x l'
  end.

Definition sorted (l : list A) : list A := foldr insert_by [] l.
End Sorted.

(** Order of two names under a key. *)
Definition key_le {A} (key : A → string) (x y : A) : Prop :=
  String.leb (key x) (key y) = true.

(** [format(x, '.4f')]: the decimal with four places that is nearest to
    the exact value of the float, a tie going to the even last digit;
    the sign is the float's sign bit. *)
Definition digit (d : Z) : string :=
  String (ascii_of_nat (48 + Z.to_nat d)) "".

Definition round_half_even (num den : Z) : Z :=
  let q := (num / den)%Z in
  let r := (num mod den)%Z in
  if (2 * r <? den)%Z then q
  else if (den <? 2 * r)%Z then (q + 1)%Z
  else if Z.even q then q else (q + 1)%Z.

Definition format_4f (x : float) : string :=
  match Prim2SF x with
  | S754_nan => "nan"
  | S754_infinity s => if s then "-inf" else "inf"
  | S754_zero s => (if s then "-" else "") ++ "0.0000"
  | S754_finite s m e =>
      let n := if (0 <=? e)%Z
               then (Z.pos m * 10000 * 2 ^ e)%Z
               else round_half_even (Z.pos m * 10000) (2 ^ (- e)) in
      (if s then "-" else "") ++
      NilZero.string_of_uint (N.to_uint (Z.to_N (n / 10000))) ++ "." ++
      digit (n / 1000 mod 10) ++ digit (n / 100 mod 10) ++
      digit (n / 10 mod 10) ++ digit (n mod 10)
  end.

End Py.

(** ** The registry

    A reference to a logical volume is either an object, of which the code
    reads the [name] attribute only, or a bare name string. *)

Inductive lv_ref :=
  | LVObj (name : option string)
  | LVStr (s : string).

(** A reference to a material held by a logical volume: an object in the
    store, or a string. *)
Definition loc := nat.

Inductive mat_ref :=
  | MatObj (l : loc)
  | MatStr (s : string).

(** Attributes of a library object (material or element) that the editor
    reads or writes; [py_str] is [str(obj)], [composition] the
    mass-fraction components added so far. *)
Record PyObject := mkPyObject {
  obj_name : option string;
  py_str : string;
  obj_density : float;
  obj_state : option string;
  obj_temperature : option float;
  obj_pressure : option float;
  obj_components : list (loc * float);
}.

Record PhysicalVolume := mkPV {
  pv_id : nat;                              (* object identity *)
  pv_name : option string;                  (* hasattr(pv, 'name') *)
  motherVolume : option lv_ref;
  motherLogicalVolume : option lv_ref;
  logicalVolume : option lv_ref;
}.

Record LogicalVolume := mkLV {
  lv_name : string;
  material : option mat_ref;                (* None: no attribute / None *)
  solid : option string;                    (* lv.solid.name, if any *)
  daughterVolumes : list PhysicalVolume;
}.

Record Registry := mkRegistry {
  materialDict : gmap string loc;
  defineDict : gmap string loc;
  logicalVolumeDict : gmap string LogicalVolume;
  physicalVolumeDict : gmap string PhysicalVolume;
  solidDict : gmap string unit;
  worldVolume : option lv_ref;              (* registry.getWorldVolume() *)
  heap : gmap loc PyObject;                 (* the objects referenced above *)
  next_loc : loc;                           (* where the next object goes *)
}.

#[global] Instance lv_ref_eq_dec : EqDecision lv_ref.
Proof. solve_decision. Defined.

#[global] Instance PhysicalVolume_eq_dec : EqDecision PhysicalVolume.
Proof. solve_decision. Defined.

#[global] Instance mat_ref_eq_dec : EqDecision mat_ref.
Proof. solve_decision. Defined.

#[global] Instance LogicalVolume_eq_dec : EqDecision LogicalVolume.
Proof. solve_decision. Defined.

(** ** Hierarchy reconciliation: [GDMLEditorApp.populate_volume_tree] *)

Module Hierarchy.

(** [x if isinstance(x, str) else getattr(x, "name", None)], for an
    attribute that may be absent. *)
Definition name_of (r : option lv_ref) : option string :=
  match r with
  | Some (LVStr s) => Some s
  | Some (LVObj n) => n
  | None => None
  end.

(** [getattr(x, "name", None)] without the string case: a [str] has no
    [name] attribute. *)
Definition obj_name_of (r : option lv_ref) : option string :=
  match r with
  | Some (LVObj n) => n
  | _ => None
  end.

(** [children_by_mother[mother].add(child)] on a [defaultdict(set)]. *)
Definition add_child (mother child : string)
    (cbm : gmap string (gset string)) : gmap string (gset string) :=
  <[mother := (cbm !!! mother) ∪ {[child]}]> cbm.

(** Body of the loop over [registry.physicalVolumeDict.values()]. *)
Definition placement_step (cbm : gmap string (gset string))
    (pv : PhysicalVolume) : gmap string (gset string) :=
  let mother_obj :=
    match motherVolume pv with
    | None => motherLogicalVolume pv
    | Some r => Some r
    end in
  let mother := name_of mother_obj in
  let child := name_of (logicalVolume pv) in
  if Py.truthy mother && Py.truthy child
  then add_child (default "" mother) (default "" child) cbm
  else cbm.

Definition from_placements (reg : Registry)
    (cbm : gmap string (gset string)) : gmap string (gset string) :=
  foldl placement_step cbm (map_to_list (physicalVolumeDict reg)).*2.

(** Body of the inner loop over [mother_lv.daughterVolumes]. *)
Definition daughter_step (mother_name : string)
    (cbm : gmap string (gset string)) (pv : PhysicalVolume)
    : gmap string (gset string) :=
  let child := obj_name_of (logicalVolume pv) in
  if Py.truthy child then add_child mother_name (default "" child) cbm
  else cbm.

Definition from_daughters (reg : Registry)
    (cbm : gmap string (gset string)) : gmap string (gset string) :=
  foldl (λ acc kv, foldl (daughter_step kv.1) acc (daughterVolumes kv.2))
        cbm (map_to_list (logicalVolumeDict reg)).

Definition children_by_mother (reg : Registry) : gmap string (gset string) :=
  from_daughters reg (from_placements reg ∅).

(** One row of the tree widget: [insert(parent, 'end', iid, text=iid,
    values=(mat_name,))]. *)
Record row := mkRow {
  row_parent : string;
  row_iid : string;
  row_material : string;
}.

Record walk := mkWalk {
  visited : gset string;
  rows : list row;
}.

(** The material column of a row. *)
Definition mat_name_of (reg : Registry) (lv_name : string) : string :=
  match logicalVolumeDict reg !! lv_name with
  | Some lv =>
      match material lv with
      | Some (MatObj l) =>
          match heap reg !! l with
          | Some o => default (py_str o) (obj_name o)
          | None => "(Assembly)"
          end
      | Some (MatStr s) => if String.eqb s "" then "(Assembly)" else s
      | None => "(Assembly)"
      end
  | None => "(Assembly)"
  end.

(** [sorted(children_by_mother.get(lv_name, set()), key=lambda s: s.lower())].
    CPython fixes no iteration order for a set; [elements] is taken here,
    which matters only between names that are equal up to case. *)
Definition sorted_children (cbm : gmap string (gset string))
    (lv_name : string) : list string :=
  Py.sorted Py.lower (elements (default ∅ (cbm !! lv_name))).

(** A [for] loop whose body may fail. *)
Definition for_each {A S} (body : A → S → option S) (l : list A) (s : S)
    : option S :=
  foldl (λ acc a, acc ≫= body a) (Some s) l.

(** The nested function [add_lv_by_name].  The recursion of the source is
    bounded by [fuel] here; [None] means the bound was reached.  (The
    interpreter's own recursion limit is not modelled.) *)
Fixpoint add_lv_by_name (reg : Registry) (cbm : gmap string (gset string))
    (fuel : nat) (lv_name parent_item : string) (w : walk) : option walk :=
  match fuel with
  | O => None
  | S fuel' =>
      if bool_decide (lv_name ∈ visited w) then Some w
      else
        let w1 := {| visited := visited w ∪ {[lv_name]};
                     rows := rows w ++
                       [mkRow parent_item lv_name (mat_name_of reg lv_name)] |} in
        for_each (λ child_name, add_lv_by_name reg cbm fuel' child_name lv_name)
                 (sorted_children cbm lv_name) w1
  end.

(** Every name that occurs in the child map. *)
Definition all_names (cbm : gmap string (gset string)) : gset string :=
  dom cbm ∪ ⋃ (map_to_list cbm).*2.

Definition enough_fuel (cbm : gmap string (gset string)) : nat :=
  2 + size (all_names cbm).

(** [populate_volume_tree]: the rows of the tree after the call.  The tree
    is emptied first; it stays empty when there is no registry or no world
    name.  (A volume object is always truthy, so the [if not self.world_lv]
    test never returns.) *)
Definition populate_volume_tree (registry : option Registry) : list row :=
  match registry with
  | None => []
  | Some reg =>
      let world_name := obj_name_of (worldVolume reg) in
      if negb (Py.truthy world_name) then []
      else
        let cbm := children_by_mother reg in
        match add_lv_by_name reg cbm (enough_fuel cbm)
                (default "" world_name) "" (mkWalk ∅ []) with
        | Some w => rows w
        | None => []
        end
  end.

End Hierarchy.

(** ** Exceptions and stateful computations

    A Python call either returns or raises; in both cases the objects it
    mutated stay mutated.  [M S A] threads the mutated state [S] through
    both outcomes. *)

Inductive exn :=
  | ValueError (msg : string)
  | KeyError (key : string)
  | TypeError (msg : string)
  | AttributeError (attr : string)
  | OSError (msg : string)
  | LibraryError (msg : string).        (* raised inside the geometry library *)

#[global] Instance exn_eq_dec : EqDecision exn.
Proof. solve_decision. Defined.

Definition exn_str (e : exn) : string :=
  match e with
  | ValueError m | TypeError m | OSError m | LibraryError m => m
  | KeyError k => "'" ++ k ++ "'"
  | AttributeError a => a
  end.

Definition M (S A : Type) : Type := S → (exn + A) * S.

Definition ret {S A} (a : A) : M S A := λ s, (inr a, s).
Definition raise {S A} (e : exn) : M S A := λ s, (inl e, s).
Definition bind {S A B} (m : M S A) (k : A → M S B) : M S B :=
  λ s, match m s with
       | (inr a, s') => k a s'
       | (inl e, s') => (inl e, s')
       end.
Definition try_except {S A} (m : M S A) (handler : exn → M S A) : M S A :=
  λ s, match m s with
       | (inr a, s') => (inr a, s')
       | (inl e, s') => handler e s'
       end.
Definition gets {S A} (f : S → A) : M S A := λ s, (inr (f s), s).
Definition modify {S} (f : S → S) : M S unit := λ s, (inr tt, f s).

(** [d[key]] on a record read from JSON: [KeyError] when absent. *)
Definition getitem {S A} (key : string) (o : option A) : M S A :=
  match o with
  | Some a => ret a
  | None => raise (KeyError key)
  end.

Declare Scope py_scope.
Delimit Scope py_scope with py.
Notation "'let!' x ':=' c 'in' k" := (bind c (λ x, k))
  (at level 10, x name, c at level 100, k at level 200) : py_scope.
Notation "c ;;; k" := (bind c (λ _, k))
  (at level 90, right associativity) : py_scope.

(** A [for] loop over a list in [M]. *)
Fixpoint for_in {S A} (l : list A) (body : A → M S unit) : M S unit :=
  match l with
  | [] => ret tt
  | a :: l' => bind (body a) (λ _, for_in l' body)
  end.

(** ** Material records of the user catalog *)

Record component := mkComponent {
  element : string;
  fraction : float;
}.

(** [mat_data['composition']]: a formula string or a list of components. *)
Inductive composition_t :=
  | Formula (s : string)
  | Components (l : list component).

(** The JSON object of one material; an absent key is [None]. *)
Record mat_data := mkMatData {
  md_type : option string;
  md_density : option float;
  md_density_unit : option string;
  md_composition : option composition_t;
  md_state : option string;
  md_temperature : option float;
  md_temp_unit : option string;
  md_pressure : option float;
  md_pressure_unit : option string;
}.

(** ['key' in d]. *)
Definition has_key {A} (o : option A) : bool :=
  match o with
  | Some _ => true
  | None => false
  end.

(** Truth value of the dictionary: an empty one is falsy. *)
Definition md_truthy (d : mat_data) : bool :=
  has_key (md_type d) || has_key (md_density d) ||
  has_key (md_density_unit d) || has_key (md_composition d) ||
  has_key (md_state d) || has_key (md_temperature d) ||
  has_key (md_temp_unit d) || has_key (md_pressure d) ||
  has_key (md_pressure_unit d).

(** ** The geometry library, as the editor calls it

    [state] is the optional [state=] keyword.  Every call may mutate the
    registry it is given, also when it raises. *)

Class Geant4 := {
  nist_material_2geant4Material : string → M Registry loc;
  MaterialCompound : string → float → composition_t → option string → M Registry loc;
  Material : string → float → nat → option string → M Registry loc;
  add_element_massfraction : loc → loc → float → M Registry unit;
  nist_element_2geant4Element : string → M Registry loc;
  Element : string → string → float → float → M Registry loc;
  getNistMaterialList : exn + list string;
}.

(** ** [UserMaterialDatabase] *)

Module UserMaterialDatabase.

(** The in-memory dictionary and the JSON file behind it; [file = None]
    when the file does not exist, [writable] tells whether [save] can
    write it. *)
Record t := mk {
  materials : gmap string mat_data;
  file : option (gmap string mat_data);
  writable : bool;
}.

Definition save : M t unit := λ db,
  if writable db
  then (inr tt, {| materials := materials db; file := Some (materials db);
                   writable := writable db |})
  else (inl (OSError "cannot write user_materials.json"), db).

Definition set_materials (f : gmap string mat_data → gmap string mat_data)
    : M t unit :=
  modify (λ db, {| materials := f (materials db); file := file db;
                   writable := writable db |}).

Definition add_material (name : string) (material_data : mat_data) : M t unit :=
  (set_materials (insert name material_data) ;;; save)%py.

Definition remove_material (name : string) : M t bool :=
  (let! present := gets (λ db, bool_decide (is_Some (materials db !! name))) in
   if (present : bool)
   then set_materials (delete name) ;;; save ;;; ret true
   else ret false)%py.

Definition get_material (db : t) (name : string) : option mat_data :=
  materials db !! name.

(** [sorted(self.materials.keys())]. *)
Definition list_materials (db : t) : list string :=
  Py.sorted id (map_to_list (materials db)).*1.

End UserMaterialDatabase.

(** ** Updates of registry fields (attribute and item assignment) *)

Definition set_materialDict (f : gmap string loc → gmap string loc)
    (r : Registry) : Registry :=
  mkRegistry (f (materialDict r)) (defineDict r) (logicalVolumeDict r)
    (physicalVolumeDict r) (solidDict r) (worldVolume r) (heap r) (next_loc r).

Definition set_logicalVolumeDict
    (f : gmap string LogicalVolume → gmap string LogicalVolume)
    (r : Registry) : Registry :=
  mkRegistry (materialDict r) (defineDict r) (f (logicalVolumeDict r))
    (physicalVolumeDict r) (solidDict r) (worldVolume r) (heap r) (next_loc r).

Definition set_physicalVolumeDict
    (f : gmap string PhysicalVolume → gmap string PhysicalVolume)
    (r : Registry) : Registry :=
  mkRegistry (materialDict r) (defineDict r) (logicalVolumeDict r)
    (f (physicalVolumeDict r)) (solidDict r) (worldVolume r) (heap r)
    (next_loc r).

Definition set_solidDict (f : gmap string unit → gmap string unit)
    (r : Registry) : Registry :=
  mkRegistry (materialDict r) (defineDict r) (logicalVolumeDict r)
    (physicalVolumeDict r) (f (solidDict r)) (worldVolume r) (heap r)
    (next_loc r).

Definition set_heap (f : gmap loc PyObject → gmap loc PyObject)
    (r : Registry) : Registry :=
  mkRegistry (materialDict r) (defineDict r) (logicalVolumeDict r)
    (physicalVolumeDict r) (solidDict r) (worldVolume r) (f (heap r))
    (next_loc r).

(** [mat.temperature = t] and [mat.pressure = p]. *)
Definition set_temperature (l : loc) (t : float) : M Registry unit :=
  modify (set_heap (alter (λ o,
    mkPyObject (obj_name o) (py_str o) (obj_density o) (obj_state o)
      (Some t) (obj_pressure o) (obj_components o)) l)).

Definition set_pressure (l : loc) (p : float) : M Registry unit :=
  modify (set_heap (alter (λ o,
    mkPyObject (obj_name o) (py_str o) (obj_density o) (obj_state o)
      (obj_temperature o) (Some p) (obj_components o)) l)).

(** ** Unit conversion *)

Module Units.

(** [d.get(key, default)] on a dictionary literal. *)
Fixpoint dict_get (d : list (string * float)) (key : string) (dflt : float)
    : float :=
  match d with
  | [] => dflt
  | (k, v) :: d' => if String.eqb k key then v else dict_get d' key dflt
  end.

Definition density_conversion : list (string * float) :=
  [("g/cm3", 1.0%float); ("mg/cm3", 1e-3%float); ("kg/m3", 1e-3%float)].

Definition pressure_conversion : list (string * float) :=
  [("pascal", 1.0%float); ("bar", 1e5%float); ("atm", 101325.0%float)].

(** [GDMLEditorApp._convert_density_to_g_cm3]. *)
Definition _convert_density_to_g_cm3 (density : float) (unit : string) : float :=
  (density * dict_get density_conversion unit 1.0)%float.

(** [InsertVolumeDialog._convert_density]. *)
Definition _convert_density (density : float) (unit : string) : float :=
  (density * dict_get density_conversion unit 1.0)%float.

(** [GDMLEditorApp._convert_temperature_to_kelvin]. *)
Definition _convert_temperature_to_kelvin {S} (d : mat_data) : M S float :=
  (let! temp := getitem "temperature" (md_temperature d) in
   let unit := default "K" (md_temp_unit d) in
   ret (if String.eqb unit "C" then (temp + 273.15)%float else temp))%py.

(** [GDMLEditorApp._convert_pressure_to_pascal]. *)
Definition _convert_pressure_to_pascal {S} (d : mat_data) : M S float :=
  (let! pressure := getitem "pressure" (md_pressure d) in
   let unit := default "pascal" (md_pressure_unit d) in
   ret (pressure * dict_get pressure_conversion unit 1.0)%float)%py.

End Units.

(** ** [MaterialDefinitionDialog.save_material] *)

Module MaterialDefinitionDialog.

(** The text of the form's variables. *)
Record form := mkForm {
  name_var : string;
  density_var : string;
  material_type : string;
  density_unit_var : string;
  formula_var : string;
  element_entries : list (string * string);   (* element, fraction *)
  state_var : string;
  temp_var : string;
  temp_unit_var : string;
  pressure_var : string;
  pressure_unit_var : string;
}.

Section SaveMaterial.
(** The builtin [float(text)]; [None] when it raises. *)
Variable py_float : string → option float.

(** The loop over [self.element_entries]: the components read so far and
    their running sum, or the text of the error box. *)
Fixpoint read_entries (entries : list (string * string))
    (composition : list component) (total_fraction : float)
    : string + (list component * float) :=
  match entries with
  | [] => inr (composition, total_fraction)
  | (e, f) :: rest =>
      let element := Py.strip e in
      let fraction_str := Py.strip f in
      if String.eqb element "" && String.eqb fraction_str ""
      then read_entries rest composition total_fraction
      else if String.eqb element "" || String.eqb fraction_str ""
      then inl "All element rows must have both element and fraction"
      else
        match py_float fraction_str with
        | Some fraction =>
            if (fraction <=? 0)%float || (1 <? fraction)%float
            then inl ("Invalid fraction for " ++ element ++
                      ": must be between 0 and 1")
            else read_entries rest
                   (composition ++ [mkComponent element fraction])
                   (total_fraction + fraction)%float
        | None => inl ("Invalid fraction for " ++ element ++
                       ": must be between 0 and 1")
        end
  end.

(** The composition entry of [material_data], or the error box. *)
Definition read_composition (f : form) : string + composition_t :=
  if String.eqb (material_type f) "compound"
  then
    let formula := Py.strip (formula_var f) in
    if String.eqb formula "" then inl "Molecular formula is required"
    else inr (Formula formula)
  else
    match read_entries (element_entries f) [] 0%float with
    | inl msg => inl msg
    | inr (composition, total_fraction) =>
        match composition with
        | [] => inl "At least one element is required for mixture"
        | _ =>
            if (0.001 <? abs (total_fraction - 1.0))%float
            then inl ("Mass fractions must sum to 1.0 (current sum: " ++
                      Py.format_4f total_fraction ++ ")")
            else inr (Components composition)
        end
    end.

(** An optional numeric field with its unit. *)
Definition read_optional (text unit msg : string)
    : string + (option float * option string) :=
  let t := Py.strip text in
  if String.eqb t "" then inr (None, None)
  else match py_float t with
       | Some v => inr (Some v, Some unit)
       | None => inl msg
       end.

(** [save_material]: [inl msg] is the error box (the dialog stays open),
    [inr name] is [self.result]. *)
Definition save_material (f : form) (db : UserMaterialDatabase.t)
    : (string + string) * UserMaterialDatabase.t :=
  let name := Py.strip (name_var f) in
  if String.eqb name "" then (inl "Material name is required", db)
  else
    match py_float (density_var f) with
    | None => (inl "Density must be a positive number", db)
    | Some density =>
        if (density <=? 0)%float
        then (inl "Density must be a positive number", db)
        else
          match read_composition f with
          | inl msg => (inl msg, db)
          | inr composition =>
              match read_optional (temp_var f) (temp_unit_var f)
                      "Invalid temperature value" with
              | inl msg => (inl msg, db)
              | inr (temperature, temp_unit) =>
                  match read_optional (pressure_var f) (pressure_unit_var f)
                          "Invalid pressure value" with
                  | inl msg => (inl msg, db)
                  | inr (pressure, pressure_unit) =>
                      let material_data :=
                        mkMatData (Some (material_type f)) (Some density)
                          (Some (density_unit_var f)) (Some composition)
                          (Some (state_var f)) temperature temp_unit
                          pressure pressure_unit in
                      match UserMaterialDatabase.add_material name
                              material_data db with
                      | (inr _, db') => (inr name, db')
                      | (inl e, db') =>
                          (inl ("Failed to save material: " ++ exn_str e), db')
                      end
                  end
              end
          end
    end.
End SaveMaterial.

End MaterialDefinitionDialog.

(** [len(composition)] and [for comp in composition]: a string iterates
    over its characters, on which [comp['element']] raises. *)
Definition composition_len (c : composition_t) : nat :=
  match c with
  | Formula s => String.length s
  | Components l => length l
  end.

Definition for_components {S} (c : composition_t)
    (body : component → M S unit) : M S unit :=
  match c with
  | Components l => for_in l body
  | Formula EmptyString => ret tt
  | Formula _ => raise (TypeError "string indices must be integers")
  end.

(** ** [InsertVolumeDialog] *)

Module InsertVolumeDialog.

Section WithLibrary.
Context {G : Geant4}.

(** [if x not in materials: materials.append(x)]. *)
Definition append_new (materials : list string) (x : string) : list string :=
  if bool_decide (x ∈ materials) then materials else materials ++ [x].

Definition fallback_nist_materials : list string :=
  ["G4_AIR"; "G4_Al"; "G4_Cu"; "G4_Fe"; "G4_Pb"; "G4_W";
   "G4_WATER"; "G4_Galactic"; "G4_CONCRETE"; "G4_PLASTIC_SC_VINYLTOLUENE"].

(** [InsertVolumeDialog._get_all_available_materials]; [file] is the
    content of [user_materials.json], if the file exists. *)
Definition _get_all_available_materials (registry : Registry)
    (file : option (gmap string mat_data)) : list string :=
  let materials := (map_to_list (materialDict registry)).*1 in
  let materials :=
    match getNistMaterialList with
    | inr nist_list => foldl append_new materials nist_list
    | inl _ => foldl append_new materials fallback_nist_materials
    end in
  let materials :=
    match file with
    | Some user_mats => foldl append_new materials (map_to_list user_mats).*1
    | None => materials
    end in
  Py.sorted id materials.

(** The element of one mixture component: the NIST element, else an
    element made from the bare symbol. *)
Definition element_or_placeholder (symbol : string) : M Registry loc :=
  try_except (nist_element_2geant4Element symbol)
    (λ _, Element symbol symbol 1.0%float 1.0%float).

(** The [try] block that creates a material from the catalog file. *)
Definition create_from_file (material_name : string)
    (file : option (gmap string mat_data))
    : M Registry (string + loc) :=
  (let! user_mats := match file with
                | Some m => ret m
                | None => raise (OSError "user_materials.json")
                end in
   match user_mats !! material_name with
   | None => ret (inl ("Material '" ++ material_name ++ "' not found"))
   | Some d =>
       let! dens := getitem "density" (md_density d) in
       let! unit := getitem "density_unit" (md_density_unit d) in
       let density := Units._convert_density dens unit in
       let! type := getitem "type" (md_type d) in
       let! composition := getitem "composition" (md_composition d) in
       if String.eqb type "compound"
       then
         let! material := MaterialCompound material_name density composition None in
         ret (inr material)
       else
         let! material := Material material_name density
                       (composition_len composition) None in
         for_components composition (λ comp,
           let! el := element_or_placeholder (element comp) in
           add_element_massfraction material el (fraction comp)) ;;;
         ret (inr material)
   end)%py.

(** The "get or create material" block of [insert_volume]: [inl msg] is
    an error box followed by [return], [inr material] the material the
    volume is built with. *)
Definition get_or_create_material (material_name : string)
    (file : option (gmap string mat_data)) (reg : Registry)
    : (string + loc) * Registry :=
  match materialDict reg !! material_name with
  | Some material => (inr material, reg)
  | None =>
      if Py.startswith "G4_" material_name
      then
        match nist_material_2geant4Material material_name reg with
        | (inr material, reg') => (inr material, reg')
        | (inl _, reg') =>
            match materialDict reg' !! material_name with
            | Some material => (inr material, reg')
            | None => (inl ("Failed to create NIST material: " ++
                            material_name), reg')
            end
        end
      else
        match create_from_file material_name file reg with
        | (inr r, reg') => (r, reg')
        | (inl e, reg') =>
            (inl ("Failed to create material: " ++ exn_str e), reg')
        end
  end.
End WithLibrary.

End InsertVolumeDialog.

(** ** [GDMLEditorApp] *)

Module GDMLEditorApp.

Record t := mk {
  registry : option Registry;
  world_lv : option lv_ref;
  user_material_db : UserMaterialDatabase.t;
  _cached_nist_materials : option (list string);
}.

(** A method body that works on the loaded registry object. *)
Definition on_registry {A} (m : M Registry A) : M t A := λ app,
  match registry app with
  | Some reg =>
      let '(r, reg') := m reg in
      (r, mk (Some reg') (world_lv app) (user_material_db app)
             (_cached_nist_materials app))
  | None => (inl (AttributeError "NoneType"), app)
  end.

Section WithLibrary.
Context {G : Geant4}.

(** [_get_or_create_element]. *)
Definition _get_or_create_element (element_name : string) : M Registry loc :=
  λ reg,
  match defineDict reg !! element_name with
  | Some el => (inr el, reg)
  | None =>
      try_except (nist_element_2geant4Element element_name)
        (λ e, raise (ValueError ("Unknown element '" ++ element_name ++
                                 "': " ++ exn_str e))) reg
  end.

(** [create_user_material_in_registry]. *)
Definition create_user_material_in_registry (mat_name : string)
    (d : mat_data) : M Registry loc :=
  (let! dens := getitem "density" (md_density d) in
   let! unit := getitem "density_unit" (md_density_unit d) in
   let density := Units._convert_density_to_g_cm3 dens unit in
   let state := default "solid" (md_state d) in
   let! temperature := (if has_key (md_temperature d)
                   then let! t := Units._convert_temperature_to_kelvin d in
                        ret (Some t)
                   else ret None) in
   let! pressure := (if has_key (md_pressure d)
                then let! p := Units._convert_pressure_to_pascal d in
                     ret (Some p)
                else ret None) in
   let! type := getitem "type" (md_type d) in
   let! mat := (if String.eqb type "compound"
           then
             let! composition := getitem "composition" (md_composition d) in
             MaterialCompound mat_name density composition (Some state)
           else
             let! composition := getitem "composition" (md_composition d) in
             let! mat := Material mat_name density (composition_len composition)
                      (Some state) in
             for_components composition (λ comp,
               let! el := _get_or_create_element (element comp) in
               add_element_massfraction mat el (fraction comp)) ;;;
             ret mat) in
   match temperature with
   | Some t => set_temperature mat t
   | None => ret tt
   end ;;;
   match pressure with
   | Some p => set_pressure mat p
   | None => ret tt
   end ;;;
   ret mat)%py.

(** [_ensure_material_in_registry], once the registry is known to be
    loaded. *)
Definition ensure_in (db : UserMaterialDatabase.t) (material_name : string)
    : M Registry loc := λ reg,
  match materialDict reg !! material_name with
  | Some m => (inr m, reg)
  | None =>
      if Py.startswith "G4_" material_name
      then
        try_except (nist_material_2geant4Material material_name)
          (λ e reg',
             match materialDict reg' !! material_name with
             | Some m => (inr m, reg')
             | None => (inl e, reg')
             end) reg
      else
        match UserMaterialDatabase.get_material db material_name with
        | Some d =>
            if md_truthy d
            then create_user_material_in_registry material_name d reg
            else (inl (ValueError ("Unknown material '" ++ material_name ++
                                   "'")), reg)
        | None => (inl (ValueError ("Unknown material '" ++ material_name ++
                                    "'")), reg)
        end
  end.

Definition _ensure_material_in_registry (material_name : string) : M t loc :=
  λ app,
  match registry app with
  | None => (inl (ValueError "No registry loaded"), app)
  | Some _ =>
      on_registry (ensure_in (user_material_db app) material_name) app
  end.

(** [_get_all_available_materials]: the list shown, and the application
    with its cache of NIST names filled. *)
Definition _get_all_available_materials (app : t) : list string * t :=
  match registry app with
  | None => ([], app)
  | Some reg =>
      let materials : gset string := dom (materialDict reg) in
      let cached :=
        match _cached_nist_materials app with
        | Some l => l
        | None =>
            match getNistMaterialList with
            | inr l => l
            | inl _ => []
            end
        end in
      let materials := materials ∪ list_to_set cached in
      let materials :=
        materials ∪
        list_to_set (UserMaterialDatabase.list_materials (user_material_db app)) in
      (Py.sorted Py.lower (elements materials),
       mk (registry app) (world_lv app) (user_material_db app) (Some cached))
  end.

(** [_update_volume_material_dropdown]: the listing is made for the
    combo box; what stays of it in the application is the cache. *)
Definition _update_volume_material_dropdown (app : t) : t :=
  match registry app with
  | None => app
  | Some _ => (_get_all_available_materials app).2
  end.

(** [update_user_material_list]. *)
Definition update_user_material_list (app : t) : t :=
  _update_volume_material_dropdown app.
End WithLibrary.

(** *** [delete_volume] *)

(** [pv.logicalVolume.name]; a missing attribute, [None] or a string in
    place of the volume object raises [AttributeError]. *)
Definition child_name (pv : PhysicalVolume) : exn + string :=
  match logicalVolume pv with
  | Some (LVObj (Some n)) => inr n
  | _ => inl (AttributeError "name")
  end.

(** [pv.logicalVolume.name == volume_name]. *)
Definition places (volume_name : string) (pv : PhysicalVolume) : exn + bool :=
  match child_name pv with
  | inr n => inr (String.eqb n volume_name)
  | inl e => inl e
  end.

(** A loop that appends the elements passing a test that may raise. *)
Fixpoint select {A} (test : A → exn + bool) (l : list A) : exn + list A :=
  match l with
  | [] => inr []
  | x :: l' =>
      match test x with
      | inl e => inl e
      | inr b =>
          match select test l' with
          | inl e => inl e
          | inr r => inr (if b then x :: r else r)
          end
      end
  end.

(** First loop: [pv_to_remove], the parent (by its key) with each daughter
    placement of [volume_name]. *)
Fixpoint find_placements (volume_name : string)
    (items : list (string * LogicalVolume))
    : exn + list (string * PhysicalVolume) :=
  match items with
  | [] => inr []
  | (k, lv) :: rest =>
      match select (places volume_name) (daughterVolumes lv) with
      | inl e => inl e
      | inr ps =>
          match find_placements volume_name rest with
          | inl e => inl e
          | inr r => inr (map (pair k) ps ++ r)%list
          end
      end
  end.

(** [l.remove(x)]: drops the first occurrence, [None] when there is none
    ([ValueError]). *)
Fixpoint remove_first {A} `{EqDecision A} (x : A) (l : list A)
    : option (list A) :=
  match l with
  | [] => None
  | y :: l' =>
      if decide (x = y) then Some l' else (cons y) <$> remove_first x l'
  end.

Definition with_daughters (lv : LogicalVolume) (ds : list PhysicalVolume)
    : LogicalVolume :=
  mkLV (lv_name lv) (material lv) (solid lv) ds.

(** [parent_lv.daughterVolumes.remove(pv)], for the parent stored under
    key [k] (the pairs of the second loop were read from this
    dictionary, so the key is present). *)
Definition remove_daughter (k : string) (pv : PhysicalVolume)
    : M Registry unit := λ reg,
  match logicalVolumeDict reg !! k with
  | None => (inr tt, reg)
  | Some parent_lv =>
      match remove_first pv (daughterVolumes parent_lv) with
      | None => (inl (ValueError "list.remove(x): x not in list"), reg)
      | Some ds =>
          (inr tt,
           set_logicalVolumeDict (insert k (with_daughters parent_lv ds)) reg)
      end
  end.

(** [if hasattr(pv, 'name') and pv.name in physicalVolumeDict:
    del physicalVolumeDict[pv.name]]. *)
Definition unregister_placement (pv : PhysicalVolume) : M Registry unit :=
  λ reg,
  match pv_name pv with
  | Some n =>
      if bool_decide (is_Some (physicalVolumeDict reg !! n))
      then (inr tt, set_physicalVolumeDict (delete n) reg)
      else (inr tt, reg)
  | None => (inr tt, reg)
  end.

(** Body of the second loop. *)
Definition remove_placement (k : string) (pv : PhysicalVolume)
    : M Registry unit :=
  (remove_daughter k pv ;;; unregister_placement pv)%py.

(** The block under [if volume_name in self.registry.logicalVolumeDict]. *)
Definition remove_from_registry (volume_name : string) : M Registry unit :=
  λ reg,
  match logicalVolumeDict reg !! volume_name with
  | None => (inr tt, reg)
  | Some lv =>
      match select (λ kv, places volume_name kv.2)
              (map_to_list (physicalVolumeDict reg)) with
      | inl e => (inl e, reg)
      | inr pv_names_to_remove =>
          let reg1 :=
            set_physicalVolumeDict
              (λ d, foldl (λ d kv, delete kv.1 d) d pv_names_to_remove) reg in
          let reg2 :=
            match solid lv with
            | Some solid_name =>
                if bool_decide (is_Some (solidDict reg1 !! solid_name))
                then set_solidDict (delete solid_name) reg1
                else reg1
            | None => reg1
            end in
          (inr tt, set_logicalVolumeDict (delete volume_name) reg2)
      end
  end.

(** The [try] block of [delete_volume], up to the tree refresh. *)
Definition delete_volume_body (volume_name : string) : M Registry unit :=
  λ reg,
  match find_placements volume_name (map_to_list (logicalVolumeDict reg)) with
  | inl e => (inl e, reg)
  | inr pv_to_remove =>
      ((for_in pv_to_remove (λ p, remove_placement p.1 p.2)) ;;;
       remove_from_registry volume_name)%py reg
  end.

(** What [refresh_volume_tree] (that is, [populate_volume_tree]) does to
    the application besides filling the tree: [self.world_lv] becomes
    the volume registered under the world's name, or the world object
    itself when no volume is registered under that name; it stays as it
    is when there is no registry or no world name. *)
Definition refresh_volume_tree (app : t) : t :=
  match registry app with
  | None => app
  | Some reg =>
      let world_name := Hierarchy.obj_name_of (worldVolume reg) in
      if negb (Py.truthy world_name) then app
      else
        mk (registry app)
           (match logicalVolumeDict reg !! default "" world_name with
            | Some lv => Some (LVObj (Some (lv_name lv)))
            | None => worldVolume reg
            end)
           (user_material_db app) (_cached_nist_materials app)
  end.

Inductive outcome :=
  | NothingDone                 (* no registry, no selection, not confirmed *)
  | CannotDeleteWorld
  | Uncaught (e : exn)          (* raised outside the [try] block *)
  | Failed (e : exn)            (* "Failed to delete volume" *)
  | Deleted.

(** [delete_volume]; [selected] is the text of the selected tree item,
    [confirmed] the answer to the confirmation box. *)
Definition delete_volume (selected : option string) (confirmed : bool)
    (app : t) : outcome * t :=
  match registry app, selected with
  | Some reg, Some volume_name =>
      if negb confirmed then (NothingDone, app)
      else
        match world_lv app with
        | Some (LVObj (Some world_name)) =>
            if String.eqb volume_name world_name
            then (CannotDeleteWorld, app)
            else
              let '(r, reg') := delete_volume_body volume_name reg in
              let app' := mk (Some reg') (world_lv app) (user_material_db app)
                             (_cached_nist_materials app) in
              match r with
              | inr _ => (Deleted, refresh_volume_tree app')
              | inl e => (Failed e, app')
              end
        | _ => (Uncaught (AttributeError "name"), app)
        end
  | _, _ => (NothingDone, app)
  end.

End GDMLEditorApp.

(** ** [MaterialManagementDialog.delete_material] *)

Module MaterialManagementDialog.

Section WithLibrary.
Context {G : Geant4}.

(** [selection] is the name selected in the list box, [confirmed] the
    answer to the confirmation box. *)
Definition delete_material (selection : option string) (confirmed : bool)
    : M GDMLEditorApp.t unit := λ app,
  match selection with
  | None => (inr tt, app)
  | Some mat_name =>
      if confirmed
      then
        match UserMaterialDatabase.remove_material mat_name
                (GDMLEditorApp.user_material_db app) with
        | (inl e, db') =>
            (inl e, GDMLEditorApp.mk (GDMLEditorApp.registry app)
                      (GDMLEditorApp.world_lv app) db'
                      (GDMLEditorApp._cached_nist_materials app))
        | (inr _, db') =>
            let registry' :=
              match GDMLEditorApp.registry app with
              | Some reg =>
                  if bool_decide (is_Some (materialDict reg !! mat_name))
                  then Some (set_materialDict (delete mat_name) reg)
                  else Some reg
              | None => None
              end in
            (inr tt,
             GDMLEditorApp.update_user_material_list
               (GDMLEditorApp.mk registry' (GDMLEditorApp.world_lv app)
                  db' (GDMLEditorApp._cached_nist_materials app)))
        end
      else (inr tt, app)
  end.
End WithLibrary.

End MaterialManagementDialog.

(** ** Example registries *)

Module Examples.

Definition empty_registry : Registry :=
  mkRegistry ∅ ∅ ∅ ∅ ∅ None ∅ 0.

Definition air : PyObject :=
  mkPyObject (Some "G4_AIR") "G4_AIR" 0.00120479%float (Some "gas") None None [].

(** A placement of [child] (an object) in [mother]. *)
Definition place (id : nat) (name : string) (mother child : lv_ref)
    : PhysicalVolume :=
  mkPV id (Some name) (Some mother) None (Some child).

Definition volume (name : string) (daughters : list PhysicalVolume)
    : LogicalVolume :=
  mkLV name (Some (MatObj 0)) (Some (name ++ "_solid")%string) daughters.

(** World [W]; the placement of [A] in [W] is known to
    [physicalVolumeDict] only (with the mother as a bare name); the
    placement of [B] in [A] is known to [A.daughterVolumes] only. *)
Definition w_a_b : Registry :=
  mkRegistry {["G4_AIR" := 0]} ∅
    {["W" := volume "W" [];
      "A" := volume "A" [place 2 "B_pv" (LVObj (Some "A")) (LVObj (Some "B"))];
      "B" := mkLV "B" None None []]}
    {["A_pv" := place 1 "A_pv" (LVStr "W") (LVObj (Some "A"))]}
    {["W_solid" := tt; "A_solid" := tt]}
    (Some (LVObj (Some "W"))) {[0 := air]} 1.

(** A malformed registry: [C] is placed in both [A] and [B], and [W] is
    placed in [C]. *)
Definition diamond_cycle : Registry :=
  mkRegistry {["G4_AIR" := 0]} ∅
    {["W" := volume "W" []; "A" := volume "A" []; "B" := volume "B" [];
      "C" := volume "C" []]}
    {["p1" := place 1 "p1" (LVObj (Some "W")) (LVObj (Some "A"));
      "p2" := place 2 "p2" (LVObj (Some "W")) (LVObj (Some "B"));
      "p3" := place 3 "p3" (LVObj (Some "A")) (LVObj (Some "C"));
      "p4" := place 4 "p4" (LVObj (Some "B")) (LVObj (Some "C"));
      "p5" := place 5 "p5" (LVObj (Some "C")) (LVObj (Some "W"))]}
    ∅ (Some (LVObj (Some "W"))) {[0 := air]} 1.

(** [W] holds [A], [A] holds [B]; both bookkeeping structures agree. *)
Definition nested : Registry :=
  let a_pv := place 1 "A_pv" (LVObj (Some "W")) (LVObj (Some "A")) in
  let b_pv := place 2 "B_pv" (LVObj (Some "A")) (LVObj (Some "B")) in
  mkRegistry {["G4_AIR" := 0]} ∅
    {["W" := volume "W" [a_pv]; "A" := volume "A" [b_pv];
      "B" := volume "B" []]}
    {["A_pv" := a_pv; "B_pv" := b_pv]}
    {["W_solid" := tt; "A_solid" := tt; "B_solid" := tt]}
    (Some (LVObj (Some "W"))) {[0 := air]} 1.

End Examples.

(** ** A stand-in for the geometry library

    Used to run the model on examples: materials and elements are
    allocated in the store and registered under their name; a name that is
    already registered is refused.  ["G4_HALF"] registers its material and
    then raises, as a creation that fails half-way does. *)

Module Toy.

Definition alloc (o : PyObject) (r : Registry) : loc * Registry :=
  (next_loc r,
   mkRegistry (materialDict r) (defineDict r) (logicalVolumeDict r)
     (physicalVolumeDict r) (solidDict r) (worldVolume r)
     (<[next_loc r := o]> (heap r)) (S (next_loc r))).

Definition new_object (name : string) (density : float)
    (state : option string) : PyObject :=
  mkPyObject (Some name) name density state None None [].

Definition new_material (name : string) (density : float)
    (state : option string) : M Registry loc := λ r,
  match materialDict r !! name with
  | Some _ => (inl (LibraryError "IdenticalNameError"), r)
  | None =>
      let '(l, r1) := alloc (new_object name density state) r in
      (inr l, set_materialDict (insert name l) r1)
  end.

Definition new_element (name : string) : M Registry loc := λ r,
  match defineDict r !! name with
  | Some _ => (inl (LibraryError "IdenticalNameError"), r)
  | None =>
      let '(l, r1) := alloc (new_object name 0%float None) r in
      (inr l,
       mkRegistry (materialDict r1) (<[name := l]> (defineDict r1))
         (logicalVolumeDict r1) (physicalVolumeDict r1) (solidDict r1)
         (worldVolume r1) (heap r1) (next_loc r1))
  end.

Definition nist_materials : list string :=
  ["G4_AIR"; "G4_Galactic"; "G4_WATER"].

Definition nist_elements : list string :=
  ["H"; "C"; "N"; "O"; "Fe"; "Pb"].

Definition nist_material (name : string) : M Registry loc :=
  if bool_decide (name ∈ nist_materials) then new_material name 1.0%float None
  else if String.eqb name "G4_HALF"
  then (new_material name 1.0%float None ;;;
        raise (LibraryError "creation interrupted"))%py
  else raise (LibraryError ("unknown NIST material " ++ name)).

Definition nist_element (name : string) : M Registry loc :=
  if bool_decide (name ∈ nist_elements) then new_element name
  else raise (LibraryError ("unknown NIST element " ++ name)).

Definition add_massfraction (mat el : loc) (f : float) : M Registry unit :=
  modify (set_heap (alter (λ o,
    mkPyObject (obj_name o) (py_str o) (obj_density o) (obj_state o)
      (obj_temperature o) (obj_pressure o)
      (obj_components o ++ [(el, f)])%list) mat)).

#[local] Instance G4 : Geant4 := {|
  nist_material_2geant4Material := nist_material;
  MaterialCompound := λ name density _ state, new_material name density state;
  Material := λ name density _ state, new_material name density state;
  add_element_massfraction := add_massfraction;
  nist_element_2geant4Element := nist_element;
  Element := λ name _ _ _, new_element name;
  getNistMaterialList := inr nist_materials;
|}.

(** [float(text)] on the texts used in the examples. *)
Definition py_float (text : string) : option float :=
  if String.eqb text "1.0" then Some 1.0%float
  else if String.eqb text "7.87" then Some 7.87%float
  else if String.eqb text "0.5" then Some 0.5%float
  else if String.eqb text "0.4" then Some 0.4%float
  else if String.eqb text "0.112" then Some 0.112%float
  else if String.eqb text "0.888" then Some 0.888%float
  else None.

End Toy.

(** Another stand-in: a library whose [Material] does not take the
    arguments the editor passes and whose [MaterialCompound] does not
    accept an empty formula. *)
Module Strict.

#[local] Instance G4 : Geant4 := {|
  nist_material_2geant4Material := Toy.nist_material;
  MaterialCompound := λ name density composition state,
    match composition with
    | Formula "" => raise (ValueError "invalid formula")
    | _ => Toy.new_material name density state
    end;
  Material := λ _ _ _ _, raise (TypeError "positional arguments");
  add_element_massfraction := Toy.add_massfraction;
  nist_element_2geant4Element := Toy.nist_element;
  Element := λ name _ _ _, Toy.new_element name;
  getNistMaterialList := inr Toy.nist_materials;
|}.

End Strict.

(** ** Example catalogs and applications *)

Module Catalog.

Definition mixture (density : float) (unit : string)
    (components : list component) : mat_data :=
  mkMatData (Some "mixture") (Some density) (Some unit)
    (Some (Components components)) (Some "solid") None None None None.

Definition compound (density : float) (unit formula : string) : mat_data :=
  mkMatData (Some "compound") (Some density) (Some unit)
    (Some (Formula formula)) (Some "solid") None None None None.

(** Fractions 0.112 + 0.888. *)
Definition water : mat_data :=
  mixture 1.0 "g/cm3" [mkComponent "H" 0.112; mkComponent "O" 0.888].

(** Fractions 0.5 + 0.4: the sum misses 1.0 by a tenth. *)
Definition lean : mat_data :=
  mixture 1.0 "g/cm3" [mkComponent "H" 0.5; mkComponent "O" 0.4].

(** A component the NIST element table does not know. *)
Definition alloy : mat_data :=
  mixture 7.87 "g/cm3" [mkComponent "Fe" 0.9; mkComponent "Xx" 0.1].

(** A compound without a formula. *)
Definition blank : mat_data := compound 1.0 "g/cm3" "".

Definition materials : gmap string mat_data :=
  {["Water" := water; "Lean" := lean; "Alloy" := alloy; "Blank" := blank]}.

Definition db : UserMaterialDatabase.t :=
  UserMaterialDatabase.mk materials (Some materials) true.

(** The application after loading [Examples.w_a_b]. *)
Definition app : GDMLEditorApp.t :=
  GDMLEditorApp.mk (Some Examples.w_a_b) (Some (LVObj (Some "W"))) db None.

(** [Examples.w_a_b] after [Water] has been materialized (object 1) and
    given to volume [A] as its material. *)
Definition registry_with_water : Registry :=
  mkRegistry {["G4_AIR" := 0; "Water" := 1]} ∅
    {["W" := Examples.volume "W" [];
      "A" := mkLV "A" (Some (MatObj 1)) (Some "A_solid")
               [Examples.place 2 "B_pv" (LVObj (Some "A")) (LVObj (Some "B"))];
      "B" := mkLV "B" None None []]}
    {["A_pv" := Examples.place 1 "A_pv" (LVStr "W") (LVObj (Some "A"))]}
    {["W_solid" := tt; "A_solid" := tt]}
    (Some (LVObj (Some "W")))
    {[0 := Examples.air;
      1 := mkPyObject (Some "Water") "Water" 1.0 (Some "solid") None None []]}
    2.

Definition app_with_water : GDMLEditorApp.t :=
  GDMLEditorApp.mk (Some registry_with_water) (Some (LVObj (Some "W"))) db None.

(** Forms as typed into the material definition dialog. *)
Definition form (name type formula : string)
    (entries : list (string * string)) : MaterialDefinitionDialog.form :=
  MaterialDefinitionDialog.mkForm name "1.0" type "g/cm3" formula entries
    "solid" "" "K" "" "pascal".

Definition form_water : MaterialDefinitionDialog.form :=
  form " Water2 " "mixture" "" [("H", "0.112"); ("O", " 0.888"); ("", "")].

Definition form_lean : MaterialDefinitionDialog.form :=
  form "Lean2" "mixture" "" [("H", "0.5"); ("O", "0.4")].

Definition form_blank : MaterialDefinitionDialog.form :=
  form "Blank2" "compound" "  " [].

(** A registry whose only material has a lower-case name. *)
Definition copper_only : Registry :=
  mkRegistry {["copper" := 0]} ∅ ∅ ∅ ∅ None {[0 := Examples.air]} 1.

Definition app_copper : GDMLEditorApp.t :=
  GDMLEditorApp.mk (Some copper_only) None
    (UserMaterialDatabase.mk ∅ None true) None.

End Catalog.

(** ** Vocabulary of the statements *)

Module Spec.
Import Hierarchy.

(** The pair of names a placement of [physicalVolumeDict] stands for:
    mother and child, each an object's name or a bare string, both
    non-empty. *)
Definition placement_edge (pv : PhysicalVolume) (m c : string) : Prop :=
  name_of (match motherVolume pv with
           | None => motherLogicalVolume pv
           | Some r => Some r
           end) = Some m ∧
  name_of (logicalVolume pv) = Some c ∧ m ≠ "" ∧ c ≠ "".

(** The child a daughter placement of a volume stands for. *)
Definition daughter_edge (pv : PhysicalVolume) (c : string) : Prop :=
  obj_name_of (logicalVolume pv) = Some c ∧ c ≠ "".

(** A row that hangs under a parent whose child it is in the map. *)
Definition edge_ok (cbm : gmap string (gset string)) (r : row) : Prop :=
  row_iid r ∈ sorted_children cbm (row_parent r).

(** What a stretch of the walk from [w] to [w'] has emitted: the rows
    [new], appended in order, whose names are pairwise distinct, were not
    visited before and are exactly what was added to the visited set; all
    children of an emitted name are visited at the end. *)
Record emitted (cbm : gmap string (gset string)) (w w' : walk)
    (new : list row) : Prop := {
  em_rows : rows w' = (rows w ++ new)%list;
  em_visited : visited w' = visited w ∪ list_to_set (row_iid <$> new);
  em_nodup : NoDup (row_iid <$> new);
  em_fresh : ∀ n, n ∈ row_iid <$> new → n ∉ visited w;
  em_closed : ∀ r c, r ∈ new → c ∈ sorted_children cbm (row_iid r) →
                     c ∈ visited w';
}.

(** What one call of [add_lv_by_name] has done: nothing for a visited
    name; otherwise the row of the name under [parent_item] comes first,
    followed by rows along edges of the child map. *)
Definition call_post (reg : Registry) (cbm : gmap string (gset string))
    (name parent : string) (w w' : walk) : Prop :=
  ∃ new, emitted cbm w w' new ∧ name ∈ visited w' ∧
    ((name ∈ visited w ∧ new = []) ∨
     ((name ∉ visited w) ∧
      ∃ rest, new = mkRow parent name (mat_name_of reg name) :: rest ∧
              Forall (edge_ok cbm) rest)).

(** A computation that never unbinds or rebinds a registered material
    name, whether it returns or raises. *)
Definition keeps_materials {A} (m : M Registry A) : Prop :=
  ∀ reg r reg' n l, m reg = (r, reg') →
    materialDict reg !! n = Some l → materialDict reg' !! n = Some l.

(** What the editor relies on from the library's constructors: a material
    that is returned is registered under the name it was asked for, and
    the element calls leave registered materials registered. *)
Class Geant4Registers `{G : Geant4} : Prop := {
  nist_material_registers name reg l reg' :
    nist_material_2geant4Material name reg = (inr l, reg') →
    materialDict reg' !! name = Some l;
  MaterialCompound_registers name density c st reg l reg' :
    MaterialCompound name density c st reg = (inr l, reg') →
    materialDict reg' !! name = Some l;
  Material_registers name density n st reg l reg' :
    Material name density n st reg = (inr l, reg') →
    materialDict reg' !! name = Some l;
  add_element_massfraction_keeps mat el f :
    keeps_materials (add_element_massfraction mat el f);
  nist_element_keeps sym :
    keeps_materials (nist_element_2geant4Element sym);
  Element_keeps name sym z a :
    keeps_materials (Element name sym z a);
}.

(** The running sum of the mass fractions, in the order of the list, as
    [total_fraction += fraction] computes it. *)
Definition fraction_sum (start : float) (components : list component) : float :=
  foldl (λ acc c, (acc + fraction c)%float) start components.

(** The two assignments [mat.temperature = ...] and [mat.pressure = ...]
    at the end of [create_user_material_in_registry], for the fields the
    record has. *)
Definition assign_optional (d : mat_data) (mat : loc) : M Registry unit :=
  (match md_temperature d with
   | Some t =>
       set_temperature mat
         (if String.eqb (default "K" (md_temp_unit d)) "C"
          then (t + 273.15)%float else t)
   | None => ret tt
   end ;;;
   match md_pressure d with
   | Some p =>
       set_pressure mat
         (p * Units.dict_get Units.pressure_conversion
                (default "pascal" (md_pressure_unit d)) 1.0)%float
   | None => ret tt
   end)%py.

(** The NIST names a call of the application's listing works with: the
    cached ones, else the fetched ones, else none. *)
Definition nist_names `{G : Geant4} (app : GDMLEditorApp.t) : list string :=
  match GDMLEditorApp._cached_nist_materials app with
  | Some l => l
  | None => match getNistMaterialList with inr l => l | inl _ => [] end
  end.

(** [pv] is a placement of the volume named [v]. *)
Definition places_volume (v : string) (pv : PhysicalVolume) : Prop :=
  GDMLEditorApp.child_name pv = inr v.

#[global] Instance places_volume_dec v pv : Decision (places_volume v pv).
Proof. unfold places_volume. apply _. Defined.

(** Of the collected (parent key, placement) pairs, the placements of the
    parent under key [k0]. *)
Definition collected_for (k0 : string) (r : list (string * PhysicalVolume))
    : list PhysicalVolume :=
  (filter (λ p, p.1 = k0) r).*2.


(** [l.remove(x)] for each [x] of [xs] in turn. *)
Fixpoint remove_all {A} `{EqDecision A} (xs l : list A) : option (list A) :=
  match xs with
  | [] => Some l
  | x :: xs' => GDMLEditorApp.remove_first x l ≫= remove_all xs'
  end.

End Spec.

(** ** Further operations of the editor *)

(** [sub in s] on strings. *)
Module PyStr.

Fixpoint contains (sub s : string) : bool :=
  if String.prefix sub s then true
  else match s with
       | EmptyString => false
       | String _ s' => contains sub s'
       end.

End PyStr.

(** *** [UserMaterialDatabase.__init__], [load], [get_all_materials] *)

Module UserMaterialDatabaseFile.
Import UserMaterialDatabase.

(** [load]: the dictionary of the file; empty when the file is missing or
    cannot be read ([file = None]). *)
Definition load (db : t) : t :=
  mk (default ∅ (file db)) (file db) (writable db).

(** [__init__]: an empty dictionary, then [load]. *)
Definition init (file : option (gmap string mat_data)) (writable : bool) : t :=
  load (mk ∅ file writable).

(** [get_all_materials]: a copy of the dictionary. *)
Definition get_all_materials (db : t) : gmap string mat_data := materials db.

End UserMaterialDatabaseFile.

(** *** [GDMLEditorApp.filter_volumes] *)

Module Browse.
Import Hierarchy.

(** Truth value of [self.world_lv]. *)
Definition ref_truthy (r : option lv_ref) : bool :=
  match r with
  | Some (LVObj _) => true
  | Some (LVStr s) => negb (String.eqb s "")
  | None => false
  end.

(** The material column in filter mode, from the volume itself. *)
Definition material_column (reg : Registry) (lv : LogicalVolume) : string :=
  match material lv with
  | Some (MatObj l) =>
      match heap reg !! l with
      | Some o => default (py_str o) (obj_name o)
      | None => "(Assembly)"
      end
  | Some (MatStr s) => if String.eqb s "" then "(Assembly)" else s
  | None => "(Assembly)"
  end.

(** [filter_volumes]: the rows of the tree after the call; [volume_tree]
    are the rows before it, [search_var] the text of the search box. *)
Definition filter_volumes (app : GDMLEditorApp.t) (search_var : string)
    (volume_tree : list row) : list row :=
  match GDMLEditorApp.registry app with
  | None => volume_tree
  | Some reg =>
      if negb (ref_truthy (GDMLEditorApp.world_lv app)) then volume_tree
      else
        let search_text := Py.lower (Py.strip search_var) in
        if String.eqb search_text "" then populate_volume_tree (Some reg)
        else
          (λ kv : string * LogicalVolume,
             mkRow "" kv.1 (material_column reg kv.2)) <$>
          filter (λ kv : string * LogicalVolume,
                    PyStr.contains search_text (Py.lower kv.1) = true)
                 (Py.sorted fst (map_to_list (logicalVolumeDict reg)))
  end.

End Browse.

(** *** [GDMLEditorApp.apply_selected_material] *)

Module VolumeMaterial.
Import Hierarchy.

Inductive outcome :=
  | NoSelection                       (* "Please select a volume first" *)
  | CannotChange                      (* "Selected volume cannot have material changed" *)
  | NoMaterial                        (* "Please select a material" *)
  | FailedToSet (e : exn)             (* "Failed to set material" *)
  | Uncaught (e : exn)                (* raised outside the [try] *)
  | Changed (old_material : string).  (* the status line *)

Definition with_material (lv : LogicalVolume) (m : mat_ref) : LogicalVolume :=
  mkLV (lv_name lv) (Some m) (solid lv) (daughterVolumes lv).

(** [self.volume_tree.item(iid, values=(text,))], when the item exists. *)
Definition set_row_material (iid text : string) (tree : list row) : list row :=
  (λ r, if String.eqb (row_iid r) iid
        then mkRow (row_parent r) (row_iid r) text else r) <$> tree.

(** The name shown for the material a volume has. *)
Definition material_text (reg : Registry) (m : mat_ref) : string :=
  match m with
  | MatObj l =>
      match heap reg !! l with
      | Some o => default (py_str o) (obj_name o)
      | None => ""
      end
  | MatStr s => s
  end.

Section WithLibrary.
Context {G : Geant4}.

(** [apply_selected_material]; [selection] is the selected tree item,
    [volume_material_var] the text of the material box. *)
Definition apply_selected_material (selection : option string)
    (volume_material_var : string) (app : GDMLEditorApp.t) (tree : list row)
    : outcome * GDMLEditorApp.t * list row :=
  match selection with
  | None => (NoSelection, app, tree)
  | Some volume_name =>
      match GDMLEditorApp.registry app with
      | None => (Uncaught (AttributeError "logicalVolumeDict"), app, tree)
      | Some reg =>
          match logicalVolumeDict reg !! volume_name with
          | None => (CannotChange, app, tree)
          | Some lv =>
              match material lv with
              | None => (CannotChange, app, tree)
              | Some old =>
                  let new_material := Py.strip volume_material_var in
                  if String.eqb new_material "" then (NoMaterial, app, tree)
                  else
                    match GDMLEditorApp._ensure_material_in_registry
                            new_material app with
                    | (inl e, app') => (FailedToSet e, app', tree)
                    | (inr mat, app') =>
                        match GDMLEditorApp.registry app' with
                        | None => (Uncaught (AttributeError "registry"), app', tree)
                        | Some reg' =>
                            (Changed (material_text reg' old),
                             GDMLEditorApp.mk
                               (Some (set_logicalVolumeDict
                                        (alter (λ lv, with_material lv (MatObj mat))
                                               volume_name) reg'))
                               (GDMLEditorApp.world_lv app')
                               (GDMLEditorApp.user_material_db app')
                               (GDMLEditorApp._cached_nist_materials app'),
                             set_row_material volume_name new_material tree)
                        end
                    end
              end
          end
      end
  end.
End WithLibrary.

End VolumeMaterial.

(** *** [InsertVolumeDialog.insert_volume] *)

Module InsertVolume.

Inductive outcome :=
  | Refused (msg : string)     (* an error box, then [return] *)
  | Failed (e : exn)           (* "Failed to create volume" *)
  | Inserted.                  (* [self.result] is set *)

(** The two blocks after [g4.PhysicalVolume(...)]: the placement is put
    into [physicalVolumeDict] unless its name is a key already, and
    appended to the parent's [daughterVolumes] unless it is in the list
    already.  [parent] is the key under which [parent_lv] was read. *)
Definition back_fill (pv_name : string) (pv : PhysicalVolume)
    (parent : string) (reg : Registry) : Registry :=
  let reg1 :=
    if has_key (physicalVolumeDict reg !! pv_name) then reg
    else set_physicalVolumeDict (insert pv_name pv) reg in
  set_logicalVolumeDict
    (alter (λ parent_lv,
              if bool_decide (pv ∈ daughterVolumes parent_lv) then parent_lv
              else GDMLEditorApp.with_daughters parent_lv
                     (daughterVolumes parent_lv ++ [pv])%list)
           parent) reg1.

Section WithLibrary.
Context {G : Geant4}.

(** What lies between reading the parent and the back-fill: the
    parameters are parsed, the solid, the logical volume and the
    placement are made by the library.  [build material vol_name parent]
    raises, shows an error box of its own ([inl msg]), or returns the
    placement. *)
Variable build : loc → string → string → M Registry (string + PhysicalVolume).

Definition insert_volume (name_var material_var parent_var : string)
    (file : option (gmap string mat_data)) (reg : Registry)
    : outcome * Registry :=
  let vol_name := Py.strip name_var in
  if String.eqb vol_name "" then (Refused "Volume name is required", reg)
  else if has_key (logicalVolumeDict reg !! vol_name)
  then (Refused ("Volume '" ++ vol_name ++ "' already exists"), reg)
  else if String.eqb material_var ""
  then (Refused "Please select a material", reg)
  else
    match InsertVolumeDialog.get_or_create_material material_var file reg with
    | (inl msg, reg1) => (Refused msg, reg1)
    | (inr material, reg1) =>
        match logicalVolumeDict reg1 !! parent_var with
        | None => (Failed (KeyError parent_var), reg1)
        | Some _ =>
            match build material vol_name parent_var reg1 with
            | (inl e, reg2) => (Failed e, reg2)
            | (inr (inl msg), reg2) => (Refused msg, reg2)
            | (inr (inr pv), reg2) =>
                (Inserted, back_fill (vol_name ++ "_pv") pv parent_var reg2)
            end
        end
    end.
End WithLibrary.

End InsertVolume.

(** *** Opening the definition dialog on a record *)

Module EditMaterial.
Import MaterialDefinitionDialog.

Section LoadMaterial.
(** The builtin [str] on a float, and on a list of components. *)
Variable py_str : float → string.
Variable str_of_components : list component → string.

(** The variables as [setup_ui] creates them.  (In compound mode the
    attribute [element_entries] does not exist yet; it is read in mixture
    mode only, after [update_composition_ui] has made it.) *)
Definition setup_ui (material_name : option string) : form :=
  mkForm (if Py.truthy material_name then default "" material_name else "")
    "" "compound" "g/cm3" "" [] "solid" "" "K" "" "pascal".

(** [update_composition_ui]: a fresh formula variable, or one empty
    element row. *)
Definition update_composition_ui (f : form) : form :=
  if String.eqb (material_type f) "compound"
  then mkForm (name_var f) (density_var f) (material_type f)
         (density_unit_var f) "" (element_entries f) (state_var f)
         (temp_var f) (temp_unit_var f) (pressure_var f) (pressure_unit_var f)
  else mkForm (name_var f) (density_var f) (material_type f)
         (density_unit_var f) (formula_var f) [("", "")] (state_var f)
         (temp_var f) (temp_unit_var f) (pressure_var f) (pressure_unit_var f).

Definition set_formula (formula : string) (f : form) : form :=
  mkForm (name_var f) (density_var f) (material_type f) (density_unit_var f)
    formula (element_entries f) (state_var f) (temp_var f) (temp_unit_var f)
    (pressure_var f) (pressure_unit_var f).

Definition set_entries (entries : list (string * string)) (f : form) : form :=
  mkForm (name_var f) (density_var f) (material_type f) (density_unit_var f)
    (formula_var f) entries (state_var f) (temp_var f) (temp_unit_var f)
    (pressure_var f) (pressure_unit_var f).

(** The block under [if any(key in mat_data for key in ...)]. *)
Definition load_advanced (d : mat_data) (f : form) : form :=
  if has_key (md_state d) || has_key (md_temperature d) ||
     has_key (md_pressure d)
  then
    mkForm (name_var f) (density_var f) (material_type f)
      (density_unit_var f) (formula_var f) (element_entries f)
      (default "solid" (md_state d))
      (match md_temperature d with
       | Some t => py_str t
       | None => temp_var f
       end)
      (match md_temperature d with
       | Some _ => default "K" (md_temp_unit d)
       | None => temp_unit_var f
       end)
      (match md_pressure d with
       | Some p => py_str p
       | None => pressure_var f
       end)
      (match md_pressure d with
       | Some _ => default "pascal" (md_pressure_unit d)
       | None => pressure_unit_var f
       end)
  else f.

(** [load_material]: the form after the call, or the exception that
    leaves [__init__]. *)
Definition load_material (name : string) (db : UserMaterialDatabase.t)
    (f : form) : exn + form :=
  match UserMaterialDatabase.get_material db name with
  | None => inr f
  | Some d =>
      if negb (md_truthy d) then inr f
      else
        let f :=
          mkForm (name_var f)
            (match md_density d with
             | Some density => py_str density
             | None => ""
             end)
            (default "compound" (md_type d))
            (default "g/cm3" (md_density_unit d))
            (formula_var f) (element_entries f) (state_var f) (temp_var f)
            (temp_unit_var f) (pressure_var f) (pressure_unit_var f) in
        let f := update_composition_ui f in
        match md_type d with
        | None => inl (KeyError "type")
        | Some type =>
            if String.eqb type "compound"
            then
              inr (load_advanced d
                     (set_formula
                        match md_composition d with
                        | Some (Formula formula) => formula
                        | Some (Components l) => str_of_components l
                        | None => ""
                        end f))
            else
              match md_composition d with
              | Some (Components l) =>
                  inr (load_advanced d
                         (set_entries
                            ((λ comp, (element comp, py_str (fraction comp)))
                               <$> l) f))
              | None => inr (load_advanced d (set_entries [] f))
              | Some (Formula formula) =>
                  (* the loop runs over the characters of the string *)
                  if String.eqb formula ""
                  then inr (load_advanced d (set_entries [] f))
                  else inl (AttributeError "get")
              end
        end
  end.

(** [MaterialDefinitionDialog.__init__]. *)
Definition init (material_name : option string) (db : UserMaterialDatabase.t)
    : exn + form :=
  let f := setup_ui material_name in
  if Py.truthy material_name
  then load_material (default "" material_name) db f
  else inr f.
End LoadMaterial.

End EditMaterial.

(** *** Vocabulary for the further statements *)

Module Spec2.
Import Hierarchy.

(** [n] can be reached from [root] along edges of the child map. *)
Inductive reach (cbm : gmap string (gset string)) (root : string)
    : string → Prop :=
  | reach_root : reach cbm root root
  | reach_step p c :
      reach cbm root p → c ∈ sorted_children cbm p → reach cbm root c.

(** The walks a loop over the children [l] of [p] strings together, each
    satisfying [P]. *)
Inductive loop_rel (P : string → string → walk → walk → Prop) (p : string)
    : list string → walk → walk → Prop :=
  | loop_nil w : loop_rel P p [] w w
  | loop_cons c l w w1 w' :
      P c p w w1 → loop_rel P p l w1 w' → loop_rel P p (c :: l) w w'.

(** Every row hangs under an item that exists when the row is inserted:
    one of [seen], or an earlier row. *)
Fixpoint well_parented (seen : list string) (l : list row) : Prop :=
  match l with
  | [] => True
  | r :: l' => row_parent r ∈ seen ∧ well_parented (row_iid r :: seen) l'
  end.

(** A record as [save_material] lets it into the catalog. *)
Definition component_ok (c : component) : Prop :=
  element c ≠ "" ∧ (fraction c <=? 0)%float = false ∧
  (1 <? fraction c)%float = false.


(** What a step of the deletion leaves alone: the materials, the
    definitions, the objects and the world pointer; it creates no volume
    and removes none but [gone]. *)
Definition untouched (gone : option string) (reg reg' : Registry) : Prop :=
  materialDict reg' = materialDict reg ∧ defineDict reg' = defineDict reg ∧
  heap reg' = heap reg ∧ worldVolume reg' = worldVolume reg ∧
  next_loc reg' = next_loc reg ∧
  (∀ k, is_Some (logicalVolumeDict reg' !! k) → is_Some (logicalVolumeDict reg !! k)) ∧
  (∀ k, Some k ≠ gone → is_Some (logicalVolumeDict reg !! k) →
        is_Some (logicalVolumeDict reg' !! k)).

(** The NIST names the insert dialog works with: the fetched ones, else
    ten fixed names. *)
Definition dialog_nist_names `{G : Geant4} : list string :=
  match getNistMaterialList with
  | inr l => l
  | inl _ => InsertVolumeDialog.fallback_nist_materials
  end.

(** The first of the four keys both constructions read that a record
    lacks, in the order they read them. *)
Definition first_missing (d : mat_data) : option string :=
  match md_density d, md_density_unit d, md_type d, md_composition d with
  | None, _, _, _ => Some "density"
  | _, None, _, _ => Some "density_unit"
  | _, _, None, _ => Some "type"
  | _, _, _, None => Some "composition"
  | _, _, _, _ => None
  end.

(** The attributes of a material object after the optional fields of a
    record have been assigned to it. *)
Definition with_attributes (d : mat_data) (o : PyObject) : PyObject :=
  mkPyObject (obj_name o) (py_str o) (obj_density o) (obj_state o)
    match md_temperature d with
    | Some t =>
        Some (if String.eqb (default "K" (md_temp_unit d)) "C"
              then (t + 273.15)%float else t)
    | None => obj_temperature o
    end
    match md_pressure d with
    | Some p =>
        Some (p * Units.dict_get Units.pressure_conversion
                    (default "pascal" (md_pressure_unit d)) 1.0)%float
    | None => obj_pressure o
    end
    (obj_components o).

(** The text Python gives for [x] is read back as [x]. *)
Definition reads_back (py_float : string → option float)
    (py_str : float → string) (x : float) : Prop :=
  py_float (py_str x) = Some x ∧ py_float (Py.strip (py_str x)) = Some x ∧
  Py.strip (py_str x) ≠ "".

(** The numbers of a record. *)
Definition floats_of (d : mat_data) : list float :=
  (option_list (md_density d) ++
   match md_composition d with
   | Some (Components l) => fraction <$> l
   | _ => []
   end ++
   option_list (md_temperature d) ++ option_list (md_pressure d))%list.

End Spec2.

(** *** Further examples *)

Module Examples2.

(** The application with [reg] loaded and [W] as its world. *)
Definition app_of (reg : Registry) : GDMLEditorApp.t :=
  GDMLEditorApp.mk (Some reg) (Some (LVObj (Some "W"))) Catalog.db None.

(** [W] lists a daughter placement whose volume is the bare string
    ["A"]. *)
Definition stringly : Registry :=
  mkRegistry {["G4_AIR" := 0]} ∅
    {["W" := Examples.volume "W"
               [Examples.place 1 "A_pv" (LVObj (Some "W")) (LVStr "A")];
      "A" := Examples.volume "A" []]}
    ∅ {["W_solid" := tt; "A_solid" := tt]}
    (Some (LVObj (Some "W"))) {[0 := Examples.air]} 1.

(** The stand-in library when the NIST list cannot be fetched. *)
#[local] Instance offline : Geant4 := {|
  nist_material_2geant4Material := Toy.nist_material;
  MaterialCompound := λ name density _ state, Toy.new_material name density state;
  Material := λ name density _ state, Toy.new_material name density state;
  add_element_massfraction := Toy.add_massfraction;
  nist_element_2geant4Element := Toy.nist_element;
  Element := λ name _ _ _, Toy.new_element name;
  getNistMaterialList := inl (LibraryError "no NIST data");
|}.

(** The catalog and its file hold the same records, and [Water] is
    materialized too. *)
Definition app_in_sync : GDMLEditorApp.t :=
  GDMLEditorApp.mk (Some Catalog.registry_with_water)
    (Some (LVObj (Some "W"))) Catalog.db None.

(** A record without [density_unit]. *)
Definition no_unit : mat_data :=
  mkMatData (Some "compound") (Some 1.0%float) None (Some (Formula "H2O"))
    None None None None None.

(** A compound with a temperature in Celsius and a pressure in bar. *)
Definition steam : mat_data :=
  mkMatData (Some "compound") (Some 0.6%float) (Some "kg/m3")
    (Some (Formula "H2O")) (Some "gas") (Some 100.0%float) (Some "C")
    (Some 2.0%float) (Some "bar").

(** Another catalog, which has a record named like a NIST material. *)
Definition db_with_G4 : UserMaterialDatabase.t :=
  UserMaterialDatabase.mk {["G4_NOPE" := Catalog.water]} None true.

(** A library that makes the logical volume and the placement but puts
    the placement neither into [physicalVolumeDict] nor into the
    parent's [daughterVolumes]. *)
Definition forgetful_build (material : loc) (vol_name parent : string)
    : M Registry (string + PhysicalVolume) := λ reg,
  (inr (inr (mkPV (next_loc reg) (Some (vol_name ++ "_pv")%string)
               (Some (LVObj (Some parent))) None
               (Some (LVObj (Some vol_name))))),
   mkRegistry (materialDict reg) (defineDict reg)
     (<[vol_name := mkLV vol_name (Some (MatObj material))
                      (Some (vol_name ++ "_solid")%string) []]>
        (logicalVolumeDict reg))
     (physicalVolumeDict reg)
     (<[(vol_name ++ "_solid")%string := tt]> (solidDict reg))
     (worldVolume reg) (heap reg) (S (next_loc reg))).

(** [str(x)] on the numbers used in the examples. *)
Definition py_str (x : float) : string :=
  if (x =? 1.0)%float then "1.0"
  else if (x =? 0.112)%float then "0.112"
  else if (x =? 0.888)%float then "0.888"
  else "".

End Examples2.

(** * Properties *)

Local Open Scope nat_scope.
Local Open Scope list_scope.

(** ** Strings and sorting *)

Section PyFacts.

Lemma ascii_compare_refl (a : ascii) : Ascii.compare a a = Eq.
Proof. unfold Ascii.compare. apply N.compare_refl. Qed.

Lemma string_compare_le_trans (a b c : string) :
  String.compare a b ≠ Gt → String.compare b c ≠ Gt →
  String.compare a c ≠ Gt.
Proof.
  revert b c. induction a as [|x a IH]; intros [|y b] [|z c]; simpl;
    try congruence.
  unfold Ascii.compare.
  destruct (N.compare_spec (N_of_ascii x) (N_of_ascii y)) as [Hxy|Hxy|Hxy];
    destruct (N.compare_spec (N_of_ascii y) (N_of_ascii z)) as [Hyz|Hyz|Hyz];
    try congruence; intros H1 H2.
  - rewrite Hxy, Hyz, N.compare_refl. eauto.
  - rewrite Hxy. apply N.compare_lt_iff in Hyz. rewrite Hyz. congruence.
  - rewrite <- Hyz. apply N.compare_lt_iff in Hxy. rewrite Hxy. congruence.
  - assert (Hxz : (N_of_ascii x < N_of_ascii z)%N) by lia.
    apply N.compare_lt_iff in Hxz. rewrite Hxz. congruence.
Qed.

Lemma leb_spec (a b : string) :
  String.leb a b = true ↔ String.compare a b ≠ Gt.
Proof. unfold String.leb. destruct (String.compare a b); split; congruence. Qed.

Lemma leb_trans (a b c : string) :
  String.leb a b = true → String.leb b c = true → String.leb a c = true.
Proof. rewrite !leb_spec. apply string_compare_le_trans. Qed.

Lemma leb_false_flip (a b : string) :
  String.leb a b = false → String.leb b a = true.
Proof.
  intros H. destruct (String.leb_total a b) as [H'|H']; congruence.
Qed.

Context {A : Type} (key : A → string).

#[local] Instance key_le_trans : Transitive (Py.key_le key).
Proof. intros x y z. unfold Py.key_le. apply leb_trans. Qed.

Lemma insert_by_perm (x : A) (l : list A) : Py.insert_by key x l ≡ₚ x :: l.
Proof.
  induction l as [|y l IH]; simpl; [done|].
  destruct (String.leb _ _); [done|].
  rewrite IH. apply Permutation_swap.
Qed.

Lemma sorted_perm (l : list A) : Py.sorted key l ≡ₚ l.
Proof.
  induction l as [|x l IH]; simpl; [done|].
  by rewrite insert_by_perm, IH.
Qed.

Lemma elem_of_sorted (x : A) (l : list A) : x ∈ Py.sorted key l ↔ x ∈ l.
Proof. by rewrite sorted_perm. Qed.

Lemma insert_by_sorted (x : A) (l : list A) :
  StronglySorted (Py.key_le key) l →
  StronglySorted (Py.key_le key) (Py.insert_by key x l).
Proof.
  induction 1 as [|y l Hl IH Hy]; simpl.
  - repeat constructor.
  - destruct (String.leb (key x) (key y)) eqn:Hxy.
    + constructor; [by constructor|].
      constructor; [done|].
      eapply Forall_impl; [exact Hy|].
      intros z Hz. by transitivity y.
    + constructor; [done|].
      rewrite insert_by_perm. constructor; [|done].
      by apply leb_false_flip.
Qed.

Lemma sorted_sorted (l : list A) :
  StronglySorted (Py.key_le key) (Py.sorted key l).
Proof.
  induction l as [|x l IH]; simpl; [constructor|].
  by apply insert_by_sorted.
Qed.

Lemma sorted_NoDup (l : list A) : NoDup l → NoDup (Py.sorted key l).
Proof. by rewrite sorted_perm. Qed.

End PyFacts.

(** ** The merged child map *)

Section ChildMap.
Import Hierarchy Spec.

Implicit Types (cbm : gmap string (gset string)) (m c : string).

Lemma truthy_Some (o : option string) :
  Py.truthy o = true ↔ ∃ s, o = Some s ∧ s ≠ "".
Proof.
  destruct o as [s|]; simpl.
  - rewrite negb_true_iff. split.
    + intros H. exists s. split; [done|]. intros ->. by rewrite String.eqb_refl in H.
    + intros (s' & [= <-] & Hne). by apply String.eqb_neq.
  - split; [done|]. by intros (? & ? & _).
Qed.

Lemma elem_of_add_child m c cbm m' c' :
  c' ∈ add_child m c cbm !!! m' ↔
  c' ∈ cbm !!! m' ∨ (m = m' ∧ c = c').
Proof.
  unfold add_child. destruct (decide (m = m')) as [->|Hne].
  - rewrite lookup_total_insert_eq. set_solver.
  - rewrite lookup_total_insert_ne by done. naive_solver.
Qed.

Lemma elem_of_placement_step cbm pv m c :
  c ∈ placement_step cbm pv !!! m ↔ c ∈ cbm !!! m ∨ placement_edge pv m c.
Proof.
  unfold placement_step, placement_edge.
  set (mo := name_of _). set (co := name_of (logicalVolume pv)).
  destruct (Py.truthy mo && Py.truthy co) eqn:Ht.
  - apply andb_true_iff in Ht as [Hm Hc].
    apply truthy_Some in Hm as (m0 & -> & Hm0).
    apply truthy_Some in Hc as (c0 & -> & Hc0). simpl.
    rewrite elem_of_add_child. naive_solver.
  - split; [by left|]. intros [?|(Hm & Hc & Hm0 & Hc0)]; [done|].
    exfalso. apply andb_false_iff in Ht as [Ht|Ht];
      apply not_true_iff_false in Ht; apply Ht, truthy_Some; eauto.
Qed.

Lemma elem_of_placement_fold (l : list PhysicalVolume) cbm m c :
  c ∈ foldl placement_step cbm l !!! m ↔
  c ∈ cbm !!! m ∨ ∃ pv, pv ∈ l ∧ placement_edge pv m c.
Proof.
  revert cbm. induction l as [|pv l IH]; intros cbm; simpl.
  - set_solver.
  - rewrite IH, elem_of_placement_step. set_solver.
Qed.

Lemma elem_of_daughter_step k cbm pv m c :
  c ∈ daughter_step k cbm pv !!! m ↔
  c ∈ cbm !!! m ∨ (k = m ∧ daughter_edge pv c).
Proof.
  unfold daughter_step, daughter_edge.
  destruct (Py.truthy _) eqn:Ht.
  - apply truthy_Some in Ht as (c0 & -> & Hc0). simpl.
    rewrite elem_of_add_child. naive_solver.
  - split; [by left|]. intros [?|(_ & Hc & Hc0)]; [done|].
    apply not_true_iff_false in Ht. exfalso. apply Ht, truthy_Some; eauto.
Qed.

Lemma elem_of_daughter_fold k (l : list PhysicalVolume) cbm m c :
  c ∈ foldl (daughter_step k) cbm l !!! m ↔
  c ∈ cbm !!! m ∨ (k = m ∧ ∃ pv, pv ∈ l ∧ daughter_edge pv c).
Proof.
  revert cbm. induction l as [|pv l IH]; intros cbm; simpl.
  - set_solver.
  - rewrite IH, elem_of_daughter_step. set_solver.
Qed.

Lemma elem_of_volumes_fold (items : list (string * LogicalVolume)) cbm m c :
  c ∈ foldl (λ acc kv, foldl (daughter_step kv.1) acc (daughterVolumes kv.2))
        cbm items !!! m ↔
  c ∈ cbm !!! m ∨
  ∃ lv pv, (m, lv) ∈ items ∧ pv ∈ daughterVolumes lv ∧ daughter_edge pv c.
Proof.
  revert cbm. induction items as [|[k lv] items IH]; intros cbm; simpl.
  - set_solver.
  - rewrite IH, elem_of_daughter_fold. split.
    + intros [[?|(-> & pv & ? & ?)]|(lv' & pv & ? & ? & ?)]; [by left|..];
        right; [exists lv, pv|exists lv', pv]; set_solver.
    + intros [?|(lv' & pv & [[= <- <-]|?]%elem_of_cons & ? & ?)];
        [by do 2 left|left; right; eauto|right; eauto 10].
Qed.

(** The children recorded from [physicalVolumeDict], on top of [cbm]. *)
Lemma elem_of_from_placements reg cbm m c :
  c ∈ from_placements reg cbm !!! m ↔
  c ∈ cbm !!! m ∨
  ∃ k pv, physicalVolumeDict reg !! k = Some pv ∧ placement_edge pv m c.
Proof.
  unfold from_placements. rewrite elem_of_placement_fold.
  apply or_iff_compat_l. split.
  - intros (pv & Hin & He). apply list_elem_of_fmap in Hin as ([k pv'] & -> & Hin).
    apply elem_of_map_to_list in Hin. eauto.
  - intros (k & pv & Hk & He). exists pv. split; [|done].
    apply list_elem_of_fmap. exists (k, pv). split; [done|].
    by apply elem_of_map_to_list.
Qed.

(** The children recorded from the volumes' [daughterVolumes]. *)
Lemma elem_of_from_daughters reg cbm m c :
  c ∈ from_daughters reg cbm !!! m ↔
  c ∈ cbm !!! m ∨
  ∃ lv pv, logicalVolumeDict reg !! m = Some lv ∧
           pv ∈ daughterVolumes lv ∧ daughter_edge pv c.
Proof.
  unfold from_daughters. rewrite elem_of_volumes_fold.
  apply or_iff_compat_l.
  split; intros (lv & pv & H & ?); exists lv, pv;
    (split; [by apply elem_of_map_to_list in H || apply elem_of_map_to_list|done]).
Qed.

Lemma children_by_mother_union reg m :
  children_by_mother reg !!! m =
  from_placements reg ∅ !!! m ∪ from_daughters reg ∅ !!! m.
Proof.
  apply set_eq. intros c. unfold children_by_mother.
  rewrite elem_of_union, !elem_of_from_daughters, lookup_total_empty.
  set_solver.
Qed.

End ChildMap.

(** ** The depth-first emit *)

Section Walk.
Import Hierarchy Spec.

Variables (reg : Registry) (cbm : gmap string (gset string)).

Local Abbreviation go := (add_lv_by_name reg cbm).
Local Abbreviation emitted := (Spec.emitted cbm).
Local Abbreviation edge_ok := (Spec.edge_ok cbm).
Local Abbreviation call_post := (Spec.call_post reg cbm).

Lemma for_each_cons {A S} (body : A → S → option S) a l s :
  for_each body (a :: l) s = body a s ≫= for_each body l.
Proof.
  unfold for_each. simpl. destruct (body a s) as [s'|]; simpl; [done|].
  induction l; simpl; done.
Qed.

Lemma for_each_mono {A S} (f g : A → S → option S) l :
  (∀ a s s', f a s = Some s' → g a s = Some s') →
  ∀ s s', for_each f l s = Some s' → for_each g l s = Some s'.
Proof.
  intros Hfg. induction l as [|a l IH]; intros s s'; [done|].
  rewrite !for_each_cons. destruct (f a s) as [s1|] eqn:Hf; simpl; [|done].
  rewrite (Hfg _ _ _ Hf). simpl. apply IH.
Qed.

(** More fuel never changes a result. *)
Lemma add_lv_fuel_mono (fuel fuel' : nat) name parent w w' :
  (fuel ≤ fuel')%nat → go fuel name parent w = Some w' →
  go fuel' name parent w = Some w'.
Proof.
  revert fuel' name parent w w'.
  induction fuel as [|fuel IH]; intros [|fuel'] name parent w w' Hle;
    simpl; try done; try lia.
  case_bool_decide; [done|].
  apply for_each_mono. intros c s s'. apply IH. lia.
Qed.

(** A visited name is skipped: nothing is emitted for it. *)
Lemma add_lv_visited fuel name parent w :
  name ∈ visited w → go (S fuel) name parent w = Some w.
Proof. intros H. simpl. by rewrite bool_decide_eq_true_2. Qed.

Lemma emitted_nil w : emitted w w [].
Proof. split; simpl; try set_solver. by rewrite app_nil_r. constructor. Qed.

Lemma emitted_visited_mono w w' new : emitted w w' new → visited w ⊆ visited w'.
Proof. intros [_ -> _ _ _]. set_solver. Qed.

Lemma emitted_app w w1 w2 new1 new2 :
  emitted w w1 new1 → emitted w1 w2 new2 → emitted w w2 (new1 ++ new2).
Proof.
  intros H1 H2. pose proof (emitted_visited_mono _ _ _ H2) as Hsub.
  destruct H1 as [R1 V1 N1 F1 C1], H2 as [R2 V2 N2 F2 C2]. split.
  - by rewrite R2, R1, app_assoc.
  - rewrite V2, V1, fmap_app. set_solver.
  - rewrite fmap_app. apply NoDup_app. split_and!; [done| |done].
    intros n Hn Hn'. apply (F2 n Hn'). rewrite V1. set_solver.
  - intros n. rewrite fmap_app, elem_of_app. intros [Hn|Hn]; [by apply F1|].
    intros Hw. apply (F2 n Hn). rewrite V1. set_solver.
  - intros r c [Hr|Hr]%elem_of_app Hc; [|by eapply C2].
    apply Hsub. by eapply C1.
Qed.

Section Bounded.
Variable U : gset string.
Hypothesis U_closed : ∀ n c, c ∈ sorted_children cbm n → c ∈ U.

Lemma measure_mono (w w' : walk) :
  visited w ⊆ visited w' → (size (U ∖ visited w') ≤ size (U ∖ visited w))%nat.
Proof. intros H. apply subseteq_size. set_solver. Qed.

Lemma measure_visit (w : walk) name :
  name ∈ U → name ∉ visited w →
  (size (U ∖ (visited w ∪ {[name]})) < size (U ∖ visited w))%nat.
Proof.
  intros HU Hv. apply subset_size. apply strict_spec_alt. split; [set_solver|].
  intros Heq. assert (name ∈ U ∖ visited w) as Hin by set_solver.
  rewrite <- Heq in Hin. set_solver.
Qed.

Lemma children_loop fuel p l :
  (∀ name parent w, name ∈ U → (size (U ∖ visited w) < fuel)%nat →
     ∃ w', go fuel name parent w = Some w' ∧ call_post name parent w w') →
  (∀ c, c ∈ l → c ∈ sorted_children cbm p) →
  ∀ w, (size (U ∖ visited w) < fuel)%nat →
  ∃ w' new, for_each (λ c, go fuel c p) l w = Some w' ∧
            emitted w w' new ∧ Forall edge_ok new ∧
            (∀ c, c ∈ l → c ∈ visited w').
Proof.
  intros IH. induction l as [|c l IHl]; intros Hl w Hsz.
  - exists w, []. split_and!; [done|apply emitted_nil|constructor|set_solver].
  - rewrite for_each_cons.
    destruct (IH c p w) as (w1 & Hgo & new1 & Hem1 & Hc & Hnew1);
      [apply U_closed with p; set_solver|done|].
    rewrite Hgo. simpl.
    pose proof (emitted_visited_mono _ _ _ Hem1) as Hsub1.
    destruct (IHl (λ c' Hc', Hl c' (list_elem_of_further _ _ _ Hc')) w1)
      as (w2 & new2 & Hloop & Hem2 & Hedge2 & Hall).
    { pose proof (measure_mono _ _ Hsub1). lia. }
    exists w2, (new1 ++ new2). split_and!; [done|by eapply emitted_app| |].
    + apply Forall_app. split; [|done].
      destruct Hnew1 as [[_ ->]|(_ & rest & -> & Hrest)]; [constructor|].
      constructor; [|done]. unfold edge_ok. simpl. apply Hl. set_solver.
    + intros c' [->|Hc']%elem_of_cons; [|by apply Hall].
      by apply (emitted_visited_mono _ _ _ Hem2).
Qed.

Lemma add_lv_terminates fuel name parent w :
  name ∈ U → (size (U ∖ visited w) < fuel)%nat →
  ∃ w', go fuel name parent w = Some w' ∧ call_post name parent w w'.
Proof.
  revert name parent w. induction fuel as [|fuel IH]; intros name parent w HU Hsz;
    [lia|].
  simpl. case_bool_decide as Hv.
  - exists w. split; [done|]. exists []. split_and!; [apply emitted_nil|done|by left].
  - set (w1 := {| visited := visited w ∪ {[name]};
                  rows := rows w ++ [mkRow parent name (mat_name_of reg name)] |}).
    destruct (children_loop fuel name (sorted_children cbm name) IH
                (λ _ H, H) w1) as (w' & new & Hloop & Hem & Hedge & Hall).
    { pose proof (measure_visit w name HU Hv). simpl. lia. }
    exists w'. split; [done|].
    pose proof (emitted_visited_mono _ _ _ Hem) as Hsub.
    exists (mkRow parent name (mat_name_of reg name) :: new).
    split_and!; [|apply Hsub; set_solver|right; eauto].
    destruct Hem as [R V N F C]. split.
    + rewrite R. simpl. by rewrite <- app_assoc.
    + rewrite V. simpl. set_solver.
    + simpl. constructor; [|done]. intros Hin. apply (F _ Hin). set_solver.
    + simpl. intros n [->|Hn]%elem_of_cons; [done|].
      intros Hw. apply (F n Hn). set_solver.
    + intros r c [->|Hr]%elem_of_cons Hc; [by apply Hall|by eapply C].
Qed.
End Bounded.

Lemma sorted_children_all_names n c :
  c ∈ sorted_children cbm n → c ∈ all_names cbm.
Proof.
  unfold sorted_children, all_names. rewrite elem_of_sorted, elem_of_elements.
  destruct (cbm !! n) as [s|] eqn:Hn; simpl; [|set_solver].
  intros Hc. apply elem_of_union_r, elem_of_union_list. exists s. split; [|done].
  apply list_elem_of_fmap. exists (n, s). split; [done|].
  by apply elem_of_map_to_list.
Qed.

(** The walk terminates within [enough_fuel], whatever the child map
    (cycles and shared children included) and whatever was visited
    before. *)
Lemma add_lv_total name parent w :
  ∃ w', (∀ extra, go (enough_fuel cbm + extra) name parent w = Some w') ∧
        call_post name parent w w'.
Proof.
  set (U := {[name]} ∪ all_names cbm).
  destruct (add_lv_terminates U) with (fuel := S (size U)) (name := name)
    (parent := parent) (w := w) as (w' & Hgo & Hpost).
  { intros n c Hc. apply elem_of_union_r. by eapply sorted_children_all_names. }
  { set_solver. }
  { assert (size (U ∖ visited w) ≤ size U)%nat
      by (apply subseteq_size; set_solver). lia. }
  exists w'. split; [|done]. intros extra.
  eapply add_lv_fuel_mono; [|exact Hgo].
  unfold enough_fuel, U.
  assert (size ({[name]} ∪ all_names cbm) ≤ 1 + size (all_names cbm))%nat; [|lia].
  rewrite size_union_alt, size_singleton.
  assert (size (all_names cbm ∖ {[name]}) ≤ size (all_names cbm))%nat
    by (apply subseteq_size; set_solver). lia.
Qed.

End Walk.

Example populate_w_a_b :
  Hierarchy.populate_volume_tree (Some Examples.w_a_b) =
  [Hierarchy.mkRow "" "W" "G4_AIR"; Hierarchy.mkRow "W" "A" "G4_AIR";
   Hierarchy.mkRow "A" "B" "(Assembly)"].
Proof. vm_compute. reflexivity. Qed.

Example populate_diamond_cycle :
  Hierarchy.populate_volume_tree (Some Examples.diamond_cycle) =
  [Hierarchy.mkRow "" "W" "G4_AIR"; Hierarchy.mkRow "W" "A" "G4_AIR";
   Hierarchy.mkRow "A" "C" "G4_AIR"; Hierarchy.mkRow "W" "B" "G4_AIR"].
Proof. vm_compute. reflexivity. Qed.

(** ** Claims on the hierarchy reconciliation *)

Section HierarchyClaims.
Import Hierarchy Spec.

Lemma elem_of_children_by_mother reg m c :
  c ∈ children_by_mother reg !!! m ↔
  (∃ k pv, physicalVolumeDict reg !! k = Some pv ∧ placement_edge pv m c) ∨
  (∃ lv pv, logicalVolumeDict reg !! m = Some lv ∧
            pv ∈ daughterVolumes lv ∧ daughter_edge pv c).
Proof.
  unfold children_by_mother.
  rewrite elem_of_from_daughters, elem_of_from_placements, lookup_total_empty.
  set_solver.
Qed.

(** C1.  For every registry, the child set that [populate_volume_tree]
    computes for a parent is the union of the set obtained from
    [physicalVolumeDict] alone and the set obtained from the volumes'
    [daughterVolumes] alone; a name is a child of [m] exactly when some
    placement of the dictionary has mother [m] and that child (each
    given as an object or as a bare string), or the volume stored under
    [m] lists a daughter placement of that child.  For the registry in
    which only the dictionary knows the placement of [A] in the world
    [W] and only [A.daughterVolumes] knows [B], the tree is [W], [A]
    under [W], [B] under [A]. *)
Theorem C1_child_sets_are_unions :
  (∀ reg m,
     children_by_mother reg !!! m =
     from_placements reg ∅ !!! m ∪ from_daughters reg ∅ !!! m) ∧
  (∀ reg m c,
     c ∈ from_placements reg ∅ !!! m ↔
     ∃ k pv, physicalVolumeDict reg !! k = Some pv ∧ placement_edge pv m c) ∧
  (∀ reg m c,
     c ∈ from_daughters reg ∅ !!! m ↔
     ∃ lv pv, logicalVolumeDict reg !! m = Some lv ∧
              pv ∈ daughterVolumes lv ∧ daughter_edge pv c) ∧
  (∀ reg m c,
     c ∈ children_by_mother reg !!! m ↔
     (∃ k pv, physicalVolumeDict reg !! k = Some pv ∧ placement_edge pv m c) ∨
     (∃ lv pv, logicalVolumeDict reg !! m = Some lv ∧
               pv ∈ daughterVolumes lv ∧ daughter_edge pv c)) ∧
  populate_volume_tree (Some Examples.w_a_b) =
    [mkRow "" "W" "G4_AIR"; mkRow "W" "A" "G4_AIR"; mkRow "A" "B" "(Assembly)"].
Proof.
  split_and!.
  - apply children_by_mother_union.
  - intros reg m c. rewrite elem_of_from_placements, lookup_total_empty.
    set_solver.
  - intros reg m c. rewrite elem_of_from_daughters, lookup_total_empty.
    set_solver.
  - apply elem_of_children_by_mother.
  - apply populate_w_a_b.
Qed.

Lemma populate_volume_tree_NoDup registry :
  NoDup (row_iid <$> populate_volume_tree registry).
Proof.
  unfold populate_volume_tree.
  destruct registry as [reg|]; [|constructor].
  destruct (negb _); [constructor|]. cbv zeta.
  destruct (add_lv_total reg (children_by_mother reg)
              (default "" (obj_name_of (worldVolume reg))) "" (mkWalk ∅ []))
    as (w' & Hgo & new & [R _ N _ _] & _).
  specialize (Hgo 0). rewrite Nat.add_0_r in Hgo. rewrite Hgo, R. done.
Qed.

(** C2.  For every registry and every child map (cyclic ones and ones
    with a name under several parents included), a call of
    [add_lv_by_name] returns for every bound from [enough_fuel] on, with
    the same result; the rows it appends carry pairwise distinct names,
    none of which was visited before, and the visited set grows by
    exactly these names; a name that is already visited is skipped
    without a row, and a name that is not comes first, under the parent
    of this first call.  The tree of [populate_volume_tree] therefore
    has no name twice; in the registry where [C] is placed in [A] and in
    [B] and [W] is placed in [C], [C] appears once, under [A], and [W]
    once, at the root. *)
Theorem C2_walk_terminates_each_name_once :
  (∀ reg cbm name parent w,
     ∃ w' new,
       (∀ extra,
          add_lv_by_name reg cbm (enough_fuel cbm + extra) name parent w
          = Some w') ∧
       rows w' = rows w ++ new ∧
       NoDup (row_iid <$> new) ∧
       (∀ n, n ∈ row_iid <$> new → n ∉ visited w) ∧
       visited w' = visited w ∪ list_to_set (row_iid <$> new) ∧
       (name ∈ visited w → new = []) ∧
       (name ∉ visited w →
        ∃ rest, new = mkRow parent name (mat_name_of reg name) :: rest)) ∧
  (∀ registry, NoDup (row_iid <$> populate_volume_tree registry)) ∧
  populate_volume_tree (Some Examples.diamond_cycle) =
    [mkRow "" "W" "G4_AIR"; mkRow "W" "A" "G4_AIR"; mkRow "A" "C" "G4_AIR";
     mkRow "W" "B" "G4_AIR"].
Proof.
  split_and!.
  - intros reg cbm name parent w.
    destruct (add_lv_total reg cbm name parent w)
      as (w' & Hgo & new & [R V N F C] & _ & Hcase).
    exists w', new. split_and!; try done.
    + intros Hv. destruct Hcase as [[_ ->]|[Hn _]]; done.
    + intros Hv. destruct Hcase as [[Hn _]|(_ & rest & -> & _)]; [done|eauto].
  - apply populate_volume_tree_NoDup.
  - apply populate_diamond_cycle.
Qed.

End HierarchyClaims.

(** ** Unit conversion *)

Section UnitClaims.
Import Units.

(** C9.  Density is multiplied by 1 for [g/cm3] and by 1e-3 for [mg/cm3]
    and [kg/m3], in the application and in the insert dialog alike;
    a temperature has 273.15 added when its unit is ["C"] and is
    returned unchanged for any other unit, the default ["K"] included;
    pressure is multiplied by 1 for [pascal], 1e5 for [bar] and 101325
    for [atm]. *)
Theorem C9_conversion_factors :
  (∀ density : float,
     _convert_density_to_g_cm3 density "g/cm3" = (density * 1.0)%float ∧
     _convert_density_to_g_cm3 density "mg/cm3" = (density * 1e-3)%float ∧
     _convert_density_to_g_cm3 density "kg/m3" = (density * 1e-3)%float ∧
     _convert_density density "g/cm3" = (density * 1.0)%float ∧
     _convert_density density "mg/cm3" = (density * 1e-3)%float ∧
     _convert_density density "kg/m3" = (density * 1e-3)%float) ∧
  (∀ (St : Type) (s : St) d temp,
     md_temperature d = Some temp →
     (md_temp_unit d = Some "C" →
      _convert_temperature_to_kelvin d s = (inr (temp + 273.15)%float, s)) ∧
     (md_temp_unit d ≠ Some "C" →
      _convert_temperature_to_kelvin d s = (inr temp, s))) ∧
  (∀ (St : Type) (s : St) d pressure,
     md_pressure d = Some pressure →
     (md_pressure_unit d = Some "pascal" →
      _convert_pressure_to_pascal d s = (inr (pressure * 1.0)%float, s)) ∧
     (md_pressure_unit d = Some "bar" →
      _convert_pressure_to_pascal d s = (inr (pressure * 1e5)%float, s)) ∧
     (md_pressure_unit d = Some "atm" →
      _convert_pressure_to_pascal d s = (inr (pressure * 101325.0)%float, s))).
Proof.
  split_and!.
  - intros density. by split_and!.
  - intros St s d temp Ht. unfold _convert_temperature_to_kelvin.
    rewrite Ht. split.
    + by intros ->.
    + intros Hu. cbn. destruct (md_temp_unit d) as [u|]; simpl; [|done].
      destruct (String.eqb_spec u "C") as [->|]; done.
  - intros St s d pressure Hp. unfold _convert_pressure_to_pascal.
    rewrite Hp. split_and!; by intros ->.
Qed.

(** 25 degrees Celsius, 2 bar and 1000 kg/m3 in the library's units. *)
Example conversions_evaluated :
  _convert_density_to_g_cm3 1000 "kg/m3" = 1%float ∧
  _convert_temperature_to_kelvin
    (mkMatData None None None None None (Some 25%float) (Some "C") None None) tt
  = (inr 298.15%float, tt) ∧
  _convert_pressure_to_pascal
    (mkMatData None None None None None None None (Some 2%float) (Some "bar")) tt
  = (inr 200000%float, tt).
Proof. vm_compute. done. Qed.

End UnitClaims.

(** ** Material resolution *)

Section MonadFacts.
Context {S : Type}.

Lemma bind_inr {A B} (m : M S A) (k : A → M S B) s b s' :
  bind m k s = (inr b, s') →
  ∃ a s1, m s = (inr a, s1) ∧ k a s1 = (inr b, s').
Proof.
  unfold bind. destruct (m s) as [[e|a] s1]; [done|]. eauto.
Qed.

Lemma getitem_inr {A} key (o : option A) (s : S) a s' :
  getitem key o s = (inr a, s') → o = Some a ∧ s' = s.
Proof. destruct o; cbv; intros [= ]; subst; done. Qed.

End MonadFacts.

Section Keeps.
Import Spec.

Lemma keeps_ret {A} (a : A) : keeps_materials (ret a).
Proof. intros reg r reg' n l [= <- <-]. done. Qed.

Lemma keeps_raise {A} e : keeps_materials (raise (A := A) e).
Proof. intros reg r reg' n l [= <- <-]. done. Qed.

Lemma keeps_bind {A B} (m : M Registry A) (k : A → M Registry B) :
  keeps_materials m → (∀ a, keeps_materials (k a)) → keeps_materials (bind m k).
Proof.
  intros Hm Hk reg r reg' n l. unfold bind.
  destruct (m reg) as [[e|a] reg1] eqn:Hrun.
  - intros [= <- <-]. eauto.
  - intros Hka Hn. eapply Hk; [exact Hka|]. eauto.
Qed.

Lemma keeps_try_except {A} (m : M Registry A) handler :
  keeps_materials m → (∀ e, keeps_materials (handler e)) →
  keeps_materials (try_except m handler).
Proof.
  intros Hm Hh reg r reg' n l. unfold try_except.
  destruct (m reg) as [[e|a] reg1] eqn:Hrun.
  - intros Hhe Hn. eapply Hh; [exact Hhe|]. eauto.
  - intros [= <- <-]. eauto.
Qed.

Lemma keeps_for_in {A} (l : list A) (body : A → M Registry unit) :
  (∀ a, keeps_materials (body a)) → keeps_materials (for_in l body).
Proof.
  intros Hb. induction l as [|a l IH]; simpl.
  - apply keeps_ret.
  - apply keeps_bind; [apply Hb|]. intros _. apply IH.
Qed.

Lemma keeps_for_components c (body : component → M Registry unit) :
  (∀ a, keeps_materials (body a)) → keeps_materials (for_components c body).
Proof.
  intros Hb. destruct c as [[|]|l]; simpl;
    [apply keeps_ret|apply keeps_raise|by apply keeps_for_in].
Qed.

Lemma keeps_set_temperature l t : keeps_materials (set_temperature l t).
Proof. intros reg r reg' n m [= <- <-]. done. Qed.

Lemma keeps_set_pressure l p : keeps_materials (set_pressure l p).
Proof. intros reg r reg' n m [= <- <-]. done. Qed.

Context `{GR : Geant4Registers}.

Lemma keeps_get_or_create_element sym :
  keeps_materials (GDMLEditorApp._get_or_create_element sym).
Proof.
  intros reg r reg' n l. unfold GDMLEditorApp._get_or_create_element.
  destruct (defineDict reg !! sym); [by intros [= <- <-]|].
  apply keeps_try_except; [apply nist_element_keeps|].
  intros e. apply keeps_raise.
Qed.

Lemma keeps_element_or_placeholder sym :
  keeps_materials (InsertVolumeDialog.element_or_placeholder sym).
Proof.
  apply keeps_try_except; [apply nist_element_keeps|].
  intros _. apply Element_keeps.
Qed.

(** A material made from a catalog record is registered under its name. *)
Lemma create_user_material_registers name d reg m reg' :
  GDMLEditorApp.create_user_material_in_registry name d reg = (inr m, reg') →
  materialDict reg' !! name = Some m.
Proof.
  unfold GDMLEditorApp.create_user_material_in_registry.
  intros H.
  apply bind_inr in H as (dens & s1 & [_ ->]%getitem_inr & H).
  apply bind_inr in H as (unit & s1 & [_ ->]%getitem_inr & H).
  apply bind_inr in H as (temperature & s1 & Ht & H).
  assert (s1 = reg) as ->.
  { destruct (has_key _); [|by injection Ht].
    apply bind_inr in Ht as (t & s2 & Ht & [= _ <-]).
    unfold Units._convert_temperature_to_kelvin in Ht.
    apply bind_inr in Ht as (? & ? & [_ ->]%getitem_inr & [= _ <-]). done. }
  apply bind_inr in H as (pressure & s1 & Hp & H).
  assert (s1 = reg) as ->.
  { destruct (has_key _); [|by injection Hp].
    apply bind_inr in Hp as (t & s2 & Hp & [= _ <-]).
    unfold Units._convert_pressure_to_pascal in Hp.
    apply bind_inr in Hp as (? & ? & [_ ->]%getitem_inr & [= _ <-]). done. }
  apply bind_inr in H as (type & s1 & [_ ->]%getitem_inr & H).
  apply bind_inr in H as (mat & s1 & Hmat & H).
  assert (materialDict s1 !! name = Some mat) as Hreg.
  { destruct (String.eqb type "compound").
    - apply bind_inr in Hmat as (c & s2 & [_ ->]%getitem_inr & Hmat).
      by eapply MaterialCompound_registers.
    - apply bind_inr in Hmat as (c & s2 & [_ ->]%getitem_inr & Hmat).
      apply bind_inr in Hmat as (mat' & s2 & Hnew & Hmat).
      apply bind_inr in Hmat as ([] & s3 & Hloop & [= <- <-]).
      eapply keeps_for_components; [|exact Hloop|by eapply Material_registers].
      intros comp. apply keeps_bind; [apply keeps_get_or_create_element|].
      intros el. apply add_element_massfraction_keeps. }
  apply bind_inr in H as ([] & s2 & Hst & H).
  apply bind_inr in H as ([] & s3 & Hsp & [= <- <-]).
  assert (materialDict s2 !! name = Some mat) as Hreg2.
  { destruct temperature; [|by injection Hst as <-].
    eapply keeps_set_temperature; eauto. }
  destruct pressure; [|by injection Hsp as <-].
  eapply keeps_set_pressure; eauto.
Qed.

(** Whatever [_ensure_material_in_registry] returns is registered under
    the name that was asked for. *)
Lemma ensure_in_registers db name reg m reg' :
  GDMLEditorApp.ensure_in db name reg = (inr m, reg') →
  materialDict reg' !! name = Some m.
Proof.
  unfold GDMLEditorApp.ensure_in.
  destruct (materialDict reg !! name) as [m0|] eqn:Hreg; [by intros [= <- <-]|].
  destruct (Py.startswith "G4_" name).
  - unfold try_except.
    destruct (nist_material_2geant4Material name reg) as [[e|l] reg1] eqn:Hn.
    + destruct (materialDict reg1 !! name) eqn:H1; [|done]. by intros [= <- <-].
    + intros [= <- <-]. by eapply nist_material_registers.
  - destruct (UserMaterialDatabase.get_material db name) as [d|]; [|done].
    destruct (md_truthy d); [|done]. apply create_user_material_registers.
Qed.

Lemma create_from_file_registers name file reg m reg' :
  InsertVolumeDialog.create_from_file name file reg = (inr (inr m), reg') →
  materialDict reg' !! name = Some m.
Proof.
  unfold InsertVolumeDialog.create_from_file. intros H.
  apply bind_inr in H as (user_mats & s1 & Hf & H).
  assert (s1 = reg) as -> by (destruct file; by injection Hf).
  destruct (user_mats !! name) as [d|]; [|done].
  apply bind_inr in H as (dens & s1 & [_ ->]%getitem_inr & H).
  apply bind_inr in H as (unit & s1 & [_ ->]%getitem_inr & H).
  apply bind_inr in H as (type & s1 & [_ ->]%getitem_inr & H).
  apply bind_inr in H as (c & s1 & [_ ->]%getitem_inr & H).
  destruct (String.eqb type "compound").
  - apply bind_inr in H as (mat & s1 & Hnew & [= <- <-]).
    by eapply MaterialCompound_registers.
  - apply bind_inr in H as (mat & s1 & Hnew & H).
    apply bind_inr in H as ([] & s2 & Hloop & [= <- <-]).
    eapply keeps_for_components; [|exact Hloop|by eapply Material_registers].
    intros comp. apply keeps_bind; [apply keeps_element_or_placeholder|].
    intros el. apply add_element_massfraction_keeps.
Qed.

Lemma get_or_create_material_registers name file reg m reg' :
  InsertVolumeDialog.get_or_create_material name file reg = (inr m, reg') →
  materialDict reg' !! name = Some m.
Proof.
  unfold InsertVolumeDialog.get_or_create_material.
  destruct (materialDict reg !! name) as [m0|] eqn:Hreg; [by intros [= <- <-]|].
  destruct (Py.startswith "G4_" name).
  - destruct (nist_material_2geant4Material name reg) as [[e|l] reg1] eqn:Hn.
    + destruct (materialDict reg1 !! name) eqn:H1; [|done]. by intros [= <- <-].
    + intros [= <- <-]. by eapply nist_material_registers.
  - destruct (InsertVolumeDialog.create_from_file name file reg)
      as [[e|[msg|l]] reg1] eqn:Hc; [done|done|].
    intros [= <- <-]. by eapply create_from_file_registers.
Qed.

End Keeps.

Section ToyFacts.
Import Spec.

Lemma toy_new_material_registers name density st reg l reg' :
  Toy.new_material name density st reg = (inr l, reg') →
  materialDict reg' !! name = Some l.
Proof.
  unfold Toy.new_material. destruct (materialDict reg !! name); [done|].
  simpl. intros [= <- <-]. simpl. apply lookup_insert_eq.
Qed.

Lemma toy_new_element_keeps name : keeps_materials (Toy.new_element name).
Proof.
  intros reg r reg' n l. unfold Toy.new_element.
  destruct (defineDict reg !! name); simpl; by intros [= <- <-].
Qed.

(** The stand-in library honours the contract. *)
Lemma toy_registers : Geant4Registers (G := Toy.G4).
Proof.
  split; simpl.
  - intros name reg l reg'. unfold Toy.nist_material.
    case_bool_decide; [apply toy_new_material_registers|].
    destruct (String.eqb name "G4_HALF"); [|done].
    unfold bind. by destruct (Toy.new_material _ _ _ _) as [[?|?] ?].
  - intros name density _ st. apply toy_new_material_registers.
  - intros name density _ st. apply toy_new_material_registers.
  - intros mat el f reg r reg' n l [= <- <-]. done.
  - intros sym. unfold Toy.nist_element. case_bool_decide.
    + apply toy_new_element_keeps.
    + apply keeps_raise.
  - intros name _ _ _. apply toy_new_element_keeps.
Qed.

End ToyFacts.

Section ResolutionClaims.
Import Spec GDMLEditorApp.

(** C4.  [_ensure_material_in_registry] tries its sources in order.  With
    no registry it raises.  A name that keys [materialDict] is returned as
    it is and nothing changes.  Otherwise a name that starts with [G4_] is
    handed to the library: its result is returned; when the library raises
    and the name is registered afterwards, the registered material is
    returned; when it is not, the library's exception is raised again.
    Otherwise the user catalog is looked up: a record found there is made
    into a material, and a name without a (non-empty) record raises
    [Unknown material].  The six outcomes are shown on the example
    application with the stand-in library. *)
Theorem C4_resolution_order :
  (∀ (G : Geant4) reg w db cache name,
     let app := mk (Some reg) w db cache in
     let with_reg reg' := mk (Some reg') w db cache in
     (∀ m, materialDict reg !! name = Some m →
        _ensure_material_in_registry name app = (inr m, app)) ∧
     (materialDict reg !! name = None → Py.startswith "G4_" name = true →
      ∀ r reg', nist_material_2geant4Material name reg = (r, reg') →
        (∀ m, r = inr m →
           _ensure_material_in_registry name app = (inr m, with_reg reg')) ∧
        (∀ e m, r = inl e → materialDict reg' !! name = Some m →
           _ensure_material_in_registry name app = (inr m, with_reg reg')) ∧
        (∀ e, r = inl e → materialDict reg' !! name = None →
           _ensure_material_in_registry name app = (inl e, with_reg reg'))) ∧
     (materialDict reg !! name = None → Py.startswith "G4_" name = false →
      (∀ d, UserMaterialDatabase.get_material db name = Some d →
            md_truthy d = true →
         _ensure_material_in_registry name app =
         on_registry (create_user_material_in_registry name d) app) ∧
      (UserMaterialDatabase.get_material db name = None →
         _ensure_material_in_registry name app =
         (inl (ValueError ("Unknown material '" ++ name ++ "'")%string),
          app)))) ∧
  (∀ (G : Geant4) w db cache name,
     _ensure_material_in_registry name (mk None w db cache) =
     (inl (ValueError "No registry loaded"), mk None w db cache)) ∧
  (let resolve name :=
     (_ensure_material_in_registry (G := Toy.G4) name Catalog.app).1 in
   resolve "G4_AIR" = inr 0 ∧
   resolve "G4_WATER" = inr 1 ∧
   resolve "G4_HALF" = inr 1 ∧
   resolve "G4_NOPE" = inl (LibraryError "unknown NIST material G4_NOPE") ∧
   resolve "Water" = inr 1 ∧
   resolve "Nope" = inl (ValueError "Unknown material 'Nope'")).
Proof.
  split_and!.
  - intros G reg w db cache name app with_reg.
    unfold _ensure_material_in_registry, on_registry, ensure_in; simpl.
    split_and!.
    + intros m ->. done.
    + intros -> -> r reg' Hn. unfold try_except. rewrite Hn.
      split_and!; [by intros m ->|by intros e m -> ->|by intros e -> ->].
    + intros -> ->. split.
      * by intros d -> ->.
      * by intros ->.
  - done.
  - vm_compute. done.
Qed.

(** C3.  With a library whose constructors register what they return,
    resolution is idempotent: when [_ensure_material_in_registry] has
    returned a material, a second call with the same name on the resulting
    application returns the same object and changes nothing, so that no
    second material is constructed; whether the first call found the name
    in the registry, obtained it from the reference catalog or made it
    from a user record plays no role.  The "get or create material" step
    of the insert dialog behaves the same way. *)
Theorem C3_resolution_idempotent `{GR : Geant4Registers} :
  (∀ name app m app',
     _ensure_material_in_registry name app = (inr m, app') →
     _ensure_material_in_registry name app' = (inr m, app')) ∧
  (∀ name file reg m reg',
     InsertVolumeDialog.get_or_create_material name file reg = (inr m, reg') →
     InsertVolumeDialog.get_or_create_material name file reg' = (inr m, reg')).
Proof.
  split.
  - intros name [[reg|] w db cache] m app'; [|done].
    unfold _ensure_material_in_registry, on_registry; simpl.
    destruct (ensure_in db name reg) as [[e|l] reg1] eqn:He; [done|].
    intros [= <- <-]. simpl.
    apply ensure_in_registers in He.
    unfold ensure_in. by rewrite He.
  - intros name file reg m reg' H.
    apply get_or_create_material_registers in H.
    unfold InsertVolumeDialog.get_or_create_material. by rewrite H.
Qed.

(** The three sources, twice each, on the example application. *)
Lemma C3_witness :
  let resolve := _ensure_material_in_registry (G := Toy.G4) in
  let after name := (resolve name Catalog.app).2 in
  (resolve "G4_AIR" Catalog.app = (inr 0, after "G4_AIR") ∧
   resolve "G4_AIR" (after "G4_AIR") = (inr 0, after "G4_AIR")) ∧
  (resolve "G4_WATER" Catalog.app = (inr 1, after "G4_WATER") ∧
   resolve "G4_WATER" (after "G4_WATER") = (inr 1, after "G4_WATER")) ∧
  (resolve "Water" Catalog.app = (inr 1, after "Water") ∧
   resolve "Water" (after "Water") = (inr 1, after "Water")).
Proof.
  intros resolve after.
  pose proof (proj1 (C3_resolution_idempotent (GR := toy_registers))) as H.
  assert (resolve "G4_AIR" Catalog.app = (inr 0, after "G4_AIR")) as H1
    by (vm_compute; reflexivity).
  assert (resolve "G4_WATER" Catalog.app = (inr 1, after "G4_WATER")) as H2
    by (vm_compute; reflexivity).
  assert (resolve "Water" Catalog.app = (inr 1, after "Water")) as H3
    by (vm_compute; reflexivity).
  split_and!; [exact H1|exact (H _ _ _ _ H1)|exact H2|exact (H _ _ _ _ H2)|
               exact H3|exact (H _ _ _ _ H3)].
Defined.

End ResolutionClaims.

(** ** Deleting a catalog entry *)

Section DeleteMaterialClaims.
Import GDMLEditorApp MaterialManagementDialog.

(** C5, as stated, fails: [Water] is in the user catalog and materialized
    in the registry (object 1, the material of volume [A]); after
    [delete_material] the registry's material map has no [Water]. *)
Lemma C5_delete_material_unregisters :
  let app := Catalog.app_with_water in
  let app' := (delete_material (G := Toy.G4) (Some "Water") true app).2 in
  is_Some (UserMaterialDatabase.materials (user_material_db app) !! "Water") ∧
  (materialDict <$> registry app) = Some ({["G4_AIR" := 0; "Water" := 1]}) ∧
  (delete_material (G := Toy.G4) (Some "Water") true app).1 = inr tt ∧
  (materialDict <$> registry app') = Some ({["G4_AIR" := 0]}) ∧
  (registry app' ≫= λ reg, materialDict reg !! "Water") = None ∧
  registry app' ≠ registry app.
Proof.
  split_and!.
  - by eexists.
  - reflexivity.
  - vm_compute. reflexivity.
  - vm_compute. reflexivity.
  - vm_compute. reflexivity.
  - intros Heq.
    assert ((registry (delete_material (G := Toy.G4) (Some "Water") true
                         Catalog.app_with_water).2
             ≫= λ reg, materialDict reg !! "Water")
            = (registry Catalog.app_with_water
               ≫= λ reg, materialDict reg !! "Water")) as H
      by (by rewrite Heq).
    vm_compute in H. discriminate.
Qed.

(** [remove_material] changes the catalog only: the dictionary loses the
    name, whether or not the file could be written. *)
Lemma remove_material_materials name db :
  UserMaterialDatabase.materials (UserMaterialDatabase.remove_material name db).2
  = delete name (UserMaterialDatabase.materials db).
Proof.
  unfold UserMaterialDatabase.remove_material, bind, gets. simpl.
  case_bool_decide as Hin.
  - unfold UserMaterialDatabase.set_materials, UserMaterialDatabase.save, modify.
    simpl. by destruct (UserMaterialDatabase.writable db).
  - simpl. symmetry. apply delete_id.
    by apply eq_None_not_Some.
Qed.

(** C5, amended.  For a name that is in the user catalog and materialized
    in the registry, a confirmed [delete_material] whose catalog file can
    be written removes the catalog entry and deletes the name's key from
    [registry.materialDict]; every other key of the material map, the
    material objects themselves (the one of the deleted name included),
    the volumes with their material references, the placements, the
    solids and the definitions are unchanged.  (The list of materials is
    refreshed at the end, which leaves the NIST names in the cache.) *)
Theorem C5_delete_material_keeps_objects_and_bindings `{G : Geant4}
    name app reg l :
  registry app = Some reg →
  is_Some (UserMaterialDatabase.materials (user_material_db app) !! name) →
  materialDict reg !! name = Some l →
  UserMaterialDatabase.writable (user_material_db app) = true →
  ∃ reg' db',
    delete_material (Some name) true app =
      (inr tt, mk (Some reg') (world_lv app) db'
                 (Some (Spec.nist_names app))) ∧
    UserMaterialDatabase.materials db' !! name = None ∧
    UserMaterialDatabase.file db' = Some (UserMaterialDatabase.materials db') ∧
    materialDict reg' !! name = None ∧
    (∀ n, n ≠ name → materialDict reg' !! n = materialDict reg !! n) ∧
    heap reg' = heap reg ∧
    logicalVolumeDict reg' = logicalVolumeDict reg ∧
    physicalVolumeDict reg' = physicalVolumeDict reg ∧
    solidDict reg' = solidDict reg ∧
    defineDict reg' = defineDict reg ∧
    worldVolume reg' = worldVolume reg.
Proof.
  intros Hreg Hcat Hmat Hw.
  exists (set_materialDict (delete name) reg).
  exists (UserMaterialDatabase.mk
            (delete name (UserMaterialDatabase.materials (user_material_db app)))
            (Some (delete name (UserMaterialDatabase.materials (user_material_db app))))
            true).
  split_and!; try done.
  - unfold delete_material, UserMaterialDatabase.remove_material, bind, gets.
    simpl. rewrite bool_decide_eq_true_2 by done.
    unfold UserMaterialDatabase.set_materials, UserMaterialDatabase.save, modify.
    simpl. rewrite Hw, Hreg.
    rewrite bool_decide_eq_true_2 by (by eexists).
    unfold update_user_material_list, _update_volume_material_dropdown,
      _get_all_available_materials, Spec.nist_names.
    done.
  - simpl. apply lookup_delete_eq.
  - simpl. apply lookup_delete_eq.
  - intros n Hn. simpl. by apply lookup_delete_ne.
Qed.

Lemma C5_witness :
  ∃ reg' db',
    delete_material (G := Toy.G4) (Some "Water") true Catalog.app_with_water =
      (inr tt, mk (Some reg') (Some (LVObj (Some "W"))) db'
                 (Some ["G4_AIR"; "G4_Galactic"; "G4_WATER"])) ∧
    UserMaterialDatabase.materials db' !! "Water" = None ∧
    UserMaterialDatabase.file db' = Some (UserMaterialDatabase.materials db') ∧
    materialDict reg' !! "Water" = None ∧
    (∀ n, n ≠ "Water" →
       materialDict reg' !! n = materialDict Catalog.registry_with_water !! n) ∧
    heap reg' = heap Catalog.registry_with_water ∧
    logicalVolumeDict reg' = logicalVolumeDict Catalog.registry_with_water ∧
    physicalVolumeDict reg' = physicalVolumeDict Catalog.registry_with_water ∧
    solidDict reg' = solidDict Catalog.registry_with_water ∧
    defineDict reg' = defineDict Catalog.registry_with_water ∧
    worldVolume reg' = worldVolume Catalog.registry_with_water.
Proof.
  apply (C5_delete_material_keeps_objects_and_bindings (G := Toy.G4) "Water"
           Catalog.app_with_water Catalog.registry_with_water 1).
  - reflexivity.
  - exists Catalog.water. reflexivity.
  - reflexivity.
  - reflexivity.
Defined.

End DeleteMaterialClaims.

(** ** Unknown element symbols *)

Section ElementClaims.
Import GDMLEditorApp.

(** The application's element lookup turns a failed NIST lookup into
    [ValueError]; the insert dialog's makes an element from the symbol. *)
Lemma element_lookup_paths `{G : Geant4} sym reg e reg' :
  defineDict reg !! sym = None →
  nist_element_2geant4Element sym reg = (inl e, reg') →
  _get_or_create_element sym reg =
    (inl (ValueError ("Unknown element '" ++ sym ++ "': " ++ exn_str e)%string),
     reg') ∧
  InsertVolumeDialog.element_or_placeholder sym reg =
    Element sym sym 1.0%float 1.0%float reg'.
Proof.
  intros Hd Hn. unfold _get_or_create_element,
    InsertVolumeDialog.element_or_placeholder, try_except.
  by rewrite Hd, Hn.
Qed.

(** C6, at the failing input.  The catalog record [Alloy] is a mixture of
    [Fe] and of [Xx], which the NIST element table does not know.
    Resolving it through [_ensure_material_in_registry] raises
    [ValueError: Unknown element 'Xx'], and leaves the half-built material
    registered; the insert dialog builds the same record with an element
    made from the bare symbol. *)
Theorem C6_unknown_element_raises_in_resolver :
  let resolved := _ensure_material_in_registry (G := Toy.G4) "Alloy" Catalog.app in
  resolved.1 =
    inl (ValueError "Unknown element 'Xx': unknown NIST element Xx") ∧
  (registry resolved.2 ≫= λ reg, materialDict reg !! "Alloy") = Some 1 ∧
  (InsertVolumeDialog.get_or_create_material (G := Toy.G4) "Alloy"
     (Some Catalog.materials) Examples.w_a_b).1 = inr 1.
Proof. vm_compute. done. Qed.

End ElementClaims.

(** ** Validation of material records *)

Section RecordClaims.
Import Spec GDMLEditorApp MaterialDefinitionDialog.

Lemma read_entries_sum py_float entries comps0 t0 comps total :
  read_entries py_float entries comps0 t0 = inr (comps, total) →
  ∃ new, comps = comps0 ++ new ∧ total = fraction_sum t0 new.
Proof.
  revert comps0 t0. induction entries as [|[e f] entries IH]; intros comps0 t0;
    simpl.
  - intros [= <- <-]. exists []. by rewrite app_nil_r.
  - destruct (_ && _); [apply IH|].
    destruct (_ || _); [done|].
    destruct (py_float _) as [fr|]; [|done].
    destruct (_ || _); [done|].
    intros (new & -> & ->)%IH.
    exists (mkComponent (Py.strip e) fr :: new). by rewrite <- app_assoc.
Qed.

(** C7, as stated, fails: whether the resolution of a record fails does
    not follow the record being malformed.  With a library whose
    constructors take what they are given, the records [Lean] (fractions
    0.5 and 0.4, summing to 0.9) and [Blank] (a compound with an empty
    formula) are resolved into materials.  With a library whose
    constructors reject the calls, the well-formed [Water] (fractions
    0.112 and 0.888) fails in the very way [Lean] fails, with the
    library's exception. *)
Lemma C7_malformed_records_resolve :
  let resolve G name :=
    (_ensure_material_in_registry (G := G) name Catalog.app).1 in
  let off components :=
    (0.001 <? abs (fraction_sum 0 components - 1.0))%float in
  UserMaterialDatabase.get_material Catalog.db "Lean" =
    Some (Catalog.mixture 1.0 "g/cm3"
            [mkComponent "H" 0.5; mkComponent "O" 0.4]) ∧
  off [mkComponent "H" 0.5; mkComponent "O" 0.4] = true ∧
  UserMaterialDatabase.get_material Catalog.db "Blank" =
    Some (Catalog.compound 1.0 "g/cm3" "") ∧
  UserMaterialDatabase.get_material Catalog.db "Water" =
    Some (Catalog.mixture 1.0 "g/cm3"
            [mkComponent "H" 0.112; mkComponent "O" 0.888]) ∧
  off [mkComponent "H" 0.112; mkComponent "O" 0.888] = false ∧
  resolve Toy.G4 "Lean" = inr 1 ∧
  resolve Toy.G4 "Blank" = inr 1 ∧
  resolve Strict.G4 "Lean" = inl (TypeError "positional arguments") ∧
  resolve Strict.G4 "Water" = inl (TypeError "positional arguments").
Proof. vm_compute. done. Qed.

(** A compound record goes to the library's constructor as it is. *)
Lemma create_compound_unchecked `{G : Geant4} name d dens unit c reg :
  md_type d = Some "compound" → md_density d = Some dens →
  md_density_unit d = Some unit → md_composition d = Some c →
  create_user_material_in_registry name d reg
  = (let! mat := MaterialCompound name
                   (Units._convert_density_to_g_cm3 dens unit) c
                   (Some (default "solid" (md_state d))) in
     assign_optional d mat ;;; ret mat)%py reg.
Proof.
  destruct d as [ty ρ u c' st t tu p pu]. simpl. intros -> -> -> ->.
  unfold create_user_material_in_registry, assign_optional,
    Units._convert_temperature_to_kelvin, Units._convert_pressure_to_pascal.
  unfold bind, getitem. unfold ret.
  cbn [md_type md_density md_density_unit md_composition md_state
       md_temperature md_temp_unit md_pressure md_pressure_unit].
  rewrite String.eqb_refl.
  destruct t, p; cbn [has_key];
    destruct (MaterialCompound _ _ _ _ reg) as [[e|m] reg']; try done;
    repeat match goal with
           | |- context [set_temperature ?m ?x ?r] =>
               destruct (set_temperature m x r) as [[?|[]] ?]
           | |- context [set_pressure ?m ?x ?r] =>
               destruct (set_pressure m x r) as [[?|[]] ?]
           end; done.
Qed.

(** So does a mixture record: the material is made, then every component
    is added in turn; the fractions are not summed. *)
Lemma create_mixture_unchecked `{G : Geant4} name d ty dens unit c reg :
  md_type d = Some ty → ty ≠ "compound" → md_density d = Some dens →
  md_density_unit d = Some unit → md_composition d = Some c →
  create_user_material_in_registry name d reg
  = (let! mat := Material name (Units._convert_density_to_g_cm3 dens unit)
                   (composition_len c)
                   (Some (default "solid" (md_state d))) in
     for_components c (λ comp,
       let! el := _get_or_create_element (element comp) in
       add_element_massfraction mat el (fraction comp)) ;;;
     assign_optional d mat ;;; ret mat)%py reg.
Proof.
  destruct d as [ty' ρ u c' st t tu p pu]. simpl.
  intros -> Hty%String.eqb_neq -> -> ->.
  unfold create_user_material_in_registry, assign_optional,
    Units._convert_temperature_to_kelvin, Units._convert_pressure_to_pascal.
  unfold bind, getitem. unfold ret.
  cbn [md_type md_density md_density_unit md_composition md_state
       md_temperature md_temp_unit md_pressure md_pressure_unit].
  rewrite Hty.
  destruct t, p; cbn [has_key];
    destruct (Material _ _ _ _ reg) as [[e|m] reg']; try done;
    destruct (for_components c _ reg') as [[e|[]] reg'']; try done;
    repeat match goal with
           | |- context [set_temperature ?m ?x ?r] =>
               destruct (set_temperature m x r) as [[?|[]] ?]
           | |- context [set_pressure ?m ?x ?r] =>
               destruct (set_pressure m x r) as [[?|[]] ?]
           end; done.
Qed.

(** C7, amended.  The check is made when a record is authored, not when
    it is resolved.  For a form with a name and a positive density,
    [save_material] shows an error and stores nothing when the type is
    [compound] and the formula is empty once stripped, and when the type is
    not [compound] and the fractions read from the rows, summed in order
    from 0.0, differ from 1.0 by more than 0.001; the second error box
    names the sum with four decimals.
    [create_user_material_in_registry] checks neither: whatever the
    library and whatever the record holds besides its four required
    keys, a compound record goes to the library's constructor with its
    formula as it is, and a mixture record has its material made and its
    components added one by one; the optional temperature and pressure
    are assigned afterwards.  The outcome of the resolution is the
    outcome of these calls. *)
Theorem C7_form_rejects_malformed_records py_float f db density :
  Py.strip (name_var f) ≠ "" →
  py_float (density_var f) = Some density →
  (density <=? 0)%float = false →
  (material_type f = "compound" → Py.strip (formula_var f) = "" →
   save_material py_float f db = (inl "Molecular formula is required", db)) ∧
  (material_type f ≠ "compound" →
   ∀ comps total,
     read_entries py_float (element_entries f) [] 0%float = inr (comps, total) →
     total = fraction_sum 0 comps ∧
     (comps ≠ [] → (0.001 <? abs (total - 1.0))%float = true →
      save_material py_float f db =
        (inl ("Mass fractions must sum to 1.0 (current sum: " ++
              Py.format_4f total ++ ")")%string, db))) ∧
  (∀ (G : Geant4) name d dens unit c reg,
     md_type d = Some "compound" → md_density d = Some dens →
     md_density_unit d = Some unit → md_composition d = Some c →
     create_user_material_in_registry name d reg
     = (let! mat := MaterialCompound name
                      (Units._convert_density_to_g_cm3 dens unit) c
                      (Some (default "solid" (md_state d))) in
        assign_optional d mat ;;; ret mat)%py reg) ∧
  (∀ (G : Geant4) name d ty dens unit c reg,
     md_type d = Some ty → ty ≠ "compound" → md_density d = Some dens →
     md_density_unit d = Some unit → md_composition d = Some c →
     create_user_material_in_registry name d reg
     = (let! mat := Material name (Units._convert_density_to_g_cm3 dens unit)
                      (composition_len c)
                      (Some (default "solid" (md_state d))) in
        for_components c (λ comp,
          let! el := _get_or_create_element (element comp) in
          add_element_massfraction mat el (fraction comp)) ;;;
        assign_optional d mat ;;; ret mat)%py reg).
Proof.
  intros Hname Hd Hpos.
  assert (String.eqb (Py.strip (name_var f)) "" = false) as Hn
    by by apply String.eqb_neq.
  split_and!.
  - intros Ht Hf. unfold save_material, read_composition.
    by rewrite Hn, Hd, Hpos, Ht, Hf.
  - intros Ht comps total Hread. split.
    + apply read_entries_sum in Hread as (new & -> & ->). done.
    + intros Hne Htol. unfold save_material, read_composition.
      apply String.eqb_neq in Ht.
      rewrite Hn, Hd, Hpos, Ht, Hread, Htol. by destruct comps.
  - intros G. apply @create_compound_unchecked.
  - intros G. apply @create_mixture_unchecked.
Qed.

Lemma C7_witness :
  save_material Toy.py_float Catalog.form_blank Catalog.db =
    (inl "Molecular formula is required", Catalog.db) ∧
  save_material Toy.py_float Catalog.form_lean Catalog.db =
    (inl "Mass fractions must sum to 1.0 (current sum: 0.9000)", Catalog.db) ∧
  (save_material Toy.py_float Catalog.form_water Catalog.db).1 = inr "Water2".
Proof.
  split_and!.
  - apply (C7_form_rejects_malformed_records Toy.py_float Catalog.form_blank
             Catalog.db 1.0%float); [by vm_compute|reflexivity..].
  - pose proof (C7_form_rejects_malformed_records Toy.py_float
                  Catalog.form_lean Catalog.db 1.0%float) as (_ & H & _);
      [by vm_compute|reflexivity|reflexivity|].
    destruct (H ltac:(by vm_compute)
                [mkComponent "H" 0.5; mkComponent "O" 0.4] 0.9%float)
      as [_ Hsave]; [vm_compute; reflexivity|].
    rewrite Hsave; [vm_compute; reflexivity|done|vm_compute; reflexivity].
  - vm_compute. reflexivity.
Defined.

End RecordClaims.

(** ** The list of available materials *)

Section ListingClaims.
Import Spec GDMLEditorApp.

Lemma elem_of_list_materials db n :
  n ∈ UserMaterialDatabase.list_materials db ↔
  is_Some (UserMaterialDatabase.materials db !! n).
Proof.
  unfold UserMaterialDatabase.list_materials.
  rewrite elem_of_sorted, list_elem_of_fmap. split.
  - intros ([k d] & -> & Hin). apply elem_of_map_to_list in Hin. by eexists.
  - intros [d Hd]. exists (n, d). split; [done|]. by apply elem_of_map_to_list.
Qed.

(** The application's listing: sorted on the lower-cased names, without
    repetition, made of the three sources, and without effect on the
    registry or the catalog. *)
Lemma app_listing_spec `{G : Geant4} app reg :
  registry app = Some reg →
  let listed := _get_all_available_materials app in
  StronglySorted (Py.key_le Py.lower) listed.1 ∧
  NoDup listed.1 ∧
  (∀ n, n ∈ listed.1 ↔
        is_Some (materialDict reg !! n) ∨ n ∈ nist_names app ∨
        is_Some (UserMaterialDatabase.materials (user_material_db app) !! n)) ∧
  registry listed.2 = registry app ∧
  user_material_db listed.2 = user_material_db app ∧
  _cached_nist_materials listed.2 = Some (nist_names app).
Proof.
  intros Hreg. unfold _get_all_available_materials. rewrite Hreg. simpl.
  split_and!; try done.
  - apply sorted_sorted.
  - apply sorted_NoDup, NoDup_elements.
  - intros n. rewrite elem_of_sorted, elem_of_elements, !elem_of_union,
      !elem_of_list_to_set, elem_of_dom, elem_of_list_materials.
    unfold nist_names. tauto.
Qed.

(** C8, at the failing input.  The registry holds one material, named
    [copper]; the NIST list is [G4_AIR], [G4_Galactic], [G4_WATER]; there
    is no catalog file.  The insert dialog's listing puts the upper-case
    names first, which is not the order of the lower-cased names; the
    application's listing of the same state starts with [copper]. *)
Theorem C8_dialog_listing_is_case_sensitive :
  let listed :=
    InsertVolumeDialog._get_all_available_materials (G := Toy.G4)
      Catalog.copper_only None in
  listed = ["G4_AIR"; "G4_Galactic"; "G4_WATER"; "copper"] ∧
  ¬ Sorted (Py.key_le Py.lower) listed ∧
  (_get_all_available_materials (G := Toy.G4) Catalog.app_copper).1 =
    ["copper"; "G4_AIR"; "G4_Galactic"; "G4_WATER"].
Proof.
  assert (InsertVolumeDialog._get_all_available_materials (G := Toy.G4)
            Catalog.copper_only None
          = ["G4_AIR"; "G4_Galactic"; "G4_WATER"; "copper"]) as Heq
    by (vm_compute; reflexivity).
  cbv zeta. rewrite Heq. split_and!; [done| |vm_compute; reflexivity].
  intros Hs. apply Sorted_inv in Hs as [Hs _]. apply Sorted_inv in Hs as [Hs _].
  apply Sorted_inv in Hs as [_ Hs]. apply HdRel_inv in Hs.
  vm_compute in Hs. discriminate.
Qed.

End ListingClaims.

(** ** Deleting a volume *)

Section DeleteVolumeFacts.
Import Spec GDMLEditorApp.

Implicit Types (v k n : string) (pv : PhysicalVolume) (lv : LogicalVolume)
  (reg : Registry).

Lemma places_true v pv : places v pv = inr true ↔ places_volume v pv.
Proof.
  unfold places, places_volume. destruct (child_name pv) as [e|c]; [done|].
  split.
  - intros [= H]. apply String.eqb_eq in H. by subst.
  - intros [= ->]. by rewrite String.eqb_refl.
Qed.

Lemma places_inr v pv b : places v pv = inr b → ∃ c, child_name pv = inr c.
Proof. unfold places. destruct (child_name pv); [done|eauto]. Qed.

Lemma select_inr {A} (test : A → exn + bool) (l r : list A) :
  select test l = inr r →
  Forall (λ x, ∃ b, test x = inr b) l ∧
  r = filter (λ x, test x = inr true) l.
Proof.
  revert r. induction l as [|x l IH]; intros r; simpl.
  - intros [= <-]. done.
  - destruct (test x) as [e|b] eqn:Hx; [done|].
    destruct (select test l) as [e|r'] eqn:Hsel; [done|].
    intros [= <-]. destruct (IH r' eq_refl) as [Hall ->].
    split; [constructor; eauto|].
    destruct b.
    + by rewrite filter_cons_True.
    + rewrite filter_cons_False; [done|]. rewrite Hx. discriminate.
Qed.

(** The placements the first loop collects: for each volume, in the order
    of the dictionary, its daughters that place [v]. *)
Lemma find_placements_inr v items r :
  find_placements v items = inr r →
  Forall (λ kv, Forall (λ pv, ∃ c, child_name pv = inr c)
                  (daughterVolumes kv.2)) items ∧
  r = flat_map (λ kv, pair kv.1 <$> filter (places_volume v)
                                      (daughterVolumes kv.2)) items.
Proof.
  revert r. induction items as [|[k lv] items IH]; intros r; simpl.
  - intros [= <-]. done.
  - destruct (select _ _) as [e|ps] eqn:Hsel; [done|].
    destruct (find_placements v items) as [e|r'] eqn:Hrest; [done|].
    intros [= <-]. apply select_inr in Hsel as [Hall ->].
    destruct (IH r' eq_refl) as [Hall' ->]. split.
    + constructor; [|done]. simpl. eapply Forall_impl; [exact Hall|].
      intros pv [b Hb]. by eapply places_inr.
    + f_equal. f_equal. apply list_filter_iff. intros pv. apply places_true.
Qed.

Lemma filter_key_same k (l : list PhysicalVolume) :
  (filter (λ p : string * PhysicalVolume, p.1 = k) (pair k <$> l)).*2 = l.
Proof.
  induction l as [|pv l IH]; [done|].
  rewrite fmap_cons, filter_cons_True by done. rewrite fmap_cons, IH. done.
Qed.

Lemma filter_key_other k k0 (l : list PhysicalVolume) :
  k ≠ k0 →
  filter (λ p : string * PhysicalVolume, p.1 = k0) (pair k <$> l) = [].
Proof.
  intros Hne. induction l as [|pv l IH]; [done|].
  rewrite fmap_cons, filter_cons_False by done. exact IH.
Qed.

Lemma collected_for_absent v k0 (items : list (string * LogicalVolume)) :
  k0 ∉ items.*1 →
  collected_for k0
    (flat_map (λ kv, pair kv.1 <$> filter (places_volume v)
                                     (daughterVolumes kv.2)) items) = [].
Proof.
  unfold collected_for. induction items as [|[k lv] items IH]; simpl; [done|].
  intros Hk. apply not_elem_of_cons in Hk as [Hne Hk].
  rewrite filter_app, fmap_app, IH by done. rewrite app_nil_r.
  by rewrite filter_key_other.
Qed.

Lemma collected_for_present v k0 lv0 (items : list (string * LogicalVolume)) :
  NoDup items.*1 → (k0, lv0) ∈ items →
  collected_for k0
    (flat_map (λ kv, pair kv.1 <$> filter (places_volume v)
                                     (daughterVolumes kv.2)) items)
  = filter (places_volume v) (daughterVolumes lv0).
Proof.
  induction items as [|[k lv] items IH]; simpl; [by intros _ ?%elem_of_nil|].
  intros [Hk Hnd]%NoDup_cons Hin. unfold collected_for.
  rewrite filter_app, fmap_app.
  apply elem_of_cons in Hin as [[= -> ->]|Hin].
  - rewrite filter_key_same.
    pose proof (collected_for_absent v k items Hk) as Habs.
    unfold collected_for in Habs. rewrite Habs. apply app_nil_r.
  - assert (k ≠ k0) as Hne.
    { intros ->. apply Hk. apply list_elem_of_fmap. by exists (k0, lv0). }
    rewrite filter_key_other by done. simpl. by apply IH.
Qed.

Lemma remove_first_skip {A} `{EqDecision A} (x h : A) (t : list A) :
  x ≠ h → remove_first x (h :: t) = cons h <$> remove_first x t.
Proof. intros Hne. simpl. by rewrite decide_False. Qed.

Lemma remove_all_skip {A} `{EqDecision A} (P : A → Prop) (xs : list A) h :
  Forall P xs → ¬ P h →
  ∀ t, remove_all xs (h :: t) = cons h <$> remove_all xs t.
Proof.
  intros Hxs Hh. induction Hxs as [|x xs Hx _ IH]; intros t; [done|].
  cbn [remove_all]. rewrite remove_first_skip by (intros ->; done).
  destruct (remove_first x t) as [t'|]; simpl; [apply IH|done].
Qed.

(** Removing, one after the other, the elements of a list that satisfy
    [P] leaves those that do not. *)
Lemma remove_all_filter {A} `{EqDecision A} (P : A → Prop)
    `{∀ x, Decision (P x)} (l : list A) :
  remove_all (filter P l) l = Some (filter (λ x, ¬ P x) l).
Proof.
  induction l as [|h t IH]; [done|].
  rewrite !filter_cons. destruct (decide (P h)) as [Hh|Hh].
  - rewrite decide_False by tauto.
    cbn [remove_all remove_first]. rewrite decide_True by done. simpl. apply IH.
  - rewrite decide_True by done.
    rewrite (remove_all_skip P); [by rewrite IH| |done].
    apply Forall_forall. intros x Hx. by apply list_elem_of_filter in Hx as [? _].
Qed.

End DeleteVolumeFacts.

Section DeleteVolumeSteps.
Import Spec GDMLEditorApp.

Implicit Types (v k n : string) (pv : PhysicalVolume) (lv : LogicalVolume)
  (reg : Registry).

Lemma with_daughters_same lv : with_daughters lv (daughterVolumes lv) = lv.
Proof. by destruct lv. Qed.

Lemma remove_daughter_inr k pv reg reg' :
  remove_daughter k pv reg = (inr tt, reg') →
  (∀ k0, logicalVolumeDict reg' !! k0 =
         if decide (k = k0)
         then lv ← logicalVolumeDict reg !! k0;
              with_daughters lv <$> remove_first pv (daughterVolumes lv)
         else logicalVolumeDict reg !! k0) ∧
  physicalVolumeDict reg' = physicalVolumeDict reg ∧
  solidDict reg' = solidDict reg.
Proof.
  unfold remove_daughter.
  destruct (logicalVolumeDict reg !! k) as [parent|] eqn:Hk.
  - destruct (remove_first pv (daughterVolumes parent)) as [ds|] eqn:Hrm; [|done].
    intros [= <-]. split_and!; [|done..].
    intros k0. simpl. case_decide as Hkk.
    + subst k0. rewrite lookup_insert_eq, Hk. simpl. by rewrite Hrm.
    + by rewrite lookup_insert_ne.
  - intros [= <-]. split_and!; [|done..].
    intros k0. case_decide; [subst; by rewrite Hk|done].
Qed.

Lemma unregister_placement_inr pv reg r reg' :
  unregister_placement pv reg = (r, reg') →
  logicalVolumeDict reg' = logicalVolumeDict reg ∧
  (∀ n, physicalVolumeDict reg' !! n =
        if decide (pv_name pv = Some n) then None
        else physicalVolumeDict reg !! n) ∧
  solidDict reg' = solidDict reg.
Proof.
  unfold unregister_placement. destruct (pv_name pv) as [n'|] eqn:Hn.
  - case_bool_decide as Hin; intros [= <- <-]; (split_and!; [done| |done]);
      intros n; simpl.
    + case_decide as Hnn; [injection Hnn as ->; apply lookup_delete_eq|].
      apply lookup_delete_ne. congruence.
    + case_decide as Hnn; [|done]. injection Hnn as ->.
      by apply eq_None_not_Some.
  - intros [= <- <-]. split_and!; [done| |done]. intros n. by rewrite decide_False.
Qed.

(** The second loop, seen from the dictionaries: each parent loses the
    collected placements from its daughter list, and the names of the
    collected placements leave [physicalVolumeDict]. *)
Lemma remove_placements_inr (r : list (string * PhysicalVolume)) reg reg' :
  for_in r (λ p, remove_placement p.1 p.2) reg = (inr tt, reg') →
  (∀ k0, logicalVolumeDict reg' !! k0 =
         lv ← logicalVolumeDict reg !! k0;
         with_daughters lv <$> remove_all (collected_for k0 r) (daughterVolumes lv)) ∧
  (∀ n, physicalVolumeDict reg' !! n =
        if decide (Some n ∈ pv_name <$> r.*2) then None
        else physicalVolumeDict reg !! n) ∧
  solidDict reg' = solidDict reg.
Proof.
  revert reg. induction r as [|[k pv] r IH]; intros reg.
  - simpl. intros [= <-]. split_and!; [| |done].
    + intros k0. destruct (logicalVolumeDict reg !! k0) as [lv|]; simpl; [|done].
      by rewrite with_daughters_same.
    + done.
  - cbn [for_in]. intros H. apply bind_inr in H as ([] & reg1 & Hstep & Hrest).
    unfold remove_placement in Hstep.
    apply bind_inr in Hstep as ([] & reg0 & Hd & Hu).
    apply remove_daughter_inr in Hd as (Hl0 & Hp0 & Hs0).
    apply unregister_placement_inr in Hu as (Hl1 & Hp1 & Hs1).
    apply IH in Hrest as (Hl & Hp & Hs). split_and!.
    + intros k0. rewrite Hl, Hl1, Hl0. unfold collected_for.
      case_decide as Hk.
      * subst k0. rewrite filter_cons_True by done. simpl.
        destruct (logicalVolumeDict reg !! k) as [lv|]; simpl; [|done].
        destruct (remove_first pv (daughterVolumes lv)) as [ds|]; simpl; [|done].
        destruct (remove_all _ ds); simpl; by destruct lv.
      * by rewrite filter_cons_False.
    + intros n. rewrite Hp, Hp1, Hp0. rewrite !fmap_cons. simpl.
      repeat case_decide; try done; set_solver.
    + congruence.
Qed.

End DeleteVolumeSteps.

Section DeleteVolumeClaims.
Import Spec GDMLEditorApp.

Implicit Types (v k n : string) (pv : PhysicalVolume) (lv : LogicalVolume)
  (reg : Registry).

Lemma registry_refresh app :
  registry (refresh_volume_tree app) = registry app.
Proof.
  unfold refresh_volume_tree. destruct (registry app) as [reg|] eqn:Hreg; [|done].
  destruct (negb _); [done|]. simpl. done.
Qed.

Lemma refresh_frame app :
  user_material_db (refresh_volume_tree app) = user_material_db app ∧
  _cached_nist_materials (refresh_volume_tree app) = _cached_nist_materials app.
Proof.
  unfold refresh_volume_tree. destruct (registry app) as [reg|]; [|done].
  by destruct (negb _).
Qed.

Lemma refresh_world_lv app reg w :
  registry app = Some reg →
  Hierarchy.obj_name_of (worldVolume reg) = Some w → w ≠ "" →
  world_lv (refresh_volume_tree app) =
  match logicalVolumeDict reg !! w with
  | Some lv => Some (LVObj (Some (lv_name lv)))
  | None => worldVolume reg
  end.
Proof.
  intros Hreg Hw Hne. unfold refresh_volume_tree. rewrite Hreg, Hw.
  unfold Py.truthy. rewrite (proj2 (String.eqb_neq _ _) Hne). done.
Qed.

Lemma foldl_delete_lookup {V} (names : list (string * V)) (d : gmap string V) k :
  foldl (λ d kv, delete kv.1 d) d names !! k =
  if decide (k ∈ names.*1) then None else d !! k.
Proof.
  revert d. induction names as [|[k' x] names IH]; intros d.
  - done.
  - cbn [foldl]. rewrite IH, fmap_cons. simpl.
    destruct (decide (k' = k)) as [->|Hne].
    + rewrite lookup_delete_eq. repeat case_decide; try done; set_solver.
    + rewrite lookup_delete_ne by done. repeat case_decide; try done; set_solver.
Qed.

(** The block that takes the volume out of the registry. *)
Lemma remove_from_registry_inr v reg reg' lv :
  logicalVolumeDict reg !! v = Some lv →
  remove_from_registry v reg = (inr tt, reg') →
  logicalVolumeDict reg' = delete v (logicalVolumeDict reg) ∧
  (∀ k, physicalVolumeDict reg' !! k =
        pv ← physicalVolumeDict reg !! k;
        if decide (places_volume v pv) then None else Some pv) ∧
  (∀ s, solid lv = Some s → solidDict reg' !! s = None).
Proof.
  intros Hlv. unfold remove_from_registry. rewrite Hlv.
  destruct (select _ _) as [e|names] eqn:Hsel; [done|].
  apply select_inr in Hsel as [Hall ->]. intros [= <-]. split_and!.
  - simpl. by destruct (solid lv); [case_bool_decide|].
  - intros k.
    match goal with
    | |- physicalVolumeDict ?R !! _ = _ =>
        assert (physicalVolumeDict R =
                foldl (λ d kv, delete kv.1 d) (physicalVolumeDict reg)
                  (filter (λ x : string * PhysicalVolume, places v x.2 = inr true)
                     (map_to_list (physicalVolumeDict reg)))) as ->
          by (by destruct (solid lv); [case_bool_decide|])
    end.
    rewrite foldl_delete_lookup.
    destruct (physicalVolumeDict reg !! k) as [pv|] eqn:Hk; simpl.
    + repeat case_decide; try done.
      * exfalso. apply list_elem_of_fmap in H as ([k' pv'] & -> & Hin).
        apply list_elem_of_filter in Hin as [Hp Hin].
        apply elem_of_map_to_list in Hin. simpl in *.
        apply places_true in Hp. congruence.
      * exfalso. apply H. apply list_elem_of_fmap. exists (k, pv). split; [done|].
        apply list_elem_of_filter. split; [by apply places_true|].
        by apply elem_of_map_to_list.
    + by case_decide.
  - intros s Hs. rewrite Hs. simpl. case_bool_decide as Hin; simpl.
    + apply lookup_delete_eq.
    + by apply eq_None_not_Some.
Qed.






End DeleteVolumeClaims.

(** * Further properties *)

(** ** The tree as a whole *)

Section TreeShape.
Import Hierarchy Spec Spec2.

Variables (reg : Registry) (cbm : gmap string (gset string)).

Local Abbreviation go := (add_lv_by_name reg cbm).

Lemma for_each_loop_rel (P : string → string → walk → walk → Prop)
    (body : string → walk → option walk) p l :
  (∀ c s s', body c s = Some s' → P c p s s') →
  ∀ w w', for_each body l w = Some w' → loop_rel P p l w w'.
Proof.
  intros Hbody. induction l as [|c l IH]; intros w w'.
  - intros [= <-]. constructor.
  - rewrite for_each_cons. destruct (body c w) as [w1|] eqn:Hc; [|done].
    simpl. intros Hrest. econstructor; eauto.
Qed.

(** Induction along the calls of [add_lv_by_name] that return. *)
Lemma add_lv_by_name_rel (P : string → string → walk → walk → Prop) :
  (∀ name parent w, name ∈ visited w → P name parent w w) →
  (∀ name parent w w',
     name ∉ visited w →
     loop_rel P name (sorted_children cbm name)
       {| visited := visited w ∪ {[name]};
          rows := rows w ++ [mkRow parent name (mat_name_of reg name)] |} w' →
     P name parent w w') →
  ∀ fuel name parent w w', go fuel name parent w = Some w' → P name parent w w'.
Proof.
  intros Hskip Hvisit. induction fuel as [|fuel IH]; intros name parent w w';
    [done|].
  simpl. case_bool_decide as Hv.
  - intros [= <-]. by apply Hskip.
  - intros Hloop. apply Hvisit; [done|].
    eapply for_each_loop_rel; [|exact Hloop]. intros c s s'. apply IH.
Qed.

Lemma reach_trans root p n : reach cbm root p → reach cbm p n → reach cbm root n.
Proof. intros Hp. induction 1; [done|]. by econstructor. Qed.

(** Every emitted name is reachable from the name of the call. *)
Lemma add_lv_sound fuel name parent w w' :
  go fuel name parent w = Some w' →
  ∃ new, rows w' = rows w ++ new ∧
         ∀ r, r ∈ new → reach cbm name (row_iid r).
Proof.
  revert fuel name parent w w'.
  apply (add_lv_by_name_rel (λ name parent w w',
    ∃ new, rows w' = rows w ++ new ∧ ∀ r, r ∈ new → reach cbm name (row_iid r))).
  - intros name parent w _. exists []. split; [by rewrite app_nil_r|].
    by intros r ?%elem_of_nil.
  - intros name parent w w' _ Hloop.
    assert (∀ l w1 w2,
      loop_rel (λ name parent w w',
        ∃ new, rows w' = rows w ++ new ∧
               ∀ r, r ∈ new → reach cbm name (row_iid r)) name l w1 w2 →
      (∀ c, c ∈ l → c ∈ sorted_children cbm name) →
      ∃ new, rows w2 = rows w1 ++ new ∧
             ∀ r, r ∈ new → reach cbm name (row_iid r)) as Hl.
    { induction 1 as [w0|c l w0 w1 w2 (new1 & R1 & H1) _ IH]; intros Hin.
      - exists []. split; [by rewrite app_nil_r|]. by intros r ?%elem_of_nil.
      - destruct IH as (new2 & R2 & H2); [set_solver|].
        exists (new1 ++ new2). split; [by rewrite R2, R1, app_assoc|].
        intros r [Hr|Hr]%elem_of_app; [|by apply H2].
        eapply reach_trans; [|by apply H1].
        econstructor; [constructor|]. apply Hin. set_solver. }
    destruct (Hl _ _ _ Hloop) as (new & R & H); [done|].
    exists (mkRow parent name (mat_name_of reg name) :: new). split.
    + rewrite R. simpl. by rewrite <- app_assoc.
    + intros r [->|Hr]%elem_of_cons; [constructor|by apply H].
Qed.

Lemma well_parented_mono seen seen' l :
  (∀ x, x ∈ seen → x ∈ seen') → well_parented seen l → well_parented seen' l.
Proof.
  revert seen seen'. induction l as [|r l IH]; intros seen seen' Hsub; [done|].
  simpl. intros [Hp Hl]. split; [by apply Hsub|].
  eapply IH; [|exact Hl]. intros x [->|Hx]%elem_of_cons; [left|right; auto].
Qed.

Lemma well_parented_app seen l1 l2 :
  well_parented seen l1 → well_parented seen l2 → well_parented seen (l1 ++ l2).
Proof.
  revert seen. induction l1 as [|r l1 IH]; intros seen; [done|].
  simpl. intros [Hp H1] H2. split; [done|]. apply IH; [done|].
  eapply well_parented_mono; [|exact H2]. intros x Hx. by right.
Qed.

(** Every row of a call hangs under the parent of the call or under a
    row of the call that comes before it. *)
Lemma add_lv_well_parented fuel name parent w w' :
  go fuel name parent w = Some w' →
  ∃ new, rows w' = rows w ++ new ∧ well_parented [parent] new.
Proof.
  revert fuel name parent w w'.
  apply (add_lv_by_name_rel (λ name parent w w',
    ∃ new, rows w' = rows w ++ new ∧ well_parented [parent] new)).
  - intros name parent w _. exists []. split; [by rewrite app_nil_r|done].
  - intros name parent w w' _ Hloop.
    assert (∀ l w1 w2,
      loop_rel (λ name parent w w',
        ∃ new, rows w' = rows w ++ new ∧ well_parented [parent] new)
        name l w1 w2 →
      ∃ new, rows w2 = rows w1 ++ new ∧ well_parented [name] new) as Hl.
    { induction 1 as [w0|c l w0 w1 w2 (new1 & R1 & H1) _ (new2 & R2 & H2)].
      - exists []. split; [by rewrite app_nil_r|done].
      - exists (new1 ++ new2). split; [by rewrite R2, R1, app_assoc|].
        by apply well_parented_app. }
    destruct (Hl _ _ _ Hloop) as (new & R & H).
    exists (mkRow parent name (mat_name_of reg name) :: new). split.
    + rewrite R. simpl. by rewrite <- app_assoc.
    + simpl. split; [left|].
      eapply well_parented_mono; [|exact H]. intros x Hx. set_solver.
Qed.

End TreeShape.

Section TreeClaims.
Import Hierarchy Spec Spec2.

Lemma populate_volume_tree_run reg w :
  obj_name_of (worldVolume reg) = Some w → w ≠ "" →
  ∃ w', add_lv_by_name reg (children_by_mother reg)
          (enough_fuel (children_by_mother reg)) w "" (mkWalk ∅ []) = Some w' ∧
        populate_volume_tree (Some reg) = rows w' ∧
        call_post reg (children_by_mother reg) w "" (mkWalk ∅ []) w'.
Proof.
  intros Hw Hne.
  destruct (add_lv_total reg (children_by_mother reg) w "" (mkWalk ∅ []))
    as (w' & Hgo & Hpost).
  specialize (Hgo 0). rewrite Nat.add_0_r in Hgo.
  exists w'. split_and!; [done| |done].
  unfold populate_volume_tree. rewrite Hw. unfold Py.truthy.
  apply String.eqb_neq in Hne. rewrite Hne. cbn [negb default]. cbv zeta.
  unfold id. by rewrite Hgo.
Qed.

Lemma populate_volume_tree_reach reg w :
  obj_name_of (worldVolume reg) = Some w → w ≠ "" →
  ∀ n, n ∈ row_iid <$> populate_volume_tree (Some reg) ↔
       reach (children_by_mother reg) w n.
Proof.
  intros Hw Hne n.
  destruct (populate_volume_tree_run reg w Hw Hne)
    as (w' & Hgo & -> & new & [R V N F C] & Hin & _).
  simpl in R, V. rewrite R. split.
  - intros Hn. apply list_elem_of_fmap in Hn as (r & -> & Hr).
    destruct (add_lv_sound _ _ _ _ _ _ _ Hgo) as (new' & R' & Hreach).
    simpl in R'. rewrite R in R'. subst new'. by apply Hreach.
  - assert (∀ x, x ∈ visited w' → x ∈ row_iid <$> new) as Hvis.
    { intros x. rewrite V. set_solver. }
    induction 1 as [|p c _ IH Hc]; [by apply Hvis|].
    apply Hvis. apply list_elem_of_fmap in IH as (r & -> & Hr). by eapply C.
Qed.

(** X1.  The tree shows exactly the names that can be reached from the
    world along the merged child map: every such name has a row, and
    every row is such a name. *)
Theorem tree_shows_reachable_names reg w :
  obj_name_of (worldVolume reg) = Some w → w ≠ "" →
  ∀ n, n ∈ row_iid <$> populate_volume_tree (Some reg) ↔
       reach (children_by_mother reg) w n.
Proof. apply populate_volume_tree_reach. Qed.

Lemma tree_shows_reachable_names_witness :
  obj_name_of (worldVolume Examples.w_a_b) = Some "W" ∧
  ("B" ∈ row_iid <$> populate_volume_tree (Some Examples.w_a_b) ↔
   reach (children_by_mother Examples.w_a_b) "W" "B").
Proof.
  split; [reflexivity|].
  apply (tree_shows_reachable_names Examples.w_a_b "W"); [reflexivity|discriminate].
Defined.

(** X2.  Every row of the tree is inserted under an item that exists at
    that moment: the first row is the world at the top level, and every
    later row hangs under an earlier row, of which it is a child in the
    merged child map.  (Together with the distinct names this is what
    makes every [insert] of the widget legal.) *)
Theorem tree_rows_hang_under_earlier_rows registry :
  well_parented [""] (populate_volume_tree registry) ∧
  (populate_volume_tree registry = [] ∨
   ∃ reg w rest,
     registry = Some reg ∧ obj_name_of (worldVolume reg) = Some w ∧
     populate_volume_tree registry =
       mkRow "" w (mat_name_of reg w) :: rest ∧
     Forall (edge_ok (children_by_mother reg)) rest).
Proof.
  destruct registry as [reg|]; [|by split; [|left]].
  destruct (obj_name_of (worldVolume reg)) as [w|] eqn:Hw;
    [|unfold populate_volume_tree; rewrite Hw; by split; [|left]].
  destruct (decide (w = "")) as [->|Hne];
    [unfold populate_volume_tree; rewrite Hw; by split; [|left]|].
  destruct (populate_volume_tree_run reg w Hw Hne)
    as (w' & Hgo & -> & new & [R V N F C] & Hin & Hcase).
  simpl in R. split.
  - destruct (add_lv_well_parented _ _ _ _ _ _ _ Hgo) as (new' & -> & Hwp).
    done.
  - right. destruct Hcase as [[Hv _]|(_ & rest & -> & Hrest)]; [set_solver|].
    exists reg, w, rest. by rewrite R.
Qed.

End TreeClaims.

(** ** Filter mode *)

Section FilterFacts.
Import Hierarchy.

Lemma prefix_spec (p s : string) :
  String.prefix p s = true ↔ ∃ post, s = (p ++ post)%string.
Proof.
  revert s. induction p as [|a p IH]; intros [|b s]; simpl.
  - split; [intros _; by exists ""%string|done].
  - split; [intros _; by exists (String b s)|done].
  - split; [done|by intros [? ?]].
  - destruct (ascii_dec a b) as [->|Hne].
    + rewrite IH. split; intros [post H]; exists post.
      * by rewrite H.
      * by injection H.
    + split; [done|]. intros [post [= ? _]]. done.
Qed.

(** [sub in s] holds exactly when [s] is some text, then [sub], then some
    text. *)
Lemma contains_spec (sub s : string) :
  PyStr.contains sub s = true ↔ ∃ pre post, s = (pre ++ sub ++ post)%string.
Proof.
  induction s as [|a s IH]; cbn [PyStr.contains].
  - destruct (String.prefix sub "") eqn:Hp.
    + split; [intros _|done]. apply prefix_spec in Hp as [post ->].
      by exists ""%string, post.
    + split; [done|]. intros ([|b pre] & post & H).
      * apply not_true_iff_false in Hp. exfalso. apply Hp, prefix_spec. eauto.
      * done.
  - destruct (String.prefix sub (String a s)) eqn:Hp.
    + split; [intros _|done]. apply prefix_spec in Hp as [post ->].
      by exists ""%string, post.
    + rewrite IH. split.
      * intros (pre & post & ->). by exists (String a pre), post.
      * intros ([|b pre] & post & H).
        -- apply not_true_iff_false in Hp. exfalso. apply Hp, prefix_spec. eauto.
        -- injection H as _ ->. eauto.
Qed.

Lemma StronglySorted_filter {A} (R : relation A) (P : A → Prop)
    `{∀ x, Decision (P x)} (l : list A) :
  StronglySorted R l → StronglySorted R (filter P l).
Proof.
  induction 1 as [|x l Hl IH Hx]; [constructor|].
  rewrite filter_cons. case_decide; [|done].
  constructor; [done|]. apply Forall_forall. intros y Hy.
  apply list_elem_of_filter in Hy as [_ Hy].
  by eapply Forall_forall in Hx.
Qed.

Lemma StronglySorted_map {A B} (f : A → B) (R1 : relation A) (R2 : relation B)
    (l : list A) :
  (∀ x y, R1 x y → R2 (f x) (f y)) →
  StronglySorted R1 l → StronglySorted R2 (f <$> l).
Proof.
  intros Hf. induction 1 as [|x l Hl IH Hx]; [constructor|].
  rewrite fmap_cons. constructor; [done|].
  apply Forall_fmap. eapply Forall_impl; [exact Hx|]. intros y. apply Hf.
Qed.

(** The two display modes agree on the material column. *)
Lemma material_column_lookup reg n lv :
  logicalVolumeDict reg !! n = Some lv →
  Browse.material_column reg lv = mat_name_of reg n.
Proof. intros H. unfold Browse.material_column, mat_name_of. by rewrite H. Qed.

(** X3.  With a registry loaded: a blank search text brings the tree back,
    whatever rows were shown; any other text shows, at the top level and
    once each, exactly the volumes of [logicalVolumeDict] whose
    lower-cased name contains the stripped, lower-cased text, in the
    order of their names, with the material the tree shows for them. *)
Theorem filter_volumes_lists_matching_names app reg search_var tree :
  GDMLEditorApp.registry app = Some reg →
  Browse.ref_truthy (GDMLEditorApp.world_lv app) = true →
  let text := Py.lower (Py.strip search_var) in
  let shown := Browse.filter_volumes app search_var tree in
  (text = "" → shown = populate_volume_tree (Some reg)) ∧
  (text ≠ "" →
   Forall (λ r, row_parent r = "" ∧
                row_material r = mat_name_of reg (row_iid r)) shown ∧
   StronglySorted (Py.key_le id) (row_iid <$> shown) ∧
   NoDup (row_iid <$> shown) ∧
   ∀ n, n ∈ row_iid <$> shown ↔
        is_Some (logicalVolumeDict reg !! n) ∧
        ∃ pre post, Py.lower n = (pre ++ text ++ post)%string).
Proof.
  intros Hreg Hw text shown. subst shown. unfold Browse.filter_volumes.
  rewrite Hreg, Hw. cbn [negb]. fold text. split.
  - intros ->. done.
  - intros Hne. apply String.eqb_neq in Hne. rewrite Hne.
    set (items := Py.sorted fst (map_to_list (logicalVolumeDict reg))).
    set (kept := filter _ items).
    assert (∀ kv, kv ∈ kept ↔
              logicalVolumeDict reg !! kv.1 = Some kv.2 ∧
              PyStr.contains text (Py.lower kv.1) = true) as Hkept.
    { intros [k lv]. unfold kept, items.
      rewrite list_elem_of_filter, elem_of_sorted, elem_of_map_to_list. simpl. tauto. }
    assert (row_iid <$> ((λ kv : string * LogicalVolume,
               mkRow "" kv.1 (Browse.material_column reg kv.2)) <$> kept)
            = kept.*1) as Hiids.
    { rewrite <- list_fmap_compose. by apply list_fmap_ext. }
    rewrite Hiids. split_and!.
    + apply Forall_forall. intros r Hr.
      apply list_elem_of_fmap in Hr as ([k lv] & -> & Hin). simpl.
      split; [done|]. apply material_column_lookup. by apply Hkept in Hin as [? _].
    + apply (StronglySorted_map fst (Py.key_le fst)); [done|].
      apply StronglySorted_filter, sorted_sorted.
    + eapply sublist_NoDup; [|apply fmap_sublist, sublist_filter].
      unfold items. rewrite sorted_perm. apply NoDup_fst_map_to_list.
    + intros n. rewrite list_elem_of_fmap. split.
      * intros ([k lv] & -> & Hin). apply Hkept in Hin as [Hk Hc]. simpl in *.
        split; [by eexists|]. by apply contains_spec.
      * intros [[lv Hlv] Hc]. exists (n, lv). split; [done|].
        apply Hkept. split; [done|]. by apply contains_spec.
Qed.

Lemma filter_volumes_lists_matching_names_witness :
  let app := GDMLEditorApp.mk (Some Examples.nested) (Some (LVObj (Some "W")))
               Catalog.db None in
  Browse.filter_volumes app "  " [] = populate_volume_tree (Some Examples.nested) ∧
  Browse.filter_volumes app " a " [mkRow "" "stale" "x"] =
    [mkRow "" "A" "G4_AIR"].
Proof.
  intros app.
  destruct (filter_volumes_lists_matching_names app Examples.nested "  " [])
    as [Hblank _]; [reflexivity|reflexivity|].
  split; [apply Hblank; reflexivity|]. vm_compute. reflexivity.
Defined.

End FilterFacts.

(** ** More on deleting a volume *)

Section DeleteVolumeMore.
Import Hierarchy Spec Spec2 GDMLEditorApp.

Implicit Types (v k n : string) (pv : PhysicalVolume) (lv : LogicalVolume)
  (reg : Registry).

Lemma child_name_inl pv e : child_name pv = inl e → e = AttributeError "name".
Proof.
  unfold child_name. destruct (logicalVolume pv) as [[[n|]|s]|]; congruence.
Qed.

Lemma select_places_inl v (l : list PhysicalVolume) pv e :
  pv ∈ l → child_name pv = inl e →
  select (places v) l = inl (AttributeError "name").
Proof.
  intros Hin Hc. induction l as [|x l IH]; [by apply elem_of_nil in Hin|].
  simpl. unfold places at 1.
  destruct (child_name x) as [e'|c] eqn:Hx.
  - by rewrite (child_name_inl _ _ Hx).
  - apply elem_of_cons in Hin as [->|Hin]; [congruence|].
    by rewrite (IH Hin).
Qed.

Lemma select_places_error v (l : list PhysicalVolume) e :
  select (places v) l = inl e → e = AttributeError "name".
Proof.
  induction l as [|x l IH]; simpl; [done|]. unfold places at 1.
  destruct (child_name x) as [e'|c] eqn:Hx.
  - intros [= <-]. by eapply child_name_inl.
  - destruct (select (places v) l); [|done]. intros [= <-]. by apply IH.
Qed.

Lemma find_placements_inl v (items : list (string * LogicalVolume)) k lv pv e :
  (k, lv) ∈ items → pv ∈ daughterVolumes lv → child_name pv = inl e →
  find_placements v items = inl (AttributeError "name").
Proof.
  intros Hin Hpv Hc. induction items as [|[k' lv'] items IH];
    [by apply elem_of_nil in Hin|].
  simpl. destruct (select (places v) (daughterVolumes lv')) as [e'|ps] eqn:Hsel.
  - by rewrite (select_places_error _ _ _ Hsel).
  - apply elem_of_cons in Hin as [[= <- <-]|Hin].
    + by rewrite (select_places_inl v _ pv e) in Hsel.
    + by rewrite (IH Hin).
Qed.

(** X4.  When some volume of the registry has a daughter placement whose
    volume is missing, is a bare string or has no name, [delete_volume]
    of any volume but the world reports a failure and the application,
    registry included, is exactly as before. *)
Theorem delete_volume_fails_without_change app reg v w k lv pv e :
  registry app = Some reg →
  world_lv app = Some (LVObj (Some w)) → v ≠ w →
  logicalVolumeDict reg !! k = Some lv → pv ∈ daughterVolumes lv →
  child_name pv = inl e →
  delete_volume (Some v) true app = (Failed (AttributeError "name"), app).
Proof.
  intros Hreg Hw Hne Hk Hpv Hc. unfold delete_volume.
  rewrite Hreg, Hw. simpl. apply String.eqb_neq in Hne. rewrite Hne.
  unfold delete_volume_body.
  rewrite (find_placements_inl v _ k lv pv e); [|by apply elem_of_map_to_list|done..].
  destruct app; simpl in *. by subst.
Qed.

End DeleteVolumeMore.

Section DeleteVolumeFrame.
Import Hierarchy Spec Spec2 GDMLEditorApp.

Implicit Types (v k n : string) (pv : PhysicalVolume) (lv : LogicalVolume)
  (reg : Registry).

Lemma delete_volume_fails_without_change_witness :
  delete_volume (Some "A") true (Examples2.app_of Examples2.stringly) =
  (Failed (AttributeError "name"), Examples2.app_of Examples2.stringly).
Proof.
  apply (delete_volume_fails_without_change _ Examples2.stringly "A" "W" "W"
           (Examples.volume "W"
              [Examples.place 1 "A_pv" (LVObj (Some "W")) (LVStr "A")])
           (Examples.place 1 "A_pv" (LVObj (Some "W")) (LVStr "A"))
           (AttributeError "name")).
  - reflexivity.
  - reflexivity.
  - discriminate.
  - reflexivity.
  - left.
  - reflexivity.
Defined.

Lemma untouched_refl gone reg : untouched gone reg reg.
Proof. by repeat split. Qed.

Lemma untouched_trans gone reg1 reg2 reg3 :
  untouched gone reg1 reg2 → untouched gone reg2 reg3 → untouched gone reg1 reg3.
Proof.
  intros (A1 & B1 & C1 & D1 & E1 & F1 & G1) (A2 & B2 & C2 & D2 & E2 & F2 & G2).
  repeat split; try congruence; eauto.
Qed.

Lemma remove_placement_untouched gone k pv reg r reg' :
  remove_placement k pv reg = (r, reg') → untouched gone reg reg'.
Proof.
  unfold remove_placement, bind.
  destruct (remove_daughter k pv reg) as [[e|[]] reg1] eqn:Hd.
  - intros [= <- <-]. unfold remove_daughter in Hd.
    destruct (logicalVolumeDict reg !! k) as [parent|]; [|done].
    destruct (remove_first _ _); [done|]. injection Hd as _ <-.
    apply untouched_refl.
  - intros Hu. apply untouched_trans with reg1.
    + unfold remove_daughter in Hd.
      destruct (logicalVolumeDict reg !! k) as [parent|] eqn:Hk;
        [|injection Hd as <-; apply untouched_refl].
      destruct (remove_first _ _); [|done]. injection Hd as <-.
      repeat split; simpl; try done.
      * intros k0. destruct (decide (k = k0)) as [<-|?];
          [by rewrite Hk|by rewrite lookup_insert_ne].
      * intros k0 _. destruct (decide (k = k0)) as [<-|?];
          [by rewrite lookup_insert_eq|by rewrite lookup_insert_ne].
    + unfold unregister_placement in Hu.
      destruct (pv_name pv); [case_bool_decide|]; injection Hu as <- <-;
        by repeat split.
Qed.

Lemma remove_placements_untouched gone (r : list (string * PhysicalVolume)) reg
    res reg' :
  for_in r (λ p, remove_placement p.1 p.2) reg = (res, reg') →
  untouched gone reg reg'.
Proof.
  revert reg. induction r as [|[k pv] r IH]; intros reg.
  - cbv. intros [= <- <-]. apply untouched_refl.
  - cbn [for_in]. unfold bind at 1. cbn [fst snd].
    destruct (remove_placement k pv reg) as [[e|[]] reg1] eqn:Hs.
    + intros [= <- <-]. by eapply remove_placement_untouched.
    + intros Hrest. eapply untouched_trans;
        [by eapply remove_placement_untouched|by eapply IH].
Qed.

Lemma delete_key_untouched v reg reg1 :
  materialDict reg1 = materialDict reg → defineDict reg1 = defineDict reg →
  heap reg1 = heap reg → worldVolume reg1 = worldVolume reg →
  next_loc reg1 = next_loc reg →
  logicalVolumeDict reg1 = logicalVolumeDict reg →
  untouched (Some v) reg (set_logicalVolumeDict (delete v) reg1).
Proof.
  intros A B C D E F. repeat split; simpl; try done.
  - intros k. rewrite F. destruct (decide (v = k)) as [<-|?].
    + rewrite lookup_delete_eq. by intros [? ?].
    + by rewrite lookup_delete_ne.
  - intros k Hk. rewrite F, lookup_delete_ne; [done|congruence].
Qed.

Lemma remove_from_registry_untouched v reg res reg' :
  remove_from_registry v reg = (res, reg') → untouched (Some v) reg reg'.
Proof.
  unfold remove_from_registry.
  destruct (logicalVolumeDict reg !! v) as [lv|] eqn:Hv;
    [|intros [= <- <-]; apply untouched_refl].
  destruct (select _ _); [intros [= <- <-]; apply untouched_refl|].
  intros [= <- <-].
  destruct (solid lv); [case_bool_decide|]; by apply delete_key_untouched.
Qed.

Lemma delete_volume_body_untouched v reg res reg' :
  delete_volume_body v reg = (res, reg') → untouched (Some v) reg reg'.
Proof.
  unfold delete_volume_body.
  destruct (find_placements _ _) as [e|r]; [intros [= <- <-]; apply untouched_refl|].
  unfold bind.
  destruct (for_in r _ reg) as [[e|[]] reg1] eqn:Hloop.
  - intros [= <- <-]. by eapply remove_placements_untouched.
  - intros Hrm. eapply untouched_trans;
      [by eapply remove_placements_untouched|by eapply remove_from_registry_untouched].
Qed.

(** X5.  Whatever is selected and however [delete_volume] ends, it
    leaves the materials, the definitions, the material objects, the
    registry's world pointer, the user catalog and the cache of NIST
    names as they were; it creates no logical volume and removes none
    but the selected one, and the volume named by the application's
    world stays in [logicalVolumeDict].  The application's reference to
    the world is as before unless the volume was deleted; then it has
    been read again from the registry: it is the volume registered under
    the world's name, else the world object (and it is as before when
    the registry's world has no name). *)
Theorem delete_volume_keeps_world_and_materials selected confirmed app reg :
  registry app = Some reg →
  let r := delete_volume selected confirmed app in
  ∃ reg',
    registry r.2 = Some reg' ∧
    materialDict reg' = materialDict reg ∧ defineDict reg' = defineDict reg ∧
    heap reg' = heap reg ∧ worldVolume reg' = worldVolume reg ∧
    user_material_db r.2 = user_material_db app ∧
    _cached_nist_materials r.2 = _cached_nist_materials app ∧
    (∀ k, is_Some (logicalVolumeDict reg' !! k) →
          is_Some (logicalVolumeDict reg !! k)) ∧
    (∀ k, selected ≠ Some k → is_Some (logicalVolumeDict reg !! k) →
          is_Some (logicalVolumeDict reg' !! k)) ∧
    (∀ w, world_lv app = Some (LVObj (Some w)) →
          is_Some (logicalVolumeDict reg !! w) →
          is_Some (logicalVolumeDict reg' !! w)) ∧
    (r.1 ≠ Deleted → world_lv r.2 = world_lv app) ∧
    (r.1 = Deleted →
     ∀ w, Hierarchy.obj_name_of (worldVolume reg) = Some w → w ≠ "" →
          world_lv r.2 =
          match logicalVolumeDict reg' !! w with
          | Some lv => Some (LVObj (Some (lv_name lv)))
          | None => worldVolume reg
          end) ∧
    (Py.truthy (Hierarchy.obj_name_of (worldVolume reg)) = false →
     world_lv r.2 = world_lv app).
Proof.
  intros Hreg. cbv zeta. unfold delete_volume. rewrite Hreg.
  destruct selected as [v|]; [|exists reg; by split_and!].
  destruct confirmed; cbn [negb]; [|exists reg; by split_and!].
  destruct (world_lv app) as [[[w|]|s]|] eqn:Hw; try (exists reg; by split_and!).
  destruct (String.eqb v w) eqn:Hvw; [exists reg; by split_and!|].
  destruct (delete_volume_body v reg) as [res reg'] eqn:Hbody.
  apply delete_volume_body_untouched in Hbody as (A & B & C & D & E & F & H).
  exists reg'. destruct res as [e|[]]; cbn [fst snd].
  - split_and!; try done.
    + intros k Hk. apply H. congruence.
    + intros w' [= <-]. apply H. intros [= ->].
      by rewrite String.eqb_refl in Hvw.
  - rewrite registry_refresh.
    destruct (refresh_frame (mk (Some reg') (Some (LVObj (Some w)))
                (user_material_db app) (_cached_nist_materials app)))
      as [-> ->].
    split_and!; try done.
    + intros k Hk. apply H. congruence.
    + intros w' [= <-]. apply H. intros [= ->].
      by rewrite String.eqb_refl in Hvw.
    + intros _ w0 Hw0 Hne.
      rewrite (refresh_world_lv _ reg' w0); [by rewrite D|done|by rewrite D|done].
    + intros Hnone. unfold refresh_volume_tree. cbn [registry].
      by rewrite D, Hnone.
Qed.

Lemma delete_volume_keeps_world_and_materials_witness :
  ∃ reg',
    registry (delete_volume (Some "A") true
                (Examples2.app_of Examples.nested)).2 = Some reg' ∧
    materialDict reg' = materialDict Examples.nested ∧
    heap reg' = heap Examples.nested ∧
    is_Some (logicalVolumeDict reg' !! "W") ∧
    is_Some (logicalVolumeDict reg' !! "B").
Proof.
  destruct (delete_volume_keeps_world_and_materials (Some "A") true
              (Examples2.app_of Examples.nested) Examples.nested eq_refl)
    as (reg' & Hreg & Hm & _ & Hh & _ & _ & _ & _ & Hk & Hw & _).
  exists reg'. split_and!; [done..| |].
  - apply (Hw "W"); [reflexivity|by eexists].
  - apply (Hk "B"); [discriminate|by eexists].
Defined.

End DeleteVolumeFrame.

Section DeleteVolumeTree.
Import Hierarchy Spec Spec2 GDMLEditorApp.

Implicit Types (v k n : string) (pv : PhysicalVolume) (lv : LogicalVolume)
  (reg : Registry).

Lemma remove_from_registry_named v reg reg' lv :
  logicalVolumeDict reg !! v = Some lv →
  remove_from_registry v reg = (inr tt, reg') →
  ∀ k pv, physicalVolumeDict reg' !! k = Some pv →
          ∃ c, child_name pv = inr c ∧ c ≠ v.
Proof.
  intros Hlv Hrm k pv Hk.
  destruct (remove_from_registry_inr v reg reg' lv Hlv Hrm) as (_ & Hp & _).
  rewrite Hp in Hk.
  destruct (physicalVolumeDict reg !! k) as [pv0|] eqn:Hk0; [|done].
  simpl in Hk. case_decide as Hnp; [done|]. injection Hk as ->.
  unfold remove_from_registry in Hrm. rewrite Hlv in Hrm.
  destruct (select _ _) as [e|names] eqn:Hsel; [done|].
  apply select_inr in Hsel as [Hall _].
  eapply Forall_forall in Hall; [|apply elem_of_map_to_list; exact Hk0].
  destruct Hall as [b Hb]. apply places_inr in Hb as [c Hc].
  exists c. split; [done|]. intros ->. by apply Hnp.
Qed.

(** After a deletion that ran to its end, no daughter list and no entry
    of [physicalVolumeDict] places [v] any more. *)
Lemma delete_volume_body_clean v reg reg' :
  is_Some (logicalVolumeDict reg !! v) →
  delete_volume_body v reg = (inr tt, reg') →
  logicalVolumeDict reg' !! v = None ∧
  (∀ k lv pv, logicalVolumeDict reg' !! k = Some lv →
              pv ∈ daughterVolumes lv → ¬ places_volume v pv) ∧
  (∀ k pv, physicalVolumeDict reg' !! k = Some pv →
           ∃ c, child_name pv = inr c ∧ c ≠ v).
Proof.
  intros [lv0 Hv]. unfold delete_volume_body.
  destruct (find_placements _ _) as [e|r] eqn:Hfind; [done|].
  apply find_placements_inr in Hfind as [Hall Hr].
  intros H. apply bind_inr in H as ([] & reg1 & Hloop & Hrm).
  apply remove_placements_inr in Hloop as (Hl1 & Hp1 & Hs1).
  assert (∀ k0, logicalVolumeDict reg1 !! k0 =
            (λ lv, with_daughters lv
               (filter (λ pv, ¬ places_volume v pv) (daughterVolumes lv)))
            <$> logicalVolumeDict reg !! k0) as Hl1'.
  { intros k0. rewrite Hl1.
    destruct (logicalVolumeDict reg !! k0) as [lv|] eqn:Hk0; simpl; [|done].
    rewrite Hr, (collected_for_present v k0 lv);
      [|apply NoDup_fst_map_to_list|by apply elem_of_map_to_list].
    by rewrite remove_all_filter. }
  pose proof (Hl1' v) as Hv1. rewrite Hv in Hv1. simpl in Hv1.
  destruct (remove_from_registry_inr _ _ _ _ Hv1 Hrm) as (Hl2 & _ & _).
  split_and!.
  - rewrite Hl2. apply lookup_delete_eq.
  - intros k lv pv Hk Hpv. rewrite Hl2 in Hk.
    destruct (decide (v = k)) as [<-|Hne]; [by rewrite lookup_delete_eq in Hk|].
    rewrite lookup_delete_ne, Hl1' in Hk by done.
    destruct (logicalVolumeDict reg !! k) as [lv1|]; [|done].
    injection Hk as <-. simpl in Hpv.
    by apply list_elem_of_filter in Hpv as [? _].
  - by eapply remove_from_registry_named.
Qed.

Lemma reach_inv cbm root n :
  reach cbm root n → n = root ∨ ∃ p, n ∈ sorted_children cbm p.
Proof. destruct 1; eauto. Qed.

(** X6.  When [delete_volume] has deleted a volume [v] of the registry
    that is not the registry's world, the tree drawn afterwards has no row
    for [v]. *)
Theorem deleted_volume_leaves_the_tree app reg v app' :
  registry app = Some reg →
  is_Some (logicalVolumeDict reg !! v) →
  obj_name_of (worldVolume reg) ≠ Some v →
  delete_volume (Some v) true app = (Deleted, app') →
  v ∉ row_iid <$> populate_volume_tree (registry app').
Proof.
  intros Hreg Hv Hworld. unfold delete_volume. rewrite Hreg. simpl.
  destruct (world_lv app) as [[[w0|]|]|]; try done.
  destruct (String.eqb v w0); [done|].
  destruct (delete_volume_body v reg) as [[e|[]] reg'] eqn:Hbody; [done|].
  intros [= Happ]. subst app'. rewrite registry_refresh. cbn [registry].
  pose proof (delete_volume_body_untouched _ _ _ _ Hbody) as (_ & _ & _ & Hwv & _).
  destruct (delete_volume_body_clean v reg reg' Hv Hbody) as (Hgone & Hd & Hp).
  destruct (obj_name_of (worldVolume reg')) as [w|] eqn:Hw;
    [|unfold populate_volume_tree; rewrite Hw; apply not_elem_of_nil].
  destruct (decide (w = "")) as [->|Hne];
    [unfold populate_volume_tree; rewrite Hw; apply not_elem_of_nil|].
  rewrite (populate_volume_tree_reach reg' w Hw Hne).
  intros [->|[p Hc]]%reach_inv; [congruence|].
  unfold sorted_children in Hc. rewrite elem_of_sorted, elem_of_elements in Hc.
  assert (v ∈ children_by_mother reg' !!! p) as Hin.
  { rewrite lookup_total_alt. done. }
  apply elem_of_children_by_mother in Hin
    as [(k & pv & Hk & _ & Hchild & _)|(lv & pv & Hk & Hpv & Hchild & _)].
  - destruct (Hp k pv Hk) as (c & Hc' & Hcv). unfold child_name in Hc'.
    destruct (logicalVolume pv) as [[[n|]|s]|]; simpl in *; congruence.
  - apply (Hd p lv pv Hk Hpv). unfold places_volume, child_name.
    destruct (logicalVolume pv) as [[[n|]|s]|]; simpl in *; congruence.
Qed.

Lemma deleted_volume_leaves_the_tree_witness :
  (delete_volume (Some "A") true (Examples2.app_of Examples.nested)).1 = Deleted ∧
  ("A" ∉ row_iid <$> populate_volume_tree
           (registry (delete_volume (Some "A") true
                        (Examples2.app_of Examples.nested)).2)).
Proof.
  split; [vm_compute; reflexivity|].
  apply (deleted_volume_leaves_the_tree (Examples2.app_of Examples.nested)
           Examples.nested "A").
  - reflexivity.
  - by eexists.
  - discriminate.
  - vm_compute. reflexivity.
Defined.

End DeleteVolumeTree.

(** ** More on the lists of available materials *)

Section ListingMore.
Import Spec GDMLEditorApp.

(** X7.  With a registry loaded, the application's list of available
    materials is sorted on the lower-cased names, has no name twice, and
    holds exactly the names of the registry's materials, of the NIST list
    (the cached one, else the fetched one, else none) and of the user
    catalog; making the list changes neither the registry nor the
    catalog, and fills the cache. *)
Theorem app_listing_is_sorted_union `{G : Geant4} app reg :
  registry app = Some reg →
  let listed := _get_all_available_materials app in
  StronglySorted (Py.key_le Py.lower) listed.1 ∧
  NoDup listed.1 ∧
  (∀ n, n ∈ listed.1 ↔
        is_Some (materialDict reg !! n) ∨ n ∈ nist_names app ∨
        is_Some (UserMaterialDatabase.materials (user_material_db app) !! n)) ∧
  registry listed.2 = registry app ∧
  user_material_db listed.2 = user_material_db app ∧
  _cached_nist_materials listed.2 = Some (nist_names app).
Proof. apply app_listing_spec. Qed.

Lemma app_listing_is_sorted_union_witness :
  let listed := _get_all_available_materials (G := Toy.G4) Catalog.app_copper in
  listed.1 = ["copper"; "G4_AIR"; "G4_Galactic"; "G4_WATER"] ∧
  StronglySorted (Py.key_le Py.lower) listed.1 ∧
  registry listed.2 = Some Catalog.copper_only.
Proof.
  destruct (app_listing_is_sorted_union (G := Toy.G4) Catalog.app_copper
              Catalog.copper_only eq_refl) as (Hs & _ & _ & Hr & _).
  split_and!; [vm_compute; reflexivity|exact Hs|exact Hr].
Defined.

(** X8.  A fetch of the NIST list that fails is remembered as an empty
    list: after a first listing with an empty cache and a failing fetch,
    every later listing, whatever the library answers by then, holds the
    registry's and the catalog's names only. *)
Theorem failed_nist_fetch_is_remembered (G1 G2 : Geant4) app reg e :
  registry app = Some reg →
  _cached_nist_materials app = None →
  getNistMaterialList (Geant4 := G1) = inl e →
  let app1 := (_get_all_available_materials (G := G1) app).2 in
  _cached_nist_materials app1 = Some [] ∧
  ∀ n, n ∈ (_get_all_available_materials (G := G2) app1).1 ↔
       is_Some (materialDict reg !! n) ∨
       is_Some (UserMaterialDatabase.materials (user_material_db app) !! n).
Proof.
  intros Hreg Hc Hfetch app1.
  destruct (app_listing_spec (G := G1) app reg Hreg) as (_ & _ & _ & Hr1 & Hd1 & Hc1).
  fold app1 in Hr1, Hd1, Hc1.
  assert (nist_names (G := G1) app = []) as Hnil
    by (unfold nist_names; by rewrite Hc, Hfetch).
  rewrite Hnil in Hc1. split; [done|].
  intros n. rewrite Hreg in Hr1.
  destruct (app_listing_spec (G := G2) app1 reg Hr1) as (_ & _ & Hmem & _).
  rewrite Hmem, Hd1. unfold nist_names. rewrite Hc1.
  split; [intros [?|[?%elem_of_nil|?]]|intros [?|?]]; tauto.
Qed.

Lemma failed_nist_fetch_is_remembered_witness :
  let app1 := (_get_all_available_materials (G := Examples2.offline)
                 Catalog.app_copper).2 in
  _cached_nist_materials app1 = Some [] ∧
  (_get_all_available_materials (G := Toy.G4) app1).1 = ["copper"].
Proof.
  destruct (failed_nist_fetch_is_remembered Examples2.offline Toy.G4
              Catalog.app_copper Catalog.copper_only
              (LibraryError "no NIST data") eq_refl eq_refl eq_refl)
    as [Hc _].
  split; [exact Hc|]. vm_compute. reflexivity.
Defined.

Lemma elem_of_foldl_append_new (xs l : list string) x :
  x ∈ foldl InsertVolumeDialog.append_new l xs ↔ x ∈ l ∨ x ∈ xs.
Proof.
  revert l. induction xs as [|y xs IH]; intros l; simpl; [set_solver|].
  rewrite IH. unfold InsertVolumeDialog.append_new.
  case_bool_decide; set_solver.
Qed.

Lemma NoDup_foldl_append_new (xs l : list string) :
  NoDup l → NoDup (foldl InsertVolumeDialog.append_new l xs).
Proof.
  revert l. induction xs as [|y xs IH]; intros l Hl; simpl; [done|].
  apply IH. unfold InsertVolumeDialog.append_new. case_bool_decide; [done|].
  apply NoDup_app. split_and!; [done| |apply NoDup_singleton].
  intros x Hx ->%list_elem_of_singleton. done.
Qed.

Lemma elem_of_keys {V} (m : gmap string V) n :
  n ∈ (map_to_list m).*1 ↔ is_Some (m !! n).
Proof.
  rewrite list_elem_of_fmap. split.
  - intros ([k d] & -> & Hin). apply elem_of_map_to_list in Hin. by eexists.
  - intros [d Hd]. exists (n, d). split; [done|]. by apply elem_of_map_to_list.
Qed.

Lemma dialog_listing_spec `{G : Geant4} reg file :
  let listed := InsertVolumeDialog._get_all_available_materials reg file in
  StronglySorted (Py.key_le id) listed ∧
  NoDup listed ∧
  (∀ n, n ∈ listed ↔
        is_Some (materialDict reg !! n) ∨ n ∈ Spec2.dialog_nist_names ∨
        ∃ user_mats, file = Some user_mats ∧ is_Some (user_mats !! n)).
Proof.
  unfold InsertVolumeDialog._get_all_available_materials, Spec2.dialog_nist_names.
  cbv zeta. split_and!.
  - apply sorted_sorted.
  - apply sorted_NoDup.
    destruct file; destruct getNistMaterialList;
      repeat apply NoDup_foldl_append_new; apply NoDup_fst_map_to_list.
  - intros n. rewrite elem_of_sorted.
    destruct file as [m|]; destruct getNistMaterialList;
      rewrite ?elem_of_foldl_append_new, !elem_of_keys.
    all: split; [intros H|intros H].
    all: try (destruct H as [[?|?]|?]; eauto 6; fail).
    all: try (destruct H as [?|?]; eauto 6; fail).
    all: try (destruct H as [?|[?|(m' & [= <-] & ?)]]; eauto 6; fail).
    all: try (destruct H as [?|[?|(m' & [=] & ?)]]; eauto 6; fail).
Qed.

(** X9.  The insert dialog's list of available materials is sorted by
    code point, has no name twice, and holds exactly the names of the
    registry's materials, of the NIST list (ten fixed names when it
    cannot be fetched) and of the catalog file (none when there is no
    file). *)
Theorem dialog_listing_is_code_point_sorted_union `{G : Geant4} reg file :
  let listed := InsertVolumeDialog._get_all_available_materials reg file in
  StronglySorted (Py.key_le id) listed ∧
  NoDup listed ∧
  (∀ n, n ∈ listed ↔
        is_Some (materialDict reg !! n) ∨ n ∈ Spec2.dialog_nist_names ∨
        ∃ user_mats, file = Some user_mats ∧ is_Some (user_mats !! n)).
Proof. apply dialog_listing_spec. Qed.

(** X10.  When the NIST list can be fetched and the catalog file holds
    what the in-memory catalog holds, the insert dialog and the
    application offer the same materials: the two lists are permutations
    of each other (they differ in order only). *)
Theorem dialog_and_app_offer_the_same_materials `{G : Geant4} app reg nist :
  registry app = Some reg →
  UserMaterialDatabase.file (user_material_db app) =
    Some (UserMaterialDatabase.materials (user_material_db app)) →
  getNistMaterialList = inr nist →
  _cached_nist_materials app = None ∨ _cached_nist_materials app = Some nist →
  InsertVolumeDialog._get_all_available_materials reg
    (UserMaterialDatabase.file (user_material_db app))
  ≡ₚ (_get_all_available_materials app).1.
Proof.
  intros Hreg Hfile Hnist Hcache.
  destruct (dialog_listing_spec reg
              (UserMaterialDatabase.file (user_material_db app)))
    as (_ & Hnd & Hmem).
  destruct (app_listing_spec app reg Hreg) as (_ & Hnd' & Hmem' & _).
  apply NoDup_Permutation; [done..|].
  intros n. rewrite Hmem, Hmem'.
  assert (Spec2.dialog_nist_names = nist_names app) as ->.
  { unfold Spec2.dialog_nist_names, nist_names. rewrite Hnist.
    by destruct Hcache as [->| ->]. }
  rewrite Hfile. split.
  - intros [?|[?|(m & [= <-] & ?)]]; auto.
  - intros [?|[?|?]]; eauto 6.
Qed.

Lemma dialog_and_app_offer_the_same_materials_witness :
  InsertVolumeDialog._get_all_available_materials (G := Toy.G4)
    Catalog.registry_with_water
    (UserMaterialDatabase.file (user_material_db Examples2.app_in_sync))
  ≡ₚ (_get_all_available_materials (G := Toy.G4) Examples2.app_in_sync).1.
Proof.
  apply (dialog_and_app_offer_the_same_materials (G := Toy.G4)
           Examples2.app_in_sync Catalog.registry_with_water Toy.nist_materials).
  - reflexivity.
  - vm_compute. reflexivity.
  - reflexivity.
  - left. reflexivity.
Defined.

End ListingMore.

(** ** The user catalog and its file *)

Section DatabaseFacts.
Import UserMaterialDatabase.

Lemma add_material_run name d db :
  add_material name d db =
  if writable db
  then (inr tt, mk (<[name := d]> (materials db))
                   (Some (<[name := d]> (materials db))) (writable db))
  else (inl (OSError "cannot write user_materials.json"),
        mk (<[name := d]> (materials db)) (file db) (writable db)).
Proof.
  unfold add_material, set_materials, save, bind, modify. simpl.
  by destruct (writable db).
Qed.

Lemma remove_material_run name db :
  remove_material name db =
  if bool_decide (is_Some (materials db !! name))
  then if writable db
       then (inr true, mk (delete name (materials db))
                          (Some (delete name (materials db))) (writable db))
       else (inl (OSError "cannot write user_materials.json"),
             mk (delete name (materials db)) (file db) (writable db))
  else (inr false, db).
Proof.
  unfold remove_material, set_materials, save, bind, gets, modify, ret. simpl.
  case_bool_decide; [|done]. simpl. by destruct (writable db).
Qed.

(** X11.  After [add_material name d] the catalog answers [d] for [name]
    and what it answered before for every other name, whether or not the
    file could be written: when it could, the call returns and the file
    holds the new dictionary; when it could not, the call raises, the
    file is as before, and the record stays in memory all the same. *)
Theorem add_material_then_get name d db :
  let r := add_material name d db in
  get_material r.2 name = Some d ∧
  (∀ n, n ≠ name → get_material r.2 n = get_material db n) ∧
  (writable db = true → r.1 = inr tt ∧ file r.2 = Some (materials r.2)) ∧
  (writable db = false →
     (∃ e, r.1 = inl e) ∧ file r.2 = file db).
Proof.
  cbv zeta. rewrite add_material_run. unfold get_material.
  destruct (writable db); simpl; split_and!; try done.
  all: try apply lookup_insert_eq.
  all: try (intros n Hn; by apply lookup_insert_ne).
  intros _. eauto.
Qed.

(** X12.  What a new session finds.  A record added while the file can be
    written is found, with the other records, by a catalog opened on the
    file afterwards; a record added while the file cannot be written is
    lost: the new catalog holds what the old file held (nothing when
    there was no file). *)
Theorem catalog_reopened_after_add name d db w :
  let db' := (add_material name d db).2 in
  let reopened := UserMaterialDatabaseFile.init (file db') w in
  (writable db = true →
     UserMaterialDatabaseFile.get_all_materials reopened =
       <[name := d]> (materials db)) ∧
  (writable db = false →
     UserMaterialDatabaseFile.get_all_materials reopened =
       default ∅ (file db)) ∧
  UserMaterialDatabaseFile.load reopened = reopened.
Proof.
  cbv zeta. rewrite add_material_run.
  unfold UserMaterialDatabaseFile.init, UserMaterialDatabaseFile.load,
    UserMaterialDatabaseFile.get_all_materials.
  destruct (writable db); simpl; done.
Qed.

(** X13.  [remove_material] answers whether the name was in the catalog.
    For an absent name it answers [False] and changes nothing, file
    included, even when the file cannot be written.  For a present name
    the entry leaves the dictionary, the other entries stay, and the
    file is rewritten; when the file cannot be written the call raises
    after the entry has left the dictionary. *)
Theorem remove_material_answers_presence name db :
  let r := remove_material name db in
  (materials db !! name = None → r = (inr false, db)) ∧
  (is_Some (materials db !! name) →
     materials r.2 !! name = None ∧
     (∀ n, n ≠ name → materials r.2 !! n = materials db !! n) ∧
     (writable db = true → r.1 = inr true ∧ file r.2 = Some (materials r.2)) ∧
     (writable db = false → (∃ e, r.1 = inl e) ∧ file r.2 = file db)).
Proof.
  cbv zeta. rewrite remove_material_run. split.
  - intros Hn. rewrite bool_decide_eq_false_2; [done|].
    rewrite Hn. by intros [? ?].
  - intros Hin. rewrite bool_decide_eq_true_2 by done.
    destruct (writable db); simpl; split_and!; try done.
    all: try apply lookup_delete_eq.
    all: try (intros n Hn; by apply lookup_delete_ne).
    intros _. eauto.
Qed.

(** X14.  [list_materials] gives the catalog's names in code-point
    order, each once, and nothing else. *)
Theorem list_materials_sorted_keys db :
  StronglySorted (Py.key_le id) (list_materials db) ∧
  NoDup (list_materials db) ∧
  (∀ n, n ∈ list_materials db ↔ is_Some (get_material db n)) ∧
  length (list_materials db) = size (materials db).
Proof.
  unfold list_materials, get_material. split_and!.
  - apply sorted_sorted.
  - apply sorted_NoDup, NoDup_fst_map_to_list.
  - intros n. by rewrite elem_of_sorted, elem_of_keys.
  - rewrite sorted_perm, length_fmap. by rewrite length_map_to_list.
Qed.

End DatabaseFacts.

(** ** What the definition dialog lets into the catalog *)

Section AuthoredRecords.
Import Spec Spec2 MaterialDefinitionDialog.

Lemma read_entries_ok py_float entries comps0 t0 comps total :
  read_entries py_float entries comps0 t0 = inr (comps, total) →
  Forall component_ok comps0 → Forall component_ok comps.
Proof.
  revert comps0 t0. induction entries as [|[e f] entries IH]; intros comps0 t0;
    simpl.
  - by intros [= <- <-].
  - destruct (_ && _); [apply IH|].
    destruct (String.eqb (Py.strip e) "") eqn:He; [done|].
    destruct (String.eqb (Py.strip f) "") eqn:Hf; [done|]. simpl.
    destruct (py_float _) as [fr|]; [|done].
    destruct (fr <=? 0)%float eqn:Hlo; [done|].
    destruct (1 <? fr)%float eqn:Hhi; [done|]. simpl.
    intros Hread Hok. apply (IH _ _ Hread).
    apply Forall_app. split; [done|]. constructor; [|constructor].
    split_and!; [|done..]. simpl. by apply String.eqb_neq.
Qed.

Lemma read_composition_ok py_float f c :
  read_composition py_float f = inr c →
  match c with
  | Formula formula => material_type f = "compound" ∧ formula ≠ ""
  | Components components =>
      material_type f ≠ "compound" ∧ components ≠ [] ∧
      Forall component_ok components ∧
      (0.001 <? abs (fraction_sum 0 components - 1.0))%float = false
  end.
Proof.
  unfold read_composition.
  destruct (String.eqb (material_type f) "compound") eqn:Ht.
  - destruct (String.eqb (Py.strip (formula_var f)) "") eqn:Hf; [done|].
    intros [= <-]. split; [by apply String.eqb_eq|by apply String.eqb_neq].
  - destruct (read_entries _ _ _ _) as [|[comps total]] eqn:Hread; [done|].
    pose proof (read_entries_ok _ _ _ _ _ _ Hread (Forall_nil_2 _)) as Hok.
    apply read_entries_sum in Hread as (new & Hnew & ->). simpl in Hnew.
    subst new. destruct comps as [|c0 comps]; [done|].
    destruct (0.001 <? _)%float eqn:Htol; [done|].
    intros [= <-]. split_and!; [by apply String.eqb_neq|done..].
Qed.



End AuthoredRecords.

(** ** More on making materials from records *)

Section ResolutionMore.
Import Spec Spec2 GDMLEditorApp.

(** X16.  A record that lacks [density], [density_unit], [type] or
    [composition] makes both constructions raise [KeyError] for the first
    of these keys that is missing, before the library is called: the
    registry is unchanged.  The application's resolver lets the exception
    out; the insert dialog reports it and stops. *)
Theorem incomplete_records_raise_key_error `{G : Geant4} name d reg key :
  first_missing d = Some key →
  create_user_material_in_registry name d reg = (inl (KeyError key), reg) ∧
  (∀ user_mats,
     user_mats !! name = Some d → materialDict reg !! name = None →
     Py.startswith "G4_" name = false →
     InsertVolumeDialog.get_or_create_material name (Some user_mats) reg =
     (inl ("Failed to create material: '" ++ key ++ "'")%string, reg)).
Proof.
  intros Hkey. split.
  - destruct d as [[t|] [ρ|] [u|] [c|] s [temp|] tu [p|] pu];
      cbv in Hkey; try discriminate; injection Hkey as <-;
      try reflexivity.
    all: unfold create_user_material_in_registry, bind, getitem, ret, raise,
           Units._convert_temperature_to_kelvin,
           Units._convert_pressure_to_pascal;
         cbn [md_type md_density md_density_unit md_composition md_state
              md_temperature md_temp_unit md_pressure md_pressure_unit has_key];
         by destruct (String.eqb t "compound").
  - intros user_mats Hd Hreg Hpre.
    unfold InsertVolumeDialog.get_or_create_material,
      InsertVolumeDialog.create_from_file.
    rewrite Hreg, Hpre. unfold bind at 1. unfold ret at 1. rewrite Hd.
    destruct d as [[t|] [ρ|] [u|] [c|] s temp tu p pu];
      cbv in Hkey; try discriminate; injection Hkey as <-; reflexivity.
Qed.

Lemma incomplete_records_raise_key_error_witness :
  create_user_material_in_registry (G := Toy.G4) "Wet" Examples2.no_unit
    Examples.w_a_b = (inl (KeyError "density_unit"), Examples.w_a_b).
Proof.
  apply (incomplete_records_raise_key_error (G := Toy.G4) "Wet"
           Examples2.no_unit Examples.w_a_b "density_unit").
  reflexivity.
Defined.

(** X17.  A compound record is handed to the library with its density
    converted to g/cm3 and its state ([solid] when the record has none);
    when the library returns the material, the record's temperature and
    pressure are then assigned to that object, converted to kelvin and to
    pascal, and nothing else is changed: the other objects and every
    other part of the registry (materials, definitions, volumes,
    placements, solids, world pointer) are as the library left them. *)
Theorem compound_gets_converted_attributes `{G : Geant4}
    name d reg density unit formula mat reg1 :
  md_type d = Some "compound" → md_density d = Some density →
  md_density_unit d = Some unit → md_composition d = Some formula →
  MaterialCompound name (Units._convert_density_to_g_cm3 density unit) formula
    (Some (default "solid" (md_state d))) reg = (inr mat, reg1) →
  ∃ reg2,
    create_user_material_in_registry name d reg = (inr mat, reg2) ∧
    materialDict reg2 = materialDict reg1 ∧
    defineDict reg2 = defineDict reg1 ∧
    logicalVolumeDict reg2 = logicalVolumeDict reg1 ∧
    physicalVolumeDict reg2 = physicalVolumeDict reg1 ∧
    solidDict reg2 = solidDict reg1 ∧
    worldVolume reg2 = worldVolume reg1 ∧
    next_loc reg2 = next_loc reg1 ∧
    (∀ l, l ≠ mat → heap reg2 !! l = heap reg1 !! l) ∧
    heap reg2 !! mat = with_attributes d <$> heap reg1 !! mat.
Proof.
  intros Ht Hd Hu Hc Hnew.
  destruct d as [t ρ u c s temp tu p pu]. simpl in Ht, Hd, Hu, Hc. subst.
  unfold create_user_material_in_registry, with_attributes,
    Units._convert_temperature_to_kelvin, Units._convert_pressure_to_pascal,
    set_temperature, set_pressure, modify.
  unfold bind, getitem. unfold ret, raise.
  cbn [md_type md_density md_density_unit md_composition md_state
       md_temperature md_temp_unit md_pressure md_pressure_unit] in *.
  rewrite String.eqb_refl.
  destruct temp as [temp|], p as [p|]; cbn [has_key]; rewrite Hnew;
    eexists; (split; [reflexivity|]); cbn [materialDict defineDict
      logicalVolumeDict physicalVolumeDict solidDict worldVolume next_loc
      heap set_heap];
    (split_and!; [done..| |]).
  all: try (intros l Hl; by rewrite ?lookup_alter_ne by done).
  all: rewrite ?lookup_alter_eq; by destruct (heap reg1 !! mat) as [[]|].
Qed.

Lemma compound_gets_converted_attributes_witness :
  ∃ reg2,
    create_user_material_in_registry (G := Toy.G4) "Steam" Examples2.steam
      Examples.empty_registry = (inr 0, reg2) ∧
    heap reg2 !! 0 =
      Some (mkPyObject (Some "Steam") "Steam" 0.0006%float (Some "gas")
              (Some 373.15%float) (Some 200000.0%float) []).
Proof.
  destruct (compound_gets_converted_attributes (G := Toy.G4) "Steam"
              Examples2.steam Examples.empty_registry 0.6%float "kg/m3"
              (Formula "H2O") 0
              (Toy.new_material "Steam" 0.0006%float (Some "gas")
                 Examples.empty_registry).2
              eq_refl eq_refl eq_refl eq_refl)
    as (reg2 & Hrun & _ & _ & _ & _ & _ & _ & _ & _ & Hobj);
    [vm_compute; reflexivity|].
  exists reg2. split; [exact Hrun|].
  etrans; [exact Hobj|]. vm_compute. reflexivity.
Defined.

End ResolutionMore.

(** ** Retrying, and names that look like NIST names *)

Section ResolutionRetry.
Import Spec Spec2 GDMLEditorApp.

Lemma ensure_registers_app `{GR : Geant4Registers} name app m app' :
  _ensure_material_in_registry name app = (inr m, app') →
  ∃ reg', registry app' = Some reg' ∧ materialDict reg' !! name = Some m.
Proof.
  destruct app as [[reg|] w db cache]; [|done].
  unfold _ensure_material_in_registry, on_registry; simpl.
  destruct (ensure_in db name reg) as [[e|l] reg1] eqn:He; [done|].
  intros [= <- <-]. exists reg1. split; [done|]. by eapply ensure_in_registers.
Qed.

Lemma ensure_hit `{G : Geant4} name app reg m :
  registry app = Some reg → materialDict reg !! name = Some m →
  _ensure_material_in_registry name app = (inr m, app).
Proof.
  destruct app as [r w db cache]. simpl. intros -> Hm.
  unfold _ensure_material_in_registry, on_registry, ensure_in; simpl.
  by rewrite Hm.
Qed.

Lemma create_mixture_failure_keeps `{GR : Geant4Registers}
    name d reg density unit type c mat reg1 e reg2 :
  md_density d = Some density → md_density_unit d = Some unit →
  md_type d = Some type → String.eqb type "compound" = false →
  md_composition d = Some c →
  Material name (Units._convert_density_to_g_cm3 density unit)
    (composition_len c) (Some (default "solid" (md_state d))) reg
    = (inr mat, reg1) →
  create_user_material_in_registry name d reg = (inl e, reg2) →
  materialDict reg2 !! name = Some mat.
Proof.
  intros Hd Hu Ht Hty Hc Hnew.
  destruct d as [t ρ u c' s temp tu p pu]. simpl in Hd, Hu, Ht, Hc. subst.
  unfold create_user_material_in_registry,
    Units._convert_temperature_to_kelvin, Units._convert_pressure_to_pascal,
    set_temperature, set_pressure, modify.
  unfold bind, getitem. unfold ret, raise.
  cbn [md_type md_density md_density_unit md_composition md_state
       md_temperature md_temp_unit md_pressure md_pressure_unit] in *.
  rewrite Hty.
  assert (∀ reg3 r, for_components c (λ comp s,
            let (s0, s') := _get_or_create_element (element comp) s in
            match s0 with
            | inl e => (inl e, s')
            | inr a => add_element_massfraction mat a (fraction comp) s'
            end) reg1 = (r, reg3) → materialDict reg3 !! name = Some mat)
    as Hloop.
  { intros reg3 r Hrun.
    eapply keeps_for_components; [|exact Hrun|by eapply Material_registers].
    intros comp. apply (keeps_bind (_get_or_create_element (element comp))
      (λ el, add_element_massfraction mat el (fraction comp)));
      [apply keeps_get_or_create_element|].
    intros el. apply add_element_massfraction_keeps. }
  destruct temp as [temp|], p as [p|]; cbn [has_key]; rewrite Hnew;
    destruct (for_components c _ reg1) as [[e'|[]] reg3] eqn:Hrun;
    try discriminate; intros [= <- <-]; by eapply Hloop.
Qed.

(** X18.  A mixture that failed half way is found on retry.  When the
    library has made the material of a catalog mixture and the resolver
    then raises (which can only happen while the components are added),
    the material stays registered under its name, with the components
    added so far; asking for the same name again returns that object and
    changes nothing, so that the second attempt succeeds without the
    missing components. *)
Theorem failed_mixture_is_returned_on_retry `{GR : Geant4Registers}
    name app reg d density unit type c mat reg1 e app1 :
  registry app = Some reg → materialDict reg !! name = None →
  Py.startswith "G4_" name = false →
  UserMaterialDatabase.get_material (user_material_db app) name = Some d →
  md_density d = Some density → md_density_unit d = Some unit →
  md_type d = Some type → type ≠ "compound" → md_composition d = Some c →
  Material name (Units._convert_density_to_g_cm3 density unit)
    (composition_len c) (Some (default "solid" (md_state d))) reg
    = (inr mat, reg1) →
  _ensure_material_in_registry name app = (inl e, app1) →
  _ensure_material_in_registry name app1 = (inr mat, app1).
Proof.
  intros Hreg Hno Hpre Hrec Hd Hu Ht Hty Hc Hnew.
  destruct app as [r w db cache]. simpl in Hreg, Hrec. subst r.
  unfold _ensure_material_in_registry at 1. unfold on_registry, ensure_in.
  cbn [registry user_material_db world_lv _cached_nist_materials].
  rewrite Hno, Hpre, Hrec.
  assert (md_truthy d = true) as -> by (unfold md_truthy; by rewrite Ht).
  destruct (create_user_material_in_registry name d reg) as [r reg2] eqn:Hrun.
  intros [= -> <-].
  apply ensure_hit with reg2; [done|].
  eapply create_mixture_failure_keeps; eauto.
  by apply String.eqb_neq.
Qed.

Lemma failed_mixture_is_returned_on_retry_witness :
  let resolve := _ensure_material_in_registry (G := Toy.G4) "Alloy" in
  (resolve Catalog.app).1 =
    inl (ValueError "Unknown element 'Xx': unknown NIST element Xx") ∧
  resolve (resolve Catalog.app).2 = (inr 1, (resolve Catalog.app).2).
Proof.
  intros resolve.
  assert (resolve Catalog.app =
          (inl (ValueError "Unknown element 'Xx': unknown NIST element Xx"),
           (resolve Catalog.app).2)) as Hfail by (vm_compute; reflexivity).
  split; [by rewrite Hfail|].
  eapply (failed_mixture_is_returned_on_retry (GR := toy_registers) "Alloy"
            Catalog.app Examples.w_a_b Catalog.alloy 7.87%float "g/cm3"
            "mixture" _ 1 _ _ _ eq_refl);
    [vm_compute; reflexivity|reflexivity|vm_compute; reflexivity|reflexivity|
     reflexivity|reflexivity|discriminate|reflexivity|vm_compute; reflexivity|
     exact Hfail].
Defined.

(** X19.  A name that starts with [G4_] and is not yet in the registry
    is resolved by the library alone: the user catalog is not consulted,
    neither by the application's resolver nor by the insert dialog, so
    the result and the registry are the same whatever the catalog holds;
    a catalog record stored under such a name is never used. *)
Theorem names_with_G4_prefix_bypass_the_catalog `{G : Geant4}
    name reg w cache db1 db2 file1 file2 :
  Py.startswith "G4_" name = true →
  (_ensure_material_in_registry name (mk (Some reg) w db1 cache)).1 =
  (_ensure_material_in_registry name (mk (Some reg) w db2 cache)).1 ∧
  registry (_ensure_material_in_registry name (mk (Some reg) w db1 cache)).2 =
  registry (_ensure_material_in_registry name (mk (Some reg) w db2 cache)).2 ∧
  InsertVolumeDialog.get_or_create_material name file1 reg =
  InsertVolumeDialog.get_or_create_material name file2 reg.
Proof.
  intros Hpre.
  unfold _ensure_material_in_registry, on_registry, ensure_in,
    InsertVolumeDialog.get_or_create_material.
  cbn [registry user_material_db world_lv _cached_nist_materials].
  rewrite Hpre.
  destruct (materialDict reg !! name); [done|].
  by destruct (try_except _ _ reg).
Qed.

Lemma names_with_G4_prefix_bypass_the_catalog_witness :
  (_ensure_material_in_registry (G := Toy.G4) "G4_NOPE"
     (mk (Some Examples.w_a_b) None Examples2.db_with_G4 None)).1 =
  (_ensure_material_in_registry (G := Toy.G4) "G4_NOPE"
     (mk (Some Examples.w_a_b) None Catalog.db None)).1 ∧
  (_ensure_material_in_registry (G := Toy.G4) "G4_NOPE"
     (mk (Some Examples.w_a_b) None Examples2.db_with_G4 None)).1 =
  inl (LibraryError "unknown NIST material G4_NOPE").
Proof.
  destruct (names_with_G4_prefix_bypass_the_catalog (G := Toy.G4) "G4_NOPE"
              Examples.w_a_b None None Examples2.db_with_G4 Catalog.db
              None None eq_refl) as (H & _ & _).
  split; [exact H|]. vm_compute. reflexivity.
Defined.

End ResolutionRetry.

(** ** Changing the material of a volume *)

Section ApplyMaterial.
Import Spec Spec2 GDMLEditorApp VolumeMaterial.

Lemma apply_changed_inv `{G : Geant4} v var app tree old app' tree' :
  apply_selected_material (Some v) var app tree = (Changed old, app', tree') →
  ∃ reg lv old_ref mat app1 reg1,
    registry app = Some reg ∧ logicalVolumeDict reg !! v = Some lv ∧
    material lv = Some old_ref ∧ Py.strip var ≠ "" ∧
    _ensure_material_in_registry (Py.strip var) app = (inr mat, app1) ∧
    registry app1 = Some reg1 ∧
    old = material_text reg1 old_ref ∧
    app' = mk (Some (set_logicalVolumeDict
                       (alter (λ lv, with_material lv (MatObj mat)) v) reg1))
              (world_lv app1) (user_material_db app1)
              (_cached_nist_materials app1) ∧
    tree' = set_row_material v (Py.strip var) tree.
Proof.
  unfold apply_selected_material.
  destruct (registry app) as [reg|] eqn:Hreg; [|done].
  destruct (logicalVolumeDict reg !! v) as [lv|] eqn:Hlv; [|done].
  destruct (material lv) as [old_ref|] eqn:Hmat; [|done].
  destruct (String.eqb (Py.strip var) "") eqn:Hname; [done|].
  destruct (_ensure_material_in_registry _ app) as [[e|mat] app1] eqn:Hens;
    [done|].
  destruct (registry app1) as [reg1|] eqn:Hreg1; [|done].
  intros [= <- <- <-].
  exists reg, lv, old_ref, mat, app1, reg1.
  split_and!; try done. by apply String.eqb_neq.
Qed.

(** X20.  When [apply_selected_material] reports a change, the material
    box held a non-blank name, that name is registered in the resulting
    registry, and the selected volume (if the library left it in place)
    references the registered object itself; the row of the volume shows
    the name.  Applying the same name to a second volume afterwards
    constructs nothing: materials and objects stay as they are, the
    second volume references the same object, and no other volume is
    touched.  (For a library whose constructors register what they
    return.) *)
Theorem applied_material_is_the_registered_object `{GR : Geant4Registers}
    v var app tree old app' tree' :
  apply_selected_material (Some v) var app tree = (Changed old, app', tree') →
  let name := Py.strip var in
  name ≠ "" ∧ tree' = set_row_material v name tree ∧
  ∃ reg' mat,
    registry app' = Some reg' ∧ materialDict reg' !! name = Some mat ∧
    (∀ lv, logicalVolumeDict reg' !! v = Some lv →
           material lv = Some (MatObj mat)) ∧
    ∀ v2 lv2 tree2,
      logicalVolumeDict reg' !! v2 = Some lv2 → is_Some (material lv2) →
      ∃ old2 app'' reg'',
        apply_selected_material (Some v2) var app' tree2 =
          (Changed old2, app'', set_row_material v2 name tree2) ∧
        registry app'' = Some reg'' ∧
        materialDict reg'' = materialDict reg' ∧ heap reg'' = heap reg' ∧
        next_loc reg'' = next_loc reg' ∧
        (∃ lv, logicalVolumeDict reg'' !! v2 = Some lv ∧
               material lv = Some (MatObj mat)) ∧
        (∀ k, k ≠ v2 → logicalVolumeDict reg'' !! k = logicalVolumeDict reg' !! k).
Proof.
  intros H name.
  apply apply_changed_inv in H
    as (reg & lv & old_ref & mat & app1 & reg1 & Hreg & Hlv & Hmat & Hname &
        Hens & Hreg1 & -> & -> & ->).
  fold name in Hname, Hens |- *.
  destruct (ensure_registers_app _ _ _ _ Hens) as (reg1' & Hreg1' & Hm).
  rewrite Hreg1 in Hreg1'. injection Hreg1' as <-.
  split_and!; [done..|].
  eexists _, mat. split_and!; [done|exact Hm| |].
  - intros lv'. cbn [logicalVolumeDict set_logicalVolumeDict].
    rewrite lookup_alter_eq. destruct (logicalVolumeDict reg1 !! v); [|done].
    by intros [= <-].
  - intros v2 lv2 tree2 Hlv2 [old2 Hold2].
    unfold apply_selected_material. cbn [registry]. rewrite Hlv2, Hold2.
    fold name. rewrite (proj2 (String.eqb_neq _ _) Hname).
    erewrite ensure_hit; [|done|exact Hm].
    cbn [registry world_lv user_material_db _cached_nist_materials].
    eexists _, _, _. split; [reflexivity|].
    cbn [registry]. split; [reflexivity|].
    cbn [logicalVolumeDict set_logicalVolumeDict materialDict heap next_loc].
    split_and!; [done..| |].
    + rewrite lookup_alter_eq.
      cbn [logicalVolumeDict set_logicalVolumeDict] in Hlv2.
      rewrite Hlv2. by eexists.
    + intros k Hk. by rewrite lookup_alter_ne.
Qed.

Lemma applied_material_is_the_registered_object_witness :
  ∃ reg' mat,
    registry (apply_selected_material (G := Toy.G4) (Some "A") " Water "
                Catalog.app []).1.2 = Some reg' ∧
    materialDict reg' !! "Water" = Some mat ∧
    ∀ lv, logicalVolumeDict reg' !! "A" = Some lv →
          material lv = Some (MatObj mat).
Proof.
  destruct (applied_material_is_the_registered_object (GR := toy_registers)
              "A" " Water " Catalog.app [] "G4_AIR"
              (apply_selected_material (G := Toy.G4) (Some "A") " Water "
                 Catalog.app []).1.2 [])
    as (_ & _ & reg' & mat & Hreg & Hm & Hlv & _); [vm_compute; reflexivity|].
  exists reg', mat. split_and!; [exact Hreg|exact Hm|exact Hlv].
Defined.

(** X21.  The refusals of [apply_selected_material].  Without a
    selection it reports that; for an item that is no volume of the
    registry and for a volume without a material (an assembly) it
    reports that the material cannot be changed; for a blank material
    name it asks for one: in these three cases the application and the
    rows of the tree are exactly as before and the resolver is not
    called.  When the resolver raises, the failure is reported, the rows
    are as before and the application is what the resolver left.  So a
    volume is touched only when a change is reported: in every other
    outcome the rows are unchanged and the application is unchanged or
    is what a failed resolution left. *)
Theorem apply_material_changes_only_on_success `{G : Geant4}
    selection var app tree :
  let r := apply_selected_material selection var app tree in
  (selection = None → r = (NoSelection, app, tree)) ∧
  (∀ v reg, selection = Some v → registry app = Some reg →
     (∀ lv, logicalVolumeDict reg !! v = Some lv → material lv = None) →
     r = (CannotChange, app, tree)) ∧
  (∀ v reg lv, selection = Some v → registry app = Some reg →
     logicalVolumeDict reg !! v = Some lv → is_Some (material lv) →
     Py.strip var = "" →
     r = (NoMaterial, app, tree)) ∧
  (∀ v reg lv e app1, selection = Some v → registry app = Some reg →
     logicalVolumeDict reg !! v = Some lv → is_Some (material lv) →
     Py.strip var ≠ "" →
     _ensure_material_in_registry (Py.strip var) app = (inl e, app1) →
     r = (FailedToSet e, app1, tree)) ∧
  ((∀ old, r.1.1 ≠ Changed old) →
   r.2 = tree ∧
   (r.1.2 = app ∨
    ∃ e, r.1.1 = FailedToSet e ∧
         _ensure_material_in_registry (Py.strip var) app = (inl e, r.1.2)) ∧
   (∀ e, r.1.1 = FailedToSet e → Py.strip var ≠ "")).
Proof.
  cbv zeta. split_and!.
  - by intros ->.
  - intros v reg -> Hreg Hall. unfold apply_selected_material. rewrite Hreg.
    destruct (logicalVolumeDict reg !! v) as [lv|] eqn:Hlv; [|done].
    by rewrite (Hall lv eq_refl).
  - intros v reg lv -> Hreg Hlv [old Hold] Hblank.
    unfold apply_selected_material. by rewrite Hreg, Hlv, Hold, Hblank.
  - intros v reg lv e app1 -> Hreg Hlv [old Hold] Hname%String.eqb_neq Hens.
    unfold apply_selected_material. by rewrite Hreg, Hlv, Hold, Hname, Hens.
  - unfold apply_selected_material.
    destruct selection as [v|]; [|intros _; split_and!; auto; done].
    destruct (registry app) as [reg|] eqn:Hreg;
      [|intros _; split_and!; auto; done].
    destruct (logicalVolumeDict reg !! v) as [lv|] eqn:Hlv;
      [|intros _; split_and!; auto; done].
    destruct (material lv) as [old_ref|] eqn:Hmat;
      [|intros _; split_and!; auto; done].
    destruct (String.eqb (Py.strip var) "") eqn:Hname;
      [intros _; split_and!; auto; done|].
    apply String.eqb_neq in Hname.
    destruct (_ensure_material_in_registry _ app) as [[e|mat] app1] eqn:Hens.
    + intros _. cbn [fst snd]. split_and!; eauto.
    + destruct (registry app1) as [reg1|] eqn:Hreg1.
      * intros Hno. by destruct (Hno (material_text reg1 old_ref)).
      * exfalso. destruct app as [r w db cache]. simpl in Hreg. subst r.
        unfold _ensure_material_in_registry, on_registry in Hens.
        simpl in Hens.
        destruct (ensure_in db (Py.strip var) reg) as [[?|?] ?];
          [discriminate Hens|].
        injection Hens as <- <-. discriminate Hreg1.
Qed.

Lemma apply_material_changes_only_on_success_witness :
  apply_selected_material (G := Toy.G4) (Some "B") "Water" Catalog.app []
    = (CannotChange, Catalog.app, []) ∧
  apply_selected_material (G := Toy.G4) (Some "A") "  " Catalog.app []
    = (NoMaterial, Catalog.app, []) ∧
  (apply_selected_material (G := Toy.G4) (Some "A") "Nope" Catalog.app []).1.1
    = FailedToSet (ValueError "Unknown material 'Nope'").
Proof.
  split_and!.
  - eapply (apply_material_changes_only_on_success (G := Toy.G4) (Some "B")
              "Water" Catalog.app []); [reflexivity..|].
    intros lv [= <-]. reflexivity.
  - eapply (apply_material_changes_only_on_success (G := Toy.G4) (Some "A")
              "  " Catalog.app []); [reflexivity|reflexivity|reflexivity| |];
      [by eexists|vm_compute; reflexivity].
  - pose proof (apply_material_changes_only_on_success (G := Toy.G4) (Some "A")
                  "Nope" Catalog.app []) as (_ & _ & _ & H & _).
    erewrite H; [reflexivity|reflexivity|reflexivity|reflexivity|by eexists|
                 vm_compute; discriminate|vm_compute; reflexivity].
Defined.

End ApplyMaterial.

(** ** Deleting a material that is in use *)

Section DeleteMaterialMore.
Import Hierarchy Spec Spec2 GDMLEditorApp MaterialManagementDialog.

Lemma for_each_ext {A S} (f g : A → S → option S) l :
  (∀ a s, f a s = g a s) → ∀ s, for_each f l s = for_each g l s.
Proof.
  intros Hfg. induction l as [|a l IH]; intros s; [done|].
  rewrite !for_each_cons, Hfg. destruct (g a s); simpl; [apply IH|done].
Qed.

Lemma add_lv_by_name_ext reg1 reg2 cbm :
  (∀ n, mat_name_of reg1 n = mat_name_of reg2 n) →
  ∀ fuel name parent w,
    add_lv_by_name reg1 cbm fuel name parent w =
    add_lv_by_name reg2 cbm fuel name parent w.
Proof.
  intros Hm. induction fuel as [|fuel IH]; intros name parent w; [done|].
  simpl. case_bool_decide; [done|]. rewrite Hm.
  apply for_each_ext. intros c s. apply IH.
Qed.

(** The tree is made from the volumes, the placements, the objects and
    the world pointer only. *)
Lemma populate_volume_tree_ext reg1 reg2 :
  logicalVolumeDict reg1 = logicalVolumeDict reg2 →
  physicalVolumeDict reg1 = physicalVolumeDict reg2 →
  heap reg1 = heap reg2 → worldVolume reg1 = worldVolume reg2 →
  populate_volume_tree (Some reg1) = populate_volume_tree (Some reg2).
Proof.
  intros Hl Hp Hh Hw. unfold populate_volume_tree. rewrite Hw.
  assert (children_by_mother reg1 = children_by_mother reg2) as ->.
  { unfold children_by_mother, from_daughters, from_placements.
    by rewrite Hl, Hp. }
  erewrite add_lv_by_name_ext; [done|].
  intros n. unfold mat_name_of. by rewrite Hl, Hh.
Qed.

Lemma update_user_material_list_frame `{G : Geant4} app :
  registry (update_user_material_list app) = registry app ∧
  user_material_db (update_user_material_list app) = user_material_db app.
Proof.
  unfold update_user_material_list, _update_volume_material_dropdown,
    _get_all_available_materials.
  destruct (registry app) as [reg|] eqn:Hreg; cbn [fst snd registry
    user_material_db]; by rewrite ?Hreg.
Qed.

(** X22.  After the management dialog has deleted a user material, the
    tree is what it was, material column included: volumes that use the
    material still show it.  The name itself (unless it starts with
    [G4_]) is unknown from then on: the resolver raises
    [Unknown material] for it and leaves the application alone, so the
    material cannot be given to another volume. *)
Theorem deleted_material_stays_on_volumes_but_is_unknown `{G : Geant4}
    name app reg app' :
  registry app = Some reg → Py.startswith "G4_" name = false →
  delete_material (Some name) true app = (inr tt, app') →
  populate_volume_tree (registry app') = populate_volume_tree (Some reg) ∧
  _ensure_material_in_registry name app' =
    (inl (ValueError ("Unknown material '" ++ name ++ "'")%string), app').
Proof.
  intros Hreg Hpre. unfold delete_material.
  pose proof (remove_material_materials name (user_material_db app)) as Hdb.
  destruct (UserMaterialDatabase.remove_material name (user_material_db app))
    as [[e|b] db'] eqn:Hrm; [done|].
  simpl in Hdb. rewrite Hreg. intros [= Happ].
  match type of Happ with
  | update_user_material_list ?a = _ =>
      destruct (update_user_material_list_frame a) as [Hr Hd]
  end.
  rewrite Happ in Hr, Hd. clear Happ.
  destruct app' as [r w d c]. cbn [registry user_material_db] in Hr, Hd.
  subst r d. cbn [registry]. split.
  - case_bool_decide; [|done]. by apply populate_volume_tree_ext.
  - unfold _ensure_material_in_registry, on_registry, ensure_in.
    cbn [registry user_material_db world_lv _cached_nist_materials].
    assert (UserMaterialDatabase.get_material db' name = None) as Hgone.
    { unfold UserMaterialDatabase.get_material. rewrite Hdb.
      apply lookup_delete_eq. }
    case_bool_decide as Hin.
    + cbn [materialDict set_materialDict]. rewrite lookup_delete_eq.
      by rewrite Hpre, Hgone.
    + apply eq_None_not_Some in Hin. by rewrite Hin, Hpre, Hgone.
Qed.

Lemma deleted_material_stays_on_volumes_but_is_unknown_witness :
  let app' := (delete_material (G := Toy.G4) (Some "Water") true
                 Catalog.app_with_water).2 in
  mkRow "W" "A" "Water" ∈ populate_volume_tree (registry app') ∧
  (_ensure_material_in_registry (G := Toy.G4) "Water" app').1 =
    inl (ValueError "Unknown material 'Water'").
Proof.
  intros app'.
  destruct (deleted_material_stays_on_volumes_but_is_unknown (G := Toy.G4)
              "Water" Catalog.app_with_water Catalog.registry_with_water app'
              eq_refl eq_refl) as [Htree Hres]; [vm_compute; reflexivity|].
  split.
  - rewrite Htree.
    assert (populate_volume_tree (Some Catalog.registry_with_water) =
            [mkRow "" "W" "G4_AIR"; mkRow "W" "A" "Water";
             mkRow "A" "B" "(Assembly)"]) as -> by (vm_compute; reflexivity).
    apply list_elem_of_In. simpl. tauto.
  - by rewrite Hres.
Defined.

End DeleteMaterialMore.

(** ** Inserting a volume *)

Section InsertVolumeFacts.
Import Hierarchy Spec Spec2 InsertVolume.
Context `{G : Geant4}.
Variable build : loc → string → string → M Registry (string + PhysicalVolume).

(** X23.  [insert_volume] refuses a blank volume name, a name that is
    a volume of the registry already, and a blank material name before
    anything is looked up or made: the registry is unchanged, whatever
    the form holds otherwise.  A parent that is not a volume of the
    registry is noticed only after the material has been resolved: the
    call fails with [KeyError] and the registry is what the resolution
    left, a material made for the occasion included. *)
Theorem insert_volume_refusals name_var material_var parent_var file reg :
  let run := insert_volume build name_var material_var parent_var file reg in
  (Py.strip name_var = "" → run = (Refused "Volume name is required", reg)) ∧
  (Py.strip name_var ≠ "" →
   is_Some (logicalVolumeDict reg !! Py.strip name_var) →
   run = (Refused ("Volume '" ++ Py.strip name_var ++ "' already exists")%string,
          reg)) ∧
  (Py.strip name_var ≠ "" →
   logicalVolumeDict reg !! Py.strip name_var = None → material_var = "" →
   run = (Refused "Please select a material", reg)) ∧
  (∀ material reg1,
     Py.strip name_var ≠ "" →
     logicalVolumeDict reg !! Py.strip name_var = None → material_var ≠ "" →
     InsertVolumeDialog.get_or_create_material material_var file reg
       = (inr material, reg1) →
     logicalVolumeDict reg1 !! parent_var = None →
     run = (Failed (KeyError parent_var), reg1)).
Proof.
  cbv zeta. unfold insert_volume. split_and!.
  - by intros ->.
  - intros Hn%String.eqb_neq [lv Hlv]. by rewrite Hn, Hlv.
  - intros Hn%String.eqb_neq Hlv ->. by rewrite Hn, Hlv.
  - intros material reg1 Hn%String.eqb_neq Hlv Hm%String.eqb_neq Hres Hpar.
    by rewrite Hn, Hlv, Hm, Hres, Hpar.
Qed.

Lemma back_fill_child pv_name pv parent reg child :
  is_Some (logicalVolumeDict reg !! parent) →
  obj_name_of (logicalVolume pv) = Some child → child ≠ "" →
  child ∈ children_by_mother (back_fill pv_name pv parent reg) !!! parent.
Proof.
  intros [lv Hlv] Hchild Hne. apply elem_of_children_by_mother. right.
  unfold back_fill.
  cbn [logicalVolumeDict set_logicalVolumeDict].
  assert (∀ r, logicalVolumeDict
                 (if has_key (physicalVolumeDict reg !! pv_name) then reg
                  else set_physicalVolumeDict r reg) = logicalVolumeDict reg)
    as -> by (intros r; by destruct (has_key _)).
  rewrite lookup_alter_eq, Hlv. simpl.
  eexists _, pv. split; [done|]. split; [|done].
  case_bool_decide; [done|]. simpl. set_solver.
Qed.

Lemma back_fill_frame pv_name pv parent reg :
  let reg' := back_fill pv_name pv parent reg in
  materialDict reg' = materialDict reg ∧ defineDict reg' = defineDict reg ∧
  solidDict reg' = solidDict reg ∧ heap reg' = heap reg ∧
  worldVolume reg' = worldVolume reg ∧
  is_Some (physicalVolumeDict reg' !! pv_name) ∧
  (∀ k, k ≠ pv_name → physicalVolumeDict reg' !! k = physicalVolumeDict reg !! k) ∧
  (∀ k, k ≠ parent → logicalVolumeDict reg' !! k = logicalVolumeDict reg !! k).
Proof.
  cbv zeta. unfold back_fill.
  destruct (physicalVolumeDict reg !! pv_name) as [pv0|] eqn:Hpv; simpl;
    split_and!; try done.
  all: try (intros k Hk; by rewrite ?lookup_alter_ne, ?lookup_insert_ne by done).
  all: by rewrite ?Hpv, ?lookup_insert_eq.
Qed.

(** X24.  An inserted volume shows in the tree whenever its parent does.
    When the library's placement places the (non-blank) volume object
    that was asked for and the parent is still registered after the
    library's calls, then after [insert_volume] the new volume is a child
    of the parent in the merged child map, also when the library has put
    the placement into neither [physicalVolumeDict] nor the parent's
    [daughterVolumes]; so the tree made from the new registry has a row
    for the volume if it has one for the parent.  The name of the
    placement is a key of [physicalVolumeDict]; materials, definitions,
    solids, objects and the world pointer are as the library left
    them. *)
Theorem inserted_volume_shows_in_the_tree
    name_var material_var parent_var file reg reg' :
  (∀ material vol_name parent r pv r',
     build material vol_name parent r = (inr (inr pv), r') →
     is_Some (logicalVolumeDict r !! parent) →
     obj_name_of (logicalVolume pv) = Some vol_name ∧
     is_Some (logicalVolumeDict r' !! parent)) →
  insert_volume build name_var material_var parent_var file reg
    = (Inserted, reg') →
  let vol_name := Py.strip name_var in
  vol_name ∈ children_by_mother reg' !!! parent_var ∧
  (parent_var ∈ row_iid <$> populate_volume_tree (Some reg') →
   vol_name ∈ row_iid <$> populate_volume_tree (Some reg')) ∧
  is_Some (physicalVolumeDict reg' !! (vol_name ++ "_pv")%string).
Proof.
  intros Hbuild. unfold insert_volume.
  destruct (String.eqb (Py.strip name_var) "") eqn:Hn; [done|].
  apply String.eqb_neq in Hn.
  destruct (has_key _); [done|].
  destruct (String.eqb material_var ""); [done|].
  destruct (InsertVolumeDialog.get_or_create_material _ _ _)
    as [[msg|material] reg1]; [done|].
  destruct (logicalVolumeDict reg1 !! parent_var) as [parent_lv|] eqn:Hpar;
    [|done].
  destruct (build material _ _ reg1) as [[e|[msg|pv]] reg2] eqn:Hrun;
    [done..|].
  intros [= <-]. cbv zeta.
  destruct (Hbuild _ _ _ _ _ _ Hrun) as [Hchild Hparent]; [by eexists|].
  assert (Py.strip name_var ∈
          children_by_mother
            (back_fill (Py.strip name_var ++ "_pv")%string pv parent_var reg2)
            !!! parent_var) as Hin by by apply back_fill_child.
  split_and!; [done| |apply back_fill_frame].
  set (reg' := back_fill _ pv parent_var reg2) in *.
  destruct (obj_name_of (worldVolume reg')) as [w|] eqn:Hw;
    [|unfold populate_volume_tree; rewrite Hw; by intros ?%elem_of_nil].
  destruct (decide (w = "")) as [->|Hne];
    [unfold populate_volume_tree; rewrite Hw; by intros ?%elem_of_nil|].
  rewrite !(populate_volume_tree_reach reg' w Hw Hne).
  intros Hp. eapply reach_step; [exact Hp|].
  unfold sorted_children. rewrite elem_of_sorted, elem_of_elements.
  rewrite lookup_total_alt in Hin. exact Hin.
Qed.

End InsertVolumeFacts.

Section InsertVolumeExample.
Import Hierarchy InsertVolume.

Lemma inserted_volume_shows_in_the_tree_witness :
  let reg' := (insert_volume (G := Toy.G4) Examples2.forgetful_build
                 " C " "G4_AIR" "B" None Examples.nested).2 in
  "C" ∈ children_by_mother reg' !!! "B" ∧
  "C" ∈ row_iid <$> populate_volume_tree (Some reg').
Proof.
  intros reg'.
  destruct (inserted_volume_shows_in_the_tree (G := Toy.G4)
              Examples2.forgetful_build " C " "G4_AIR" "B" None
              Examples.nested reg') as (Hc & Ht & _).
  - intros material vol_name parent r pv r' [= <- <-] [lv Hlv].
    split; [done|]. cbn [logicalVolumeDict].
    destruct (decide (vol_name = parent)) as [->|Hne];
      [rewrite lookup_insert_eq|rewrite lookup_insert_ne by done];
      by eexists.
  - vm_compute. reflexivity.
  - split; [exact Hc|]. apply Ht.
    assert (row_iid <$> populate_volume_tree (Some reg') = ["W"; "A"; "B"; "C"])
      as -> by (vm_compute; reflexivity).
    apply list_elem_of_In. simpl. tauto.
Defined.

End InsertVolumeExample.

(** ** Editing a saved record *)

Section StripFacts.

Lemma append_cons c (a b : string) :
  (String c a ++ b)%string = String c (a ++ b)%string.
Proof. reflexivity. Qed.

Lemma append_empty_l (a : string) : ("" ++ a)%string = a.
Proof. reflexivity. Qed.

Lemma append_assoc (a b c : string) : ((a ++ b) ++ c = a ++ (b ++ c))%string.
Proof.
  induction a as [|x a IH]; [done|]. rewrite !append_cons. by rewrite IH.
Qed.

Lemma append_empty_r (a : string) : (a ++ "")%string = a.
Proof. induction a as [|x a IH]; [done|]. rewrite append_cons. by rewrite IH. Qed.

Lemma rev_string_acc (s acc : string) :
  Py.rev_string s acc = (Py.rev_string s "" ++ acc)%string.
Proof.
  revert acc. induction s as [|c s IH]; intros acc; simpl; [done|].
  rewrite (IH (String c acc)), (IH (String c "")), append_assoc. done.
Qed.

Lemma rev_string_append (a b : string) :
  Py.rev_string (a ++ b)%string "" =
  (Py.rev_string b "" ++ Py.rev_string a "")%string.
Proof.
  induction a as [|c a IH]; [by rewrite append_empty_l, append_empty_r|].
  rewrite append_cons. cbn [Py.rev_string].
  rewrite (rev_string_acc (a ++ b)), (rev_string_acc a), IH, append_assoc.
  done.
Qed.

Lemma rev_string_involutive (s : string) :
  Py.rev_string (Py.rev_string s "") "" = s.
Proof.
  induction s as [|c s IH]; [done|]. cbn [Py.rev_string].
  rewrite (rev_string_acc s (String c "")), rev_string_append, IH. done.
Qed.

Lemma lstrip_length (s : string) :
  String.length (Py.lstrip s) ≤ String.length s.
Proof.
  induction s as [|c s IH]; simpl; [done|].
  destruct (Py.is_space c); simpl; lia.
Qed.

Lemma lstrip_idempotent (s : string) : Py.lstrip (Py.lstrip s) = Py.lstrip s.
Proof.
  induction s as [|c s IH]; simpl; [done|].
  destruct (Py.is_space c) eqn:Hc; [done|]. simpl. by rewrite Hc.
Qed.

Lemma lstrip_suffix (s : string) : ∃ p, s = (p ++ Py.lstrip s)%string.
Proof.
  induction s as [|c s [p IH]]; simpl; [by exists ""|].
  destruct (Py.is_space c); [|by exists ""].
  exists (String c p). rewrite append_cons. by rewrite <- IH.
Qed.

Lemma lstrip_fixed_head c (s : string) :
  Py.lstrip (String c s) = String c s → Py.is_space c = false.
Proof.
  simpl. destruct (Py.is_space c); [|done]. intros H.
  pose proof (lstrip_length s) as Hlen. rewrite H in Hlen. simpl in Hlen. lia.
Qed.

(** [strip] does nothing to what it has produced. *)
Lemma strip_idempotent (s : string) : Py.strip (Py.strip s) = Py.strip s.
Proof.
  unfold Py.strip.
  set (t := Py.lstrip s).
  set (u := Py.lstrip (Py.rev_string t "")).
  assert (Py.lstrip t = t) as Ht by apply lstrip_idempotent.
  assert (Py.lstrip u = u) as Hu by apply lstrip_idempotent.
  destruct (lstrip_suffix (Py.rev_string t "")) as [p Hp]. fold u in Hp.
  assert (t = (Py.rev_string u "" ++ Py.rev_string p "")%string) as Hsplit.
  { rewrite <- (rev_string_involutive t), Hp. apply rev_string_append. }
  assert (Py.lstrip (Py.rev_string u "") = Py.rev_string u "") as Hfix.
  { destruct (Py.rev_string u "") as [|c a] eqn:Hr; [done|].
    rewrite append_cons in Hsplit. rewrite Hsplit in Ht.
    apply lstrip_fixed_head in Ht. simpl. by rewrite Ht. }
  by rewrite Hfix, rev_string_involutive, Hu.
Qed.

End StripFacts.

Section EditFacts.
Import Spec Spec2 MaterialDefinitionDialog EditMaterial.
Context (py_float : string → option float) (py_str : float → string).
Context (str_of_components : list component → string).

Lemma read_entries_stripped entries comps0 t0 comps total :
  read_entries py_float entries comps0 t0 = inr (comps, total) →
  Forall (λ c, Py.strip (element c) = element c) comps0 →
  Forall (λ c, Py.strip (element c) = element c) comps.
Proof.
  revert comps0 t0. induction entries as [|[e f] entries IH]; intros comps0 t0;
    simpl.
  - by intros [= <- <-].
  - destruct (_ && _); [apply IH|].
    destruct (_ || _); [done|].
    destruct (py_float _) as [fr|]; [|done].
    destruct (_ || _); [done|].
    intros Hread Hok. apply (IH _ _ Hread).
    apply Forall_app. split; [done|]. constructor; [|constructor].
    simpl. apply strip_idempotent.
Qed.

(** Reading the rows that [load_material] writes gives the components
    back. *)
Lemma read_entries_loaded (l comps0 : list component) t0 :
  Forall component_ok l →
  Forall (λ c, Py.strip (element c) = element c) l →
  Forall (reads_back py_float py_str) (fraction <$> l) →
  read_entries py_float ((λ c, (element c, py_str (fraction c))) <$> l)
    comps0 t0 = inr ((comps0 ++ l)%list, fraction_sum t0 l).
Proof.
  revert comps0 t0. induction l as [|[e x] l IH]; intros comps0 t0 Hok Hs Hr.
  - simpl. by rewrite app_nil_r.
  - apply Forall_cons in Hok as [(He & Hlo & Hhi) Hok].
    apply Forall_cons in Hs as [Hse Hs].
    rewrite fmap_cons in Hr. apply Forall_cons in Hr as [(_ & Hx & Hne) Hr].
    simpl in He, Hlo, Hhi, Hse, Hx, Hne.
    rewrite fmap_cons. cbn [read_entries element fraction].
    rewrite Hse, (proj2 (String.eqb_neq _ _) He),
      (proj2 (String.eqb_neq _ _) Hne), Hx, Hlo, Hhi.
    cbn [andb orb]. rewrite IH by done.
    by rewrite <- app_assoc.
Qed.

(** A record as [save_material] writes it, loaded into the form and
    saved again. *)
Lemma resave name db1 ty density unit c st t tu p pu :
  let d := mkMatData (Some ty) (Some density) (Some unit) (Some c) (Some st)
             t tu p pu in
  Py.strip name = name → name ≠ "" →
  UserMaterialDatabase.materials db1 !! name = Some d →
  UserMaterialDatabase.file db1 = Some (UserMaterialDatabase.materials db1) →
  UserMaterialDatabase.writable db1 = true →
  (density <=? 0)%float = false →
  match c with
  | Formula formula =>
      ty = "compound" ∧ formula ≠ "" ∧ Py.strip formula = formula
  | Components l =>
      ty ≠ "compound" ∧ l ≠ [] ∧ Forall component_ok l ∧
      Forall (λ c, Py.strip (element c) = element c) l ∧
      (0.001 <? abs (fraction_sum 0 l - 1.0))%float = false
  end →
  (t = None ∧ tu = None ∨ ∃ x u, t = Some x ∧ tu = Some u) →
  (p = None ∧ pu = None ∨ ∃ x u, p = Some x ∧ pu = Some u) →
  Forall (reads_back py_float py_str) (floats_of d) →
  ∃ f', init py_str str_of_components (Some name) db1 = inr f' ∧
        save_material py_float f' db1 = (inr name, db1).
Proof.
  intros d Hname Hne Hd Hfile Hw Hpos Hshape Ht Hp Hfloats.
  assert (String.eqb name "" = false) as Hn by by apply String.eqb_neq.
  assert (Py.truthy (Some name) = true) as Htruthy
    by (unfold Py.truthy; by rewrite Hn).
  unfold floats_of in Hfloats.
  cbn [d md_density md_composition md_temperature md_pressure option_list]
    in Hfloats.
  apply Forall_cons in Hfloats as [(Hdens & _ & _) Hfloats].
  apply Forall_app in Hfloats as [Hfr Hfloats].
  apply Forall_app in Hfloats as [Htf Hpf].
  assert (add_ok : UserMaterialDatabase.add_material name d db1 = (inr tt, db1)).
  { rewrite add_material_run, Hw, (insert_id _ _ _ Hd).
    destruct db1 as [m fl w]. simpl in *. by rewrite Hfile, Hw. }
  assert (∀ unit msg x,
            reads_back py_float py_str x →
            read_optional py_float (py_str x) unit msg
            = inr (Some x, Some unit)) as Hopt.
  { intros unit' msg x (_ & Hx & Hxne). unfold read_optional.
    by rewrite (proj2 (String.eqb_neq _ _) Hxne), Hx. }
  set (tv := match t with Some x => py_str x | None => "" end).
  set (tuv := match t with Some _ => default "K" tu | None => "K" end).
  set (pv := match p with Some x => py_str x | None => "" end).
  set (puv := match p with Some _ => default "pascal" pu | None => "pascal" end).
  assert (read_optional py_float tv tuv "Invalid temperature value"
          = inr (t, tu)) as Hrt.
  { unfold tv, tuv. destruct Ht as [[-> ->]|(x & u & -> & ->)]; [done|].
    apply Hopt. by apply Forall_cons in Htf as [? _]. }
  assert (read_optional py_float pv puv "Invalid pressure value"
          = inr (p, pu)) as Hrp.
  { unfold pv, puv. destruct Hp as [[-> ->]|(x & u & -> & ->)]; [done|].
    apply Hopt. by apply Forall_cons in Hpf as [? _]. }
  destruct c as [formula|l].
  - (* compound *)
    destruct Hshape as (Hty & Hfne & Hfs).
    exists (mkForm name (py_str density) ty unit formula [] st tv tuv pv puv).
    split.
    + unfold init, setup_ui. rewrite Htruthy. cbn [default from_option id].
      unfold load_material, UserMaterialDatabase.get_material. rewrite Hd.
      subst ty. unfold tv, tuv, pv, puv. by destruct t, p.
    + unfold save_material, read_composition.
      cbn [name_var density_var material_type density_unit_var formula_var
           element_entries state_var temp_var temp_unit_var pressure_var
           pressure_unit_var].
      rewrite Hname, Hn, Hdens, Hpos, Hty, String.eqb_refl, Hfs,
        (proj2 (String.eqb_neq _ _) Hfne), Hrt, Hrp.
      rewrite <- Hty. fold d. by rewrite add_ok.
  - (* mixture *)
    destruct Hshape as (Hty & Hl & Hok & Hstr & Htol).
    apply String.eqb_neq in Hty.
    exists (mkForm name (py_str density) ty unit ""
              ((λ comp, (element comp, py_str (fraction comp))) <$> l)
              st tv tuv pv puv).
    split.
    + unfold init, setup_ui. rewrite Htruthy. cbn [default from_option id].
      unfold load_material, UserMaterialDatabase.get_material. rewrite Hd.
      cbn [d md_truthy md_type md_density md_density_unit md_composition
           md_state md_temperature md_temp_unit md_pressure md_pressure_unit
           has_key orb negb].
      rewrite Hty. unfold update_composition_ui.
      cbn [material_type default from_option id]. rewrite Hty.
      unfold tv, tuv, pv, puv. by destruct t, p.
    + unfold save_material, read_composition.
      cbn [name_var density_var material_type density_unit_var formula_var
           element_entries state_var temp_var temp_unit_var pressure_var
           pressure_unit_var].
      rewrite Hname, Hn, Hdens, Hpos, Hty,
        (read_entries_loaded l [] 0%float Hok Hstr Hfr).
      cbn [app]. rewrite Htol, Hrt, Hrp.
      destruct l as [|c0 l]; [done|]. fold d. by rewrite add_ok.
Qed.

(** X25.  Opening the definition dialog on a record the dialog has saved
    and saving again without touching the form stores the same record:
    the dialog opens without an exception, the second save succeeds under
    the same name, and the catalog and its file are exactly as the first
    save left them.  (For numbers whose text, as Python prints it, is
    read back as the same number.) *)
Theorem saving_an_unchanged_record_changes_nothing f db name db1 d :
  save_material py_float f db = (inr name, db1) →
  UserMaterialDatabase.materials db1 !! name = Some d →
  Forall (reads_back py_float py_str) (floats_of d) →
  ∃ f', init py_str str_of_components (Some name) db1 = inr f' ∧
        save_material py_float f' db1 = (inr name, db1).
Proof.
  intros Hsave Hd Hfloats.
  unfold save_material in Hsave.
  destruct (String.eqb (Py.strip (name_var f)) "") eqn:Hn; [done|].
  destruct (py_float (density_var f)) as [density|]; [|done].
  destruct (density <=? 0)%float eqn:Hpos; [done|].
  destruct (read_composition py_float f) as [|c] eqn:Hc; [done|].
  destruct (read_optional _ (temp_var f) _ _) as [|[t tu]] eqn:Ht; [done|].
  destruct (read_optional _ (pressure_var f) _ _) as [|[p pu]] eqn:Hp; [done|].
  rewrite add_material_run in Hsave.
  destruct (UserMaterialDatabase.writable db) eqn:Hw; [|done].
  injection Hsave as <- <-.
  pose proof Hd as Hd'.
  cbn [UserMaterialDatabase.materials] in Hd'.
  rewrite lookup_insert_eq in Hd'. injection Hd' as <-.
  eapply resave; try done.
  - apply strip_idempotent.
  - by apply String.eqb_neq.
  - pose proof (read_composition_ok _ _ _ Hc) as Hshape.
    unfold read_composition in Hc.
    destruct c as [formula|l].
    + destruct Hshape as [Hty Hfne]. split_and!; [done..|].
      rewrite Hty, String.eqb_refl in Hc.
      destruct (String.eqb _ "") in Hc; [done|]. injection Hc as <-.
      apply strip_idempotent.
    + destruct Hshape as (Hty & Hl & Hok & Htol). split_and!; [done..| |done].
      rewrite (proj2 (String.eqb_neq _ _) Hty) in Hc.
      destruct (read_entries _ _ _ _) as [|[comps total]] eqn:Hread; [done|].
      pose proof (read_entries_stripped _ _ _ _ _ Hread (Forall_nil_2 _)) as Hs.
      destruct comps; [done|]. destruct (_ <? _)%float; [done|].
      by injection Hc as <-.
  - unfold read_optional in Ht. destruct (String.eqb _ _) in Ht.
    + injection Ht as <- <-. by left.
    + destruct (py_float _) in Ht; [|done]. injection Ht as <- <-.
      right. by eexists _, _.
  - unfold read_optional in Hp. destruct (String.eqb _ _) in Hp.
    + injection Hp as <- <-. by left.
    + destruct (py_float _) in Hp; [|done]. injection Hp as <- <-.
      right. by eexists _, _.
Qed.


End EditFacts.

Section EditExample.
Import Spec2 MaterialDefinitionDialog EditMaterial.

Lemma saving_an_unchanged_record_changes_nothing_witness :
  let db1 := (save_material Toy.py_float Catalog.form_water Catalog.db).2 in
  ∃ f', init Examples2.py_str (λ _, "") (Some "Water2") db1 = inr f' ∧
        save_material Toy.py_float f' db1 = (inr "Water2", db1).
Proof.
  intros db1.
  eapply (saving_an_unchanged_record_changes_nothing Toy.py_float
            Examples2.py_str (λ _, "") Catalog.form_water Catalog.db "Water2"
            db1).
  - vm_compute. reflexivity.
  - vm_compute. reflexivity.
  - repeat constructor; vm_compute; congruence.
Defined.

End EditExample.
